(** * play_mod: an SDL2 front end for the libxmp module replayer

    A shallow embedding of [play_mod.c].  The program is orchestration
    code over two libraries (SDL2 with SDL_ttf, and libxmp), so the
    embedding keeps the program's own variables and control flow and treats
    the libraries as an environment:

    - every library call that acts on the outside world is appended, with
      its arguments, to a chronological [log];
    - every value a library hands back (return codes, handles, events,
      frame information) is read from a script supplied by the environment;
    - the modules the replayer holds are a store indexed by context, since
      [mi.mod] points into it;
    - where the program itself reads through a pointer ([screen->format],
      [mi.mod->...], [fi.channel_info[ch]]) or divides, and the pointer is
      [NULL], the module has been released, the index is outside the frame
      information or the divisor is zero, the run ends in a [Fault].  What
      a library does with a handle that has been released is not modelled:
      the [log] shows the call.

    C [int]s are integers of [Z] with 32-bit wrap-around written out
    ([Int.wrap]); [char] buffers are lists of [ascii] of the declared size;
    audio memory is a list of bytes. *)

From Stdlib Require Import ZArith List String Ascii Lia Bool DecimalString.
From Stdlib Require Init.Byte.
Import ListNotations.

Local Open Scope Z_scope.

(** ** C integers *)

Module Int.

Definition min_int : Z := -2147483648.
Definition max_int : Z := 2147483647.

(** Reduction of a mathematical integer to the 32-bit signed range. *)
Definition wrap (z : Z) : Z := (z + 2147483648) mod 4294967296 - 2147483648.

Definition add (a b : Z) : Z := wrap (a + b).
Definition sub (a b : Z) : Z := wrap (a - b).
Definition mul (a b : Z) : Z := wrap (a * b).

(** [a / b] truncates towards zero; it has no value when [b] is zero, nor
    for the one quotient that leaves the range. *)
Definition div (a b : Z) : option Z :=
  if (b =? 0) || ((a =? min_int) && (b =? -1)) then None
  else Some (Z.quot a b).

(** [!a] *)
Definition lnot (a : Z) : Z := if a =? 0 then 1 else 0.

(** [a ? x : y] and [if (a)] test [a] against zero. *)
Definition truthy (a : Z) : bool := negb (a =? 0).

Definition in_range (z : Z) : Prop := min_int <= z <= max_int.

End Int.

(** ** Text *)

(** [%d] *)
Definition fmt_d (n : Z) : string := NilEmpty.string_of_int (Z.to_int n).

(** [%02d]: at least two characters, padded on the left with zeros. *)
Definition fmt_02d (n : Z) : string :=
  let s := fmt_d n in
  if (String.length s <? 2)%nat then String "0" s else s.

(** [snprintf(buf, size, ...)] keeps at most [size - 1] characters. *)
Definition snprintf (size : nat) (s : string) : string :=
  substring 0 (size - 1) s.

(** The zero byte that ends a C string. *)
Definition NUL : ascii := Ascii.zero.

(** The C string held by a [char] buffer: the characters before the first
    zero byte. *)
Fixpoint cstr (buf : list ascii) : string :=
  match buf with
  | [] => EmptyString
  | c :: rest => if Ascii.eqb c NUL then EmptyString else String c (cstr rest)
  end.

(** [strncpy(dest, src, n)]: the first [n] bytes of [dest] receive the
    characters of [src], cut after [n] of them, and zero bytes once [src] is
    exhausted; the bytes of [dest] from index [n] on are kept. *)
Definition strncpy (dest : list ascii) (src : string) (n : nat) : list ascii :=
  firstn n (list_ascii_of_string src ++ repeat NUL n) ++ skipn n dest.

Arguments strncpy dest src n : simpl never.

(** No zero byte inside: every C string is like that. *)
Fixpoint no_nul (s : string) : bool :=
  match s with
  | EmptyString => true
  | String c rest => negb (Ascii.eqb c NUL) && no_nul rest
  end.

(** ** The audio callback *)

(** The two file-scope flags, the only variables with static storage. *)
Record Globals : Type := mkGlobals {
  paused : Z;
  stopped : Z
}.

(** [memset(s, 0, n)] with [n] an [int] passed for a [size_t]: the first [n]
    bytes become zero.  A negative [n] turns into a huge count, and writing
    past the end of the buffer has no defined result. *)
Definition memset0 (s : list Byte.byte) (n : Z) : option (list Byte.byte) :=
  if (0 <=? n) && (n <=? Z.of_nat (List.length s)) then
    Some (repeat Byte.x00 (Z.to_nat n) ++ skipn (Z.to_nat n) s)
  else None.

Section Audio.

(** The state of the replay library behind a context handle. *)
Variable decoder : Type.

(** [xmp_play_buffer(ctx, buffer, size, loop)]: the library fills the
    buffer and advances its own state. *)
Variable xmp_play_buffer :
  decoder -> Z -> list Byte.byte -> Z -> Z -> decoder * list Byte.byte.

(** What one invocation of the callback leaves behind: the flags, the
    library state and the stream. *)
Definition fill_audio (g : Globals) (d : decoder)
    (udata : Z) (stream : list Byte.byte) (len : Z)
  : option (Globals * decoder * list Byte.byte) :=
  if Int.truthy (stopped g) then
    match memset0 stream len with
    | Some out => Some (g, d, out)
    | None => None
    end
  else if negb (Int.truthy (paused g)) then
    let '(d', out) := xmp_play_buffer d udata stream len 0 in
    Some (g, d', out)
  else
    match memset0 stream len with
    | Some out => Some (g, d, out)
    | None => None
    end.

End Audio.

Arguments fill_audio {decoder} xmp_play_buffer g d udata stream len.

(** ** Data of the two libraries *)

(** The fields of [mi.mod] the program reads. *)
Record xmp_module : Type := mkModule {
  name : string;
  type : string;
  chn : Z;
  pat : Z;
  ins : Z;
  len : Z
}.

(** [struct xmp_module_info], of which the program reads [mod] only,
    here [module_of] ([mod] is the notation of the remainder).  The module
    lives inside its context: the pointer [mi.mod] is written as the handle
    of the context it points into. *)
Record xmp_module_info : Type := mkModuleInfo {
  module_of : Z
}.

Record xmp_channel_info : Type := mkChannel {
  note : Z;
  instrument : Z;
  volume : Z
}.

(** The fields of [struct xmp_frame_info] the program reads; [channel_info]
    is an array, and reading behind its end has no defined result. *)
Record xmp_frame_info : Type := mkFrameInfo {
  loop_count : Z;
  pattern : Z;
  channel_info : list xmp_channel_info
}.

Record SDL_Color : Type := mkColor {
  col_r : Z;
  col_g : Z;
  col_b : Z;
  col_a : Z
}.

Record SDL_Rect : Type := mkRect {
  rect_x : Z;
  rect_y : Z;
  rect_w : Z;
  rect_h : Z
}.

(** A pixel value, as [SDL_MapRGB] makes it. *)
Inductive Pixel : Type :=
| SDL_MapRGB (r g b : Z).

(** [SDL_MapRGB(screen->format, r, g, b)]: the program reads the format
    through [screen], which it cannot do when [screen] is [NULL]. *)
Definition map_rgb (screen : Z) (r g b : Z) : option Pixel :=
  if screen =? 0 then None else Some (SDL_MapRGB r g b).

Inductive AudioFormat : Type :=
| AUDIO_S16.

(** [spec.callback] is always [fill_audio] and is left out. *)
Record SDL_AudioSpec : Type := mkSpec {
  freq : Z;
  format : AudioFormat;
  channels : Z;
  samples : Z;
  userdata : Z
}.

Inductive Keycode : Type :=
| SDLK_SPACE
| SDLK_ESCAPE
| SDLK_v
| SDLK_other.

Inductive SDL_Event : Type :=
| SDL_QUIT
| SDL_KEYDOWN (sym : Keycode)
| SDL_DROPFILE (file : string)
| SDL_other_event.

(** A surface is the window's or one rasterised from a text. *)
Inductive Surface : Type :=
| WindowSurface (handle : Z)
| TextSurface (text : string).

Inductive PrintArg : Type :=
| SDL_GetError
| TTF_GetError
| StringArg (s : string).

(** The library calls that act on the outside world.  Handles are the
    values the libraries returned, [0] standing for [NULL]; what a library
    does with a handle it has already released is not modelled. *)
Inductive Call : Type :=
| SDL_Init
| TTF_Init
| TTF_OpenFont (path : string) (ptsize : Z)
| SDL_CreateWindow (title : string) (width height : Z)
| SDL_CreateRenderer (window : Z)
| SDL_GetWindowSurface (window : Z)
| SDL_EventState_enable_DROPFILE
| SDL_FillRect (screen : Z) (rect : option SDL_Rect) (color : Pixel)
| TTF_RenderUTF8_Blended (font : Z) (text : string) (color : SDL_Color)
| SDL_BlitSurface (src : Surface) (dst : Z) (dest : SDL_Rect)
| SDL_FreeSurface (s : Surface)
| SDL_UpdateWindowSurface (window : Z)
| SDL_Delay (ms : Z)
| SDL_free (file : string)
| xmp_create_context
| xmp_load_module (ctx : Z) (path : string)
| xmp_get_module_info (ctx : Z)
| SDL_OpenAudio (spec : SDL_AudioSpec)
| xmp_start_player (ctx : Z) (rate flags : Z)
| SDL_PauseAudio (pause_on : Z)
| xmp_get_frame_info (ctx : Z)
| xmp_end_player (ctx : Z)
| xmp_release_module (ctx : Z)
| xmp_free_context (ctx : Z)
| SDL_CloseAudio
| TTF_CloseFont (font : Z)
| TTF_Quit
| SDL_DestroyRenderer (renderer : Z)
| SDL_DestroyWindow (window : Z)
| SDL_Quit
| fprintf_stderr (format : string) (args : list PrintArg).

(** ** The environment *)

(** What the toolkit answers while the program starts. *)
Record BootAnswers : Type := mkBoot {
  ans_SDL_Init : Z;
  ans_TTF_Init : Z;
  ans_TTF_OpenFont : Z;
  ans_SDL_CreateWindow : Z;
  ans_SDL_CreateRenderer : Z;
  ans_SDL_GetWindowSurface : Z
}.

(** What the libraries answer during one attempt to load and start a
    module; [ans_xmp_get_module_info] is the module that a successful
    [xmp_load_module] puts into the context and that
    [xmp_get_module_info] then points to. *)
Record LoadAnswers : Type := mkLoad {
  ans_xmp_create_context : Z;
  ans_xmp_load_module : Z;
  ans_xmp_get_module_info : xmp_module;
  ans_SDL_OpenAudio : Z;
  ans_xmp_start_player : Z
}.

(** What one iteration of the main loop gets: the events [SDL_PollEvent]
    hands out before it returns 0, and the frame information. *)
Record FrameInput : Type := mkFrameInput {
  pending : list SDL_Event;
  frame_info : xmp_frame_info
}.

(** [loads n] answers the [n]-th load attempt of the run.  [renders text]
    tells whether [TTF_RenderUTF8_Blended] returns a surface for [text].
    [waits] are the successive results of [SDL_WaitEvent]: an event, or
    [None] when it returns 0, which it does on an error. *)
Record Env : Type := mkEnv {
  boot : BootAnswers;
  loads : nat -> LoadAnswers;
  renders : string -> bool;
  waits : list (option SDL_Event);
  frames : list FrameInput
}.

(** The modules the replayer holds, by context. *)
Definition Modules : Type := Z -> option xmp_module.

Definition no_modules : Modules := fun _ => None.

Definition store (ctx : Z) (m : xmp_module) (h : Modules) : Modules :=
  fun p => if p =? ctx then Some m else h p.

Definition unload (ctx : Z) (h : Modules) : Modules :=
  fun p => if p =? ctx then None else h p.

(** [xmp_release_module] and [xmp_free_context] take the module of their
    context away. *)
Definition react (h : Modules) (c : Call) : Modules :=
  match c with
  | xmp_release_module ctx | xmp_free_context ctx => unload ctx h
  | _ => h
  end.

(** The outside world as the program has shaped it so far. *)
Record World : Type := mkWorld {
  log : list Call;
  attempts : nat;
  modules : Modules
}.

Definition emit (cs : list Call) (w : World) : World :=
  {| log := log w ++ cs; attempts := attempts w;
     modules := fold_left react cs (modules w) |}.

Definition next_attempt (w : World) : World :=
  {| log := log w; attempts := S (attempts w); modules := modules w |}.

(** A successful [xmp_load_module(ctx, ...)] puts a module into [ctx]. *)
Definition loaded (ctx : Z) (m : xmp_module) (w : World) : World :=
  {| log := log w; attempts := attempts w;
     modules := store ctx m (modules w) |}.

(** ** The variables of [main] *)

(** [info], [event] and [fi] are scratch variables, written before each
    use, and appear as bound values where they are used. *)
Record Locals : Type := mkLocals {
  modfile : list ascii;
  file_loaded : Z;
  ctx : Z;
  mi : xmp_module_info;
  spec : SDL_AudioSpec;
  done : Z;
  show_visualizer : Z;
  last_pattern : Z;
  font : Z;
  window : Z;
  renderer : Z;
  screen : Z;
  white : SDL_Color;
  blue : SDL_Color;
  yellow : SDL_Color;
  red : SDL_Color
}.

Record State : Type := mkState {
  globals : Globals;
  locals : Locals
}.

Definition set_paused (v : Z) (s : State) : State :=
  {| globals := {| paused := v; stopped := stopped (globals s) |};
     locals := locals s |}.

Definition set_stopped (v : Z) (s : State) : State :=
  {| globals := {| paused := paused (globals s); stopped := v |};
     locals := locals s |}.

Definition with_locals (f : Locals -> Locals) (s : State) : State :=
  {| globals := globals s; locals := f (locals s) |}.

Definition set_modfile (v : list ascii) : State -> State :=
  with_locals (fun l =>
    mkLocals v (file_loaded l) (ctx l) (mi l) (spec l) (done l)
      (show_visualizer l) (last_pattern l) (font l) (window l) (renderer l)
      (screen l) (white l) (blue l) (yellow l) (red l)).

Definition set_ctx (v : Z) : State -> State :=
  with_locals (fun l =>
    mkLocals (modfile l) (file_loaded l) v (mi l) (spec l) (done l)
      (show_visualizer l) (last_pattern l) (font l) (window l) (renderer l)
      (screen l) (white l) (blue l) (yellow l) (red l)).

Definition set_mi (v : xmp_module_info) : State -> State :=
  with_locals (fun l =>
    mkLocals (modfile l) (file_loaded l) (ctx l) v (spec l) (done l)
      (show_visualizer l) (last_pattern l) (font l) (window l) (renderer l)
      (screen l) (white l) (blue l) (yellow l) (red l)).

Definition set_userdata (v : Z) : State -> State :=
  with_locals (fun l =>
    mkLocals (modfile l) (file_loaded l) (ctx l) (mi l)
      (mkSpec (freq (spec l)) (format (spec l)) (channels (spec l))
         (samples (spec l)) v)
      (done l)
      (show_visualizer l) (last_pattern l) (font l) (window l) (renderer l)
      (screen l) (white l) (blue l) (yellow l) (red l)).

Definition set_done (v : Z) : State -> State :=
  with_locals (fun l =>
    mkLocals (modfile l) (file_loaded l) (ctx l) (mi l) (spec l) v
      (show_visualizer l) (last_pattern l) (font l) (window l) (renderer l)
      (screen l) (white l) (blue l) (yellow l) (red l)).

Definition set_show_visualizer (v : Z) : State -> State :=
  with_locals (fun l =>
    mkLocals (modfile l) (file_loaded l) (ctx l) (mi l) (spec l) (done l)
      v (last_pattern l) (font l) (window l) (renderer l)
      (screen l) (white l) (blue l) (yellow l) (red l)).

(** ** Layout arithmetic *)

Definition note_names : list string :=
  [ "---"; "C-0"; "C#0"; "D-0"; "D#0"; "E-0"; "F-0"; "F#0"; "G-0"; "G#0"; "A-0"; "A#0"; "B-0";
    "C-1"; "C#1"; "D-1"; "D#1"; "E-1"; "F-1"; "F#1"; "G-1"; "G#1"; "A-1"; "A#1"; "B-1";
    "C-2"; "C#2"; "D-2"; "D#2"; "E-2"; "F-2"; "F#2"; "G-2"; "G#2"; "A-2"; "A#2"; "B-2";
    "C-3"; "C#3"; "D-3"; "D#3"; "E-3"; "F-3"; "F#3"; "G-3"; "G#3"; "A-3"; "A#3"; "B-3";
    "C-4"; "C#4"; "D-4"; "D#4"; "E-4"; "F-4"; "F#4"; "G-4"; "G#4"; "A-4"; "A#4"; "B-4";
    "C-5"; "C#5"; "D-5"; "D#5"; "E-5"; "F-5"; "F#5"; "G-5"; "G#5"; "A-5"; "A#5"; "B-5";
    "C-6"; "C#6"; "D-6"; "D#6"; "E-6"; "F-6"; "F#6"; "G-6"; "G#6"; "A-6"; "A#6"; "B-6";
    "C-7"; "C#7"; "D-7"; "D#7"; "E-7"; "F-7"; "F#7"; "G-7"; "G#7"; "A-7"; "A#7"; "B-7";
    "C-8" ]%string.

(** [sizeof(note_names)/sizeof(note_names[0])] *)
Definition note_names_count : Z := Z.of_nat (List.length note_names).

(** The note text of a channel; [None] would be a read outside the
    table. *)
Definition note_str (note : Z) : option string :=
  if (0 <? note) && (note <? note_names_count) then
    nth_error note_names (Z.to_nat note)
  else Some "---"%string.

(** The number of channels the information panel lists. *)
Definition info_max_channels (chn : Z) : Z := if chn <? 8 then chn else 8.

Definition visualizer_width : Z := Int.sub 480 60.
Definition base_x : Z := 30.
Definition base_y : Z := 10.
Definition bar_max_height : Z := 110.
Definition spacing : Z := 2.

(** The width of a bar for [max_channels] channels. *)
Definition bar_width (max_channels : Z) : option Z :=
  match Int.div
          (Int.sub visualizer_width (Int.mul (Int.sub max_channels 1) spacing))
          max_channels with
  | None => None
  | Some bw => Some (if bw <? 2 then 2 else bw)
  end.

(** The height of the bar of a channel at volume [vol]. *)
Definition bar_height (vol : Z) : option Z :=
  Int.div (Int.mul vol bar_max_height) 64.

(** The rectangle of channel [ch]. *)
Definition bar_rect (ch bar_width bar_height : Z) : SDL_Rect :=
  {| rect_x := Int.add base_x (Int.mul ch (Int.add bar_width spacing));
     rect_y := Int.add base_y (Int.sub bar_max_height bar_height);
     rect_w := bar_width;
     rect_h := bar_height |}.

(** What a piece of drawing code has done: all its calls, or the calls it
    made before it read what cannot be read. *)
Inductive Drawing : Type :=
| Drawn (calls : list Call)
| Broken (calls : list Call).

Definition calls_of (d : Drawing) : list Call :=
  match d with
  | Drawn calls | Broken calls => calls
  end.

(** The calls [cs], and then the drawing [d]. *)
Definition and_then (cs : list Call) (d : Drawing) : Drawing :=
  match d with
  | Drawn rest => Drawn (cs ++ rest)
  | Broken rest => Broken (cs ++ rest)
  end.

(** [for (int ch = from; ch < from + n; ++ch) body], the calls of the
    iterations in order; a fault in an iteration ends the loop.  An
    iteration reads the channel before it draws: [body ch] is [None] when
    it cannot. *)
Fixpoint for_channels (n : nat) (ch : Z) (body : Z -> option (list Call))
  : Drawing :=
  match n with
  | O => Drawn []
  | S n' =>
      match body ch with
      | None => Broken []
      | Some cs => and_then cs (for_channels n' (Int.add ch 1) body)
      end
  end.

Definition nl : string := String (ascii_of_nat 10) EmptyString.

Definition black : Pixel := SDL_MapRGB 0 0 0.

(** How a run goes, as far as the scripts of the environment reach: it
    returns a status, stays blocked in [SDL_WaitEvent], is still in the main
    loop, or has read through a pointer that cannot be read or divided by
    zero. *)
Inductive Outcome : Type :=
| Exit (status : Z) (w : World)
| Blocked (w : World)
| Running (s : State) (w : World)
| Fault (w : World).

(** How the start-up loop ends. *)
Inductive Waited : Type :=
| WaitQuit (w : World)
| WaitBlocked (w : World)
| WaitLeft (modfile : list ascii) (file_loaded : Z) (w : World)
| WaitFault (w : World).

Section Program.

Variable env : Env.

(** ** Drawing *)

Definition render_text (screen font : Z) (x y : Z) (text : string)
    (color : SDL_Color) : list Call :=
  TTF_RenderUTF8_Blended font text color ::
  (if renders env text then
     [ SDL_BlitSurface (TextSurface text) screen (mkRect x y 0 0);
       SDL_FreeSurface (TextSurface text) ]
   else []).

(** [render_text(screen, font, x, y, text, color)] with the handles that
    [main] holds. *)
Definition text (s : State) (x y : Z) (t : string) (color : SDL_Color)
  : list Call :=
  render_text (screen (locals s)) (font (locals s)) x y t color.

(** The two lines of key help, the pattern number and the play state, which
    both displays end with. *)
Definition draw_controls (s : State) (fi : xmp_frame_info) : list Call :=
  let l := locals s in
  text s 10 140 "SPACE: Play/Pause" (white l)
  ++ text s 10 155 "ESC: Stop and exit   V: Visualizer" (white l)
  ++ text s 300 140 "Playing pattern:" (white l)
  ++ text s 428 140 (snprintf 256 (" " ++ fmt_d (pattern fi))) (red l)
  ++ text s 300 155
       (if Int.truthy (paused (globals s)) then "Paused" else "Playing")
       (white l).

Definition info_channel_line (s : State) (fi : xmp_frame_info) (ch : Z)
  : option (list Call) :=
  let l := locals s in
  match nth_error (channel_info fi) (Z.to_nat ch) with
  | None => None
  | Some ci =>
      match note_str (note ci) with
      | None => None
      | Some str =>
          Some (render_text (screen l) (font l)
                  300 (Int.add 10 (Int.mul ch 15))
                  (snprintf 256
                     ("Ch" ++ fmt_02d (Int.add ch 1) ++ ": " ++ str
                      ++ " Ins:" ++ fmt_02d (instrument ci))%string)
                  (yellow l))
      end
  end.

(** The fields of the module [m] that [mi.mod] points to. *)
Definition info_fields (s : State) (m : xmp_module) : list Call :=
  let l := locals s in
  let y := 10 in
  text s 10 y (snprintf 256 "Title:") (white l)
  ++ text s 60 y (snprintf 256 (" " ++ name m)) (blue l)
  ++
  let y := Int.add y 20 in
  text s 10 y (snprintf 256 "Type:") (white l)
  ++ text s 50 y (snprintf 256 (" " ++ type m)) (blue l)
  ++
  let y := Int.add y 20 in
  text s 10 y (snprintf 256 "Channels:") (white l)
  ++ text s 90 y (snprintf 256 (" " ++ fmt_d (chn m))) (blue l)
  ++
  let y := Int.add y 20 in
  text s 10 y (snprintf 256 "Patterns:") (white l)
  ++ text s 90 y (snprintf 256 (" " ++ fmt_d (pat m))) (blue l)
  ++
  let y := Int.add y 20 in
  text s 10 y (snprintf 256 "Instruments:") (white l)
  ++ text s 120 y (snprintf 256 (" " ++ fmt_d (ins m))) (blue l)
  ++
  let y := Int.add y 20 in
  text s 10 y (snprintf 256 "Length:") (white l)
  ++ text s 70 y (snprintf 256 (" " ++ fmt_d (len m) ++ " patterns")) (blue l).

(** The song-information panel; [mi.mod] is read in the store [h], for
    the first time behind the label of the title. *)
Definition draw_info (s : State) (h : Modules) (fi : xmp_frame_info)
  : Drawing :=
  match h (module_of (mi (locals s))) with
  | None => Broken (text s 10 10 (snprintf 256 "Title:") (white (locals s)))
  | Some m =>
      let max_channels := info_max_channels (chn m) in
      and_then (info_fields s m ++ draw_controls s fi)
        (for_channels (Z.to_nat max_channels) 0 (info_channel_line s fi))
  end.

Definition visualizer_bar (s : State) (fi : xmp_frame_info) (bar_width : Z)
    (ch : Z) : option (list Call) :=
  let l := locals s in
  match nth_error (channel_info fi) (Z.to_nat ch) with
  | None => None
  | Some ci =>
      let vol := volume ci in
      match bar_height vol with
      | None => None
      | Some bar_height =>
          let bar := bar_rect ch bar_width bar_height in
          match map_rgb (screen l) 255 255 0 with
          | None => None
          | Some color =>
              Some (SDL_FillRect (screen l) (Some bar) color
                    :: render_text (screen l) (font l)
                         (Int.add base_x
                            (Int.mul ch (Int.add bar_width spacing)))
                         (Int.add (Int.add base_y bar_max_height) 5)
                         (snprintf 256 (fmt_d (Int.add ch 1)))
                         (white l))
          end
      end
  end.

(** The per-channel volume bars; [mi.mod] is read in the store [h]. *)
Definition draw_visualizer (s : State) (h : Modules) (fi : xmp_frame_info)
  : Drawing :=
  match h (module_of (mi (locals s))) with
  | None => Broken []
  | Some m =>
      let max_channels := chn m in
      match bar_width max_channels with
      | None => Broken []
      | Some bar_width =>
          match for_channels (Z.to_nat max_channels) 0
                  (visualizer_bar s fi bar_width) with
          | Broken bars => Broken bars
          | Drawn bars => Drawn (bars ++ draw_controls s fi)
          end
      end
  end.

(** The display of one frame. *)
Definition draw (s : State) (h : Modules) (fi : xmp_frame_info)
  : Drawing :=
  if negb (Int.truthy (show_visualizer (locals s))) then draw_info s h fi
  else draw_visualizer s h fi.

(** ** Event handling *)

(** The [SDL_DROPFILE] branch: end the current playback, then load and
    start the dropped file.  The boolean tells whether the branch left the
    polling loop with [break]. *)
Definition drop_file (file : string) (s : State) (w : World)
  : bool * State * World :=
  (* Stop current playback and clean up *)
  let s := set_stopped 1 s in
  let old := ctx (locals s) in
  let w := emit [ SDL_PauseAudio 1; xmp_end_player old; xmp_release_module old;
                  xmp_free_context old; SDL_CloseAudio ] w in
  (* Load new file *)
  let s := set_modfile (strncpy (modfile (locals s)) file 1023) s in
  let w := emit [ SDL_free file ] w in
  let answers := loads env (attempts w) in
  let w := next_attempt w in
  let w := emit [ xmp_create_context ] w in
  let s := set_ctx (ans_xmp_create_context answers) s in
  let c := ctx (locals s) in
  if c =? 0 then
    let w := emit [ fprintf_stderr ("Failed to create xmp context" ++ nl) [] ] w in
    (true, set_done 1 s, w)
  else
  let path := cstr (modfile (locals s)) in
  let w := emit [ xmp_load_module c path ] w in
  if ans_xmp_load_module answers <? 0 then
    let w := emit [ fprintf_stderr ("Failed to load module: %s" ++ nl)
                      [ StringArg path ];
                    xmp_free_context c ] w in
    (true, set_done 1 s, w)
  else
  let w := loaded c (ans_xmp_get_module_info answers) w in
  let w := emit [ xmp_get_module_info c ] w in
  let s := set_mi {| module_of := c |} s in
  (* Re-open audio *)
  let s := set_userdata c s in
  let w := emit [ SDL_OpenAudio (spec (locals s)) ] w in
  if ans_SDL_OpenAudio answers <? 0 then
    let w := emit [ fprintf_stderr ("SDL_OpenAudio: %s" ++ nl) [ SDL_GetError ];
                    xmp_release_module c; xmp_free_context c ] w in
    (true, set_done 1 s, w)
  else
  let w := emit [ xmp_start_player c 44100 0 ] w in
  if ans_xmp_start_player answers <? 0 then
    let w := emit [ fprintf_stderr ("xmp_start_player failed" ++ nl) [];
                    SDL_CloseAudio; xmp_release_module c;
                    xmp_free_context c ] w in
    (true, set_done 1 s, w)
  else
  let s := set_paused 0 s in
  let s := set_stopped 0 s in
  let w := emit [ SDL_PauseAudio 0 ] w in
  (false, s, w).

(** The body of the polling loop for one event. *)
Definition handle_event (event : SDL_Event) (s : State) (w : World)
  : bool * State * World :=
  match event with
  | SDL_QUIT => (false, set_stopped 1 (set_done 1 s), w)
  | SDL_KEYDOWN SDLK_SPACE =>
      (false, set_paused (Int.lnot (paused (globals s))) s, w)
  | SDL_KEYDOWN SDLK_ESCAPE => (false, set_done 1 (set_stopped 1 s), w)
  | SDL_KEYDOWN SDLK_v =>
      (false,
       set_show_visualizer (Int.lnot (show_visualizer (locals s))) s, w)
  | SDL_KEYDOWN SDLK_other => (false, s, w)
  | SDL_DROPFILE file => drop_file file s w
  | SDL_other_event => (false, s, w)
  end.

(** [while (SDL_PollEvent(&event)) ...]: the pending events in order, up
    to a [break]. *)
Fixpoint poll_events (events : list SDL_Event) (s : State) (w : World)
  : State * World :=
  match events with
  | [] => (s, w)
  | event :: rest =>
      let '(brk, s', w') := handle_event event s w in
      if brk then (s', w') else poll_events rest s' w'
  end.

(** ** The main loop *)

(** What an iteration does after the events. *)
Definition show_frame (fi : xmp_frame_info) (s : State) (w : World)
  : option State * World :=
  let w := emit [ xmp_get_frame_info (ctx (locals s)) ] w in
  let s := if (0 <? loop_count fi) || Int.truthy (stopped (globals s))
           then set_done 1 s else s in
  (* Clear screen *)
  match map_rgb (screen (locals s)) 0 0 0 with
  | None => (None, w)
  | Some color =>
      let w := emit [ SDL_FillRect (screen (locals s)) None color ] w in
      match draw s (modules w) fi with
      | Broken calls => (None, emit calls w)
      | Drawn display =>
          (Some s,
           emit (display ++ [ SDL_UpdateWindowSurface (window (locals s));
                              SDL_Delay 20 ]) w)
      end
  end.

(** One iteration of [while (!done)]. *)
Definition frame (input : FrameInput) (s : State) (w : World)
  : option State * World :=
  let '(s, w) := poll_events (pending input) s w in
  show_frame (frame_info input) s w.

(** The calls after the main loop. *)
Definition shutdown (s : State) : list Call :=
  let l := locals s in
  [ SDL_PauseAudio 1; xmp_end_player (ctx l); xmp_release_module (ctx l);
    xmp_free_context (ctx l); SDL_CloseAudio;
    SDL_FreeSurface (WindowSurface (screen l)); TTF_CloseFont (font l);
    TTF_Quit; SDL_DestroyRenderer (renderer l); SDL_DestroyWindow (window l);
    SDL_Quit ].

(** [while (!done) ...] and what follows it.  When the script of frames
    ends before the loop does, the program is still [Running]. *)
Fixpoint main_loop (inputs : list FrameInput) (s : State) (w : World)
  : Outcome :=
  if Int.truthy (done (locals s)) then Exit 0 (emit (shutdown s) w)
  else
    match inputs with
    | [] => Running s w
    | input :: rest =>
        match frame input s w with
        | (Some s', w') => main_loop rest s' w'
        | (None, w') => Fault w'
        end
    end.

(** ** Start-up *)

(** The message in front of the inner loop. *)
Definition prompt (screen font window : Z) : option (list Call) :=
  match map_rgb screen 0 0 0 with
  | None => None
  | Some color =>
      Some (SDL_FillRect screen None color
            :: render_text screen font 100 80
                 "Drag and drop a module file to play"
                 (mkColor 255 255 255 0)
            ++ [ SDL_UpdateWindowSurface window ])
  end.

(** [while (!file_loaded) ...], entered after the prompt has been drawn.
    [SDL_WaitEvent] blocks until an event comes: when the script has no
    further result the program stays [WaitBlocked]. *)
Fixpoint wait_for_file (results : list (option SDL_Event))
    (screen font window renderer : Z) (modfile : list ascii) (w : World)
  : Waited :=
  match results with
  | [] => WaitBlocked w
  | None :: rest =>
      (* the inner loop ends; if (modfile[0]) break; *)
      if negb (Ascii.eqb (hd NUL modfile) NUL) then WaitLeft modfile 0 w
      else
        match prompt screen font window with
        | None => WaitFault w
        | Some calls =>
            wait_for_file rest screen font window renderer modfile
              (emit calls w)
        end
  | Some SDL_QUIT :: _ =>
      WaitQuit (emit [ TTF_CloseFont font; TTF_Quit;
                       SDL_DestroyRenderer renderer; SDL_DestroyWindow window;
                       SDL_Quit ] w)
  | Some (SDL_DROPFILE file) :: _ =>
      WaitLeft (strncpy modfile file 1023) 1 (emit [ SDL_free file ] w)
  | Some _ :: rest =>
      wait_for_file rest screen font window renderer modfile w
  end.

(** The variables as the main loop finds them the first time: the flags
    still at their initial 0, and the variables declared in front of the
    loop. *)
Definition entry_state (modfile : list ascii) (file_loaded : Z) (ctx : Z)
    (mi : xmp_module_info) (spec : SDL_AudioSpec)
    (font window renderer screen : Z) : State :=
  {| globals := {| paused := 0; stopped := 0 |};
     locals :=
       {| modfile := modfile; file_loaded := file_loaded; ctx := ctx;
          mi := mi; spec := spec; done := 0; show_visualizer := 0;
          last_pattern := -1; font := font; window := window;
          renderer := renderer; screen := screen;
          white := mkColor 255 255 255 0; blue := mkColor 0 128 255 0;
          yellow := mkColor 255 255 0 0; red := mkColor 255 0 0 0 |} |}.

(** The first load, from [xmp_create_context] to [SDL_PauseAudio(0)], and
    the main loop behind it. *)
Definition play (modfile : list ascii) (file_loaded : Z)
    (font window renderer screen : Z) (w : World) : Outcome :=
  let answers := loads env (attempts w) in
  let w := next_attempt w in
  let w := emit [ xmp_create_context ] w in
  let ctx := ans_xmp_create_context answers in
  if ctx =? 0 then
    Exit 1 (emit [ fprintf_stderr ("Failed to create xmp context" ++ nl) [] ] w)
  else
  let path := cstr modfile in
  let w := emit [ xmp_load_module ctx path ] w in
  if ans_xmp_load_module answers <? 0 then
    Exit 1 (emit [ fprintf_stderr ("Failed to load module: %s" ++ nl)
                     [ StringArg path ];
                   xmp_free_context ctx ] w)
  else
  let w := loaded ctx (ans_xmp_get_module_info answers) w in
  let w := emit [ xmp_get_module_info ctx ] w in
  let mi := {| module_of := ctx |} in
  let spec := {| freq := 44100; format := AUDIO_S16; channels := 2;
                 samples := 4096; userdata := ctx |} in
  let w := emit [ SDL_OpenAudio spec ] w in
  if ans_SDL_OpenAudio answers <? 0 then
    Exit 1 (emit [ fprintf_stderr ("SDL_OpenAudio: %s" ++ nl) [ SDL_GetError ];
                   SDL_FreeSurface (WindowSurface screen); TTF_CloseFont font;
                   TTF_Quit; SDL_Quit; xmp_release_module ctx;
                   xmp_free_context ctx ] w)
  else
  let w := emit [ xmp_start_player ctx 44100 0 ] w in
  if ans_xmp_start_player answers <? 0 then
    Exit 1 (emit [ fprintf_stderr ("xmp_start_player failed" ++ nl) [];
                   SDL_CloseAudio; SDL_FreeSurface (WindowSurface screen);
                   TTF_CloseFont font; TTF_Quit; SDL_Quit;
                   xmp_release_module ctx; xmp_free_context ctx ] w)
  else
  let w := emit [ SDL_PauseAudio 0 ] w in
  main_loop (frames env)
    (entry_state modfile file_loaded ctx mi spec font window renderer screen)
    w.

Definition font_path : string :=
  "/usr/share/fonts/truetype/liberation/LiberationMono-Regular.ttf".

(** [modfile] in front of the first library call: all zero, or the first
    argument of the command line when there is one. *)
Definition initial_modfile (argv : list string) : list ascii :=
  let modfile := repeat NUL 1024 in
  if (2 <=? List.length argv)%nat
  then strncpy modfile (nth 1 argv EmptyString) 1023
  else modfile.

(** [main(argc, argv)], with [argc] the length of [argv]. *)
Definition main (argv : list string) : Outcome :=
  let modfile := initial_modfile argv in
  let b := boot env in
  let w := {| log := [ SDL_Init ]; attempts := 0; modules := no_modules |} in
  if ans_SDL_Init b <? 0 then
    Exit 1 (emit [ fprintf_stderr ("SDL_Init: %s" ++ nl) [ SDL_GetError ] ] w)
  else
  let w := emit [ TTF_Init ] w in
  if ans_TTF_Init b <? 0 then
    Exit 1 (emit [ fprintf_stderr ("TTF_Init: %s" ++ nl) [ TTF_GetError ];
                   SDL_Quit ] w)
  else
  let w := emit [ TTF_OpenFont font_path 14 ] w in
  let font := ans_TTF_OpenFont b in
  if font =? 0 then
    Exit 1 (emit [ fprintf_stderr ("TTF_OpenFont: %s" ++ nl) [ TTF_GetError ];
                   TTF_Quit; SDL_Quit ] w)
  else
  let w := emit [ SDL_CreateWindow "Module Player" 480 180 ] w in
  let window := ans_SDL_CreateWindow b in
  if window =? 0 then
    Exit 1 (emit [ fprintf_stderr ("SDL_CreateWindow: %s" ++ nl)
                     [ SDL_GetError ];
                   TTF_CloseFont font; TTF_Quit; SDL_Quit ] w)
  else
  let w := emit [ SDL_CreateRenderer window ] w in
  let renderer := ans_SDL_CreateRenderer b in
  let w := emit [ SDL_GetWindowSurface window ] w in
  let screen := ans_SDL_GetWindowSurface b in
  (* Enable drag-and-drop events *)
  let w := emit [ SDL_EventState_enable_DROPFILE ] w in
  match prompt screen font window with
  | None => Fault w
  | Some calls =>
      match wait_for_file (waits env) screen font window renderer modfile
              (emit calls w) with
      | WaitQuit w => Exit 0 w
      | WaitBlocked w => Blocked w
      | WaitLeft modfile file_loaded w =>
          play modfile file_loaded font window renderer screen w
      | WaitFault w => Fault w
      end
  end.

End Program.

(** ** The callback as the audio device runs it *)

Section Device.

Variable decoder : Type.
Variable xmp_play_buffer :
  decoder -> Z -> list Byte.byte -> Z -> Z -> decoder * list Byte.byte.

(** The audio device calls [spec.callback(spec.userdata, stream, len)]
    whenever it wants [len] more bytes, at any moment between two steps of
    [main]: in program state [s], with the library state [d]. *)
Definition run_callback (s : State) (d : decoder) (stream : list Byte.byte)
    (len : Z) : option (State * decoder * list Byte.byte) :=
  match fill_audio xmp_play_buffer (globals s) d
          (userdata (spec (locals s))) stream len with
  | Some (g, d', out) => Some ({| globals := g; locals := locals s |}, d', out)
  | None => None
  end.

End Device.

Arguments run_callback {decoder} xmp_play_buffer s d stream len.

(** ** Vocabulary of the statements *)

(** The states the main loop can be in: the entry state, and what event
    handling and the rest of an iteration make of a reachable state. *)
Inductive reachable (env : Env) : State -> Prop :=
| reach_entry modfile file_loaded ctx (mi : xmp_module_info) spec
    font window renderer screen :
    reachable env
      (entry_state modfile file_loaded ctx mi spec font window renderer screen)
| reach_event s w event :
    reachable env s ->
    reachable env (snd (fst (handle_event env event s w)))
| reach_show s w fi s' w' :
    reachable env s ->
    show_frame env fi s w = (Some s', w') ->
    reachable env s'.

(** A start-up step of the toolkit failed. *)
Definition boot_failed (b : BootAnswers) : bool :=
  (ans_SDL_Init b <? 0) || (ans_TTF_Init b <? 0)
  || (ans_TTF_OpenFont b =? 0) || (ans_SDL_CreateWindow b =? 0).

(** The start-up succeeds: no step of the toolkit fails, and the window
    has a surface to draw on. *)
Definition started (env : Env) : Prop :=
  boot_failed (boot env) = false
  /\ ans_SDL_GetWindowSurface (boot env) <> 0.

(** The world in front of the first prompt. *)
Definition window_world (env : Env) : World :=
  let b := boot env in
  emit [ SDL_EventState_enable_DROPFILE ]
    (emit [ SDL_GetWindowSurface (ans_SDL_CreateWindow b) ]
       (emit [ SDL_CreateRenderer (ans_SDL_CreateWindow b) ]
          (emit [ SDL_CreateWindow "Module Player" 480 180 ]
             (emit [ TTF_OpenFont font_path 14 ]
                (emit [ TTF_Init ]
                   {| log := [ SDL_Init ]; attempts := 0;
                      modules := no_modules |}))))).

(** [mi.mod] points into the current context, which holds a module. *)
Definition module_current (s : State) (w : World) : Prop :=
  module_of (mi (locals s)) = ctx (locals s)
  /\ modules w (ctx (locals s)) <> None.

(** A step of a load attempt failed. *)
Definition load_failed (a : LoadAnswers) : bool :=
  (ans_xmp_create_context a =? 0) || (ans_xmp_load_module a <? 0)
  || (ans_SDL_OpenAudio a <? 0) || (ans_xmp_start_player a <? 0).

(** Calls that give something back to a library. *)
Definition is_release (c : Call) : bool :=
  match c with
  | SDL_FreeSurface _ | TTF_CloseFont _ | TTF_Quit | SDL_Quit
  | xmp_release_module _ | xmp_free_context _ | SDL_CloseAudio
  | SDL_DestroyRenderer _ | SDL_DestroyWindow _ => true
  | _ => false
  end.

(** The run ended with status 1, with a message on stderr and only
    releases behind it. *)
Definition reports_and_exits (o : Outcome) : Prop :=
  exists w before format args after,
    o = Exit 1 w
    /\ log w = before ++ fprintf_stderr format args :: after
    /\ forallb is_release after = true.



(** *** The two displays, told by what is to be seen *)

(** A text at a place of the window, in a colour. *)
Definition Placed : Type := (Z * Z * string * SDL_Color)%type.

Definition place (env : Env) (screen font : Z) (p : Placed) : list Call :=
  let '(x, y, t, color) := p in render_text env screen font x y t color.

Definition placed (env : Env) (s : State) (ps : list Placed) : list Call :=
  List.concat (map (place env (screen (locals s)) (font (locals s))) ps).

(** The name of a note: the names of the table for the notes 1 to 97, three
    dashes for every other value. *)
Definition note_text (n : Z) : string :=
  if (0 <? n) && (n <? 98) then nth (Z.to_nat n) note_names "---"%string
  else "---"%string.

(** The six fields of the module, one below the other. *)
Definition fields_layout (s : State) (m : xmp_module) : list Placed :=
  let l := locals s in
  [ (10, 10, "Title:", white l);
    (60, 10, snprintf 256 (" " ++ name m), blue l);
    (10, 30, "Type:", white l);
    (50, 30, snprintf 256 (" " ++ type m), blue l);
    (10, 50, "Channels:", white l);
    (90, 50, snprintf 256 (" " ++ fmt_d (chn m)), blue l);
    (10, 70, "Patterns:", white l);
    (90, 70, snprintf 256 (" " ++ fmt_d (pat m)), blue l);
    (10, 90, "Instruments:", white l);
    (120, 90, snprintf 256 (" " ++ fmt_d (ins m)), blue l);
    (10, 110, "Length:", white l);
    (70, 110, snprintf 256 (" " ++ fmt_d (len m) ++ " patterns"), blue l)
  ]%string.

(** The key help, the pattern number and the play state. *)
Definition controls_layout (s : State) (fi : xmp_frame_info) : list Placed :=
  let l := locals s in
  [ (10, 140, "SPACE: Play/Pause", white l);
    (10, 155, "ESC: Stop and exit   V: Visualizer", white l);
    (300, 140, "Playing pattern:", white l);
    (428, 140, snprintf 256 (" " ++ fmt_d (pattern fi)), red l);
    (300, 155, if (paused (globals s) =? 0)%Z then "Playing" else "Paused",
     white l) ]%string.

(** One line for each of the channels [cis], numbered from [ch + 1] on. *)
Fixpoint channel_rows (s : State) (ch : Z) (cis : list xmp_channel_info)
  : list Placed :=
  match cis with
  | [] => []
  | ci :: rest =>
      (300, 10 + 15 * ch,
       snprintf 256
         ("Ch" ++ fmt_02d (ch + 1) ++ ": " ++ note_text (note ci)
          ++ " Ins:" ++ fmt_02d (instrument ci))%string,
       yellow (locals s))
      :: channel_rows s (ch + 1) rest
  end.

(** The song-information panel of the module [m]: its fields, the
    controls, and the notes of its first channels, at most 8. *)
Definition panel_layout (s : State) (m : xmp_module) (fi : xmp_frame_info)
  : list Placed :=
  fields_layout s m ++ controls_layout s fi
  ++ channel_rows s 0
       (firstn (Z.to_nat (Z.min (chn m) 8)) (channel_info fi)).

(** One yellow bar of width [bw] and its number for each of the channels
    [cis], numbered from [ch + 1] on. *)
Fixpoint channel_bars (env : Env) (s : State) (bw : Z) (ch : Z)
    (cis : list xmp_channel_info) : list Call :=
  match cis with
  | [] => []
  | ci :: rest =>
      let bar :=
        bar_rect ch bw (Z.quot (Int.mul (volume ci) bar_max_height) 64) in
      SDL_FillRect (screen (locals s)) (Some bar) (SDL_MapRGB 255 255 0)
      :: place env (screen (locals s)) (font (locals s))
           (rect_x bar, 125, snprintf 256 (fmt_d (ch + 1)), white (locals s))
      ++ channel_bars env s bw (ch + 1) rest
  end.

(** The visualizer of the module [m]: a bar for each of its channels, and
    the controls. *)
Definition visualizer_layout (env : Env) (s : State) (m : xmp_module)
    (fi : xmp_frame_info) (bw : Z) : list Call :=
  channel_bars env s bw 0 (firstn (Z.to_nat (chn m)) (channel_info fi))
  ++ placed env s (controls_layout s fi).



(** The frame can be drawn: the window has a surface, [mi.mod] points to a
    module, and the frame information holds the channels that the display
    reads; the visualizer divides by the number of channels. *)
Definition drawable (s : State) (w : World) (fi : xmp_frame_info) : Prop :=
  screen (locals s) <> 0
  /\ exists m,
       modules w (module_of (mi (locals s))) = Some m
       /\ if show_visualizer (locals s) =? 0
          then Z.min (chn m) 8 <= Z.of_nat (List.length (channel_info fi))
          else chn m <> 0
               /\ chn m <= Z.of_nat (List.length (channel_info fi)).

(** [modfile] as [main] keeps it: 1024 bytes, the last of them zero. *)
Definition modfile_ok (buf : list ascii) : Prop :=
  List.length buf = 1024%nat /\ nth_error buf 1023 = Some NUL.

(** The variables no event touches. *)
Definition same_fixtures (s s' : State) : Prop :=
  let l := locals s in
  let l' := locals s' in
  file_loaded l' = file_loaded l /\ last_pattern l' = last_pattern l
  /\ font l' = font l /\ window l' = window l /\ renderer l' = renderer l
  /\ screen l' = screen l
  /\ white l' = white l /\ blue l' = blue l /\ yellow l' = yellow l
  /\ red l' = red l
  /\ freq (spec l') = freq (spec l) /\ format (spec l') = format (spec l)
  /\ channels (spec l') = channels (spec l)
  /\ samples (spec l') = samples (spec l).

(** The playback of a file: its path, its context and its module
    information. *)
Definition same_playback (s s' : State) : Prop :=
  let l := locals s in
  let l' := locals s' in
  modfile l' = modfile l /\ ctx l' = ctx l /\ mi l' = mi l /\ spec l' = spec l.

(** The world once the toolkit has started and the prompt is on screen. *)
Definition boot_world (env : Env) : World :=
  let b := boot env in
  match prompt env (ans_SDL_GetWindowSurface b) (ans_TTF_OpenFont b)
          (ans_SDL_CreateWindow b) with
  | Some calls => emit calls (window_world env)
  | None => window_world env
  end.

(** The start-up loop of a run whose toolkit has started. *)
Definition startup_wait (env : Env) (argv : list string) : Waited :=
  let b := boot env in
  wait_for_file env (waits env) (ans_SDL_GetWindowSurface b)
    (ans_TTF_OpenFont b) (ans_SDL_CreateWindow b) (ans_SDL_CreateRenderer b)
    (initial_modfile argv) (boot_world env).

(** What follows the start-up loop. *)
Definition after_wait (env : Env) (r : Waited) : Outcome :=
  let b := boot env in
  match r with
  | WaitQuit w => Exit 0 w
  | WaitBlocked w => Blocked w
  | WaitLeft modfile file_loaded w =>
      play env modfile file_loaded (ans_TTF_OpenFont b)
        (ans_SDL_CreateWindow b) (ans_SDL_CreateRenderer b)
        (ans_SDL_GetWindowSurface b) w
  | WaitFault w => Fault w
  end.

(** Calls that load or play a module. *)
Definition is_playback_call (c : Call) : bool :=
  match c with
  | xmp_create_context | xmp_load_module _ _ | xmp_get_module_info _
  | SDL_OpenAudio _ | xmp_start_player _ _ _ | SDL_PauseAudio _ => true
  | _ => false
  end.

(** Events the start-up loop passes over. *)
Definition is_passed_over (r : option SDL_Event) : bool :=
  match r with
  | Some (SDL_KEYDOWN _) | Some SDL_other_event => true
  | _ => false
  end.

(** ** Vocabulary of the further statements *)

(** The states of the main loop of a run of [main]: it is entered with a
    context that is not [NULL], set as user data of the audio device, and
    with [modfile] in order. *)
Inductive loop_state (env : Env) : State -> Prop :=
| loop_entry m file_loaded c mi font window renderer screen :
    modfile_ok m -> c <> 0 ->
    loop_state env
      (entry_state m file_loaded c mi (mkSpec 44100 AUDIO_S16 2 4096 c)
         font window renderer screen)
| loop_event s w event :
    loop_state env s ->
    loop_state env (snd (fst (handle_event env event s w)))
| loop_show s w fi s' w' :
    loop_state env s ->
    show_frame env fi s w = (Some s', w') ->
    loop_state env s'.

(** Calls that take the module of a context away. *)
Definition releases_module (c : Call) : bool :=
  match c with
  | xmp_release_module _ | xmp_free_context _ => true
  | _ => false
  end.

(** The module [m] has a channel, and every frame information of the
    script holds its channels. *)
Definition frames_fit (env : Env) (m : xmp_module) : Prop :=
  1 <= chn m <= Int.max_int
  /\ Forall (fun input =>
               chn m <= Z.of_nat (List.length (channel_info (frame_info input))))
       (frames env).

(** The window has a surface, and [mi.mod] points to the module that a load
    of the script has put into the current context. *)
Definition playing (env : Env) (s : State) (w : World) : Prop :=
  screen (locals s) <> 0
  /\ module_of (mi (locals s)) = ctx (locals s)
  /\ exists n,
       modules w (ctx (locals s))
       = Some (ans_xmp_get_module_info (loads env n)).

(** The calls every exit with status 0 ends with. *)
Definition toolkit_shutdown (b : BootAnswers) : list Call :=
  [ TTF_CloseFont (ans_TTF_OpenFont b); TTF_Quit;
    SDL_DestroyRenderer (ans_SDL_CreateRenderer b);
    SDL_DestroyWindow (ans_SDL_CreateWindow b); SDL_Quit ].

(** The calls of a load in which every step succeeds. *)
Definition load_calls (c : Z) (path : string) : list Call :=
  [ xmp_create_context; xmp_load_module c path; xmp_get_module_info c;
    SDL_OpenAudio (mkSpec 44100 AUDIO_S16 2 4096 c);
    xmp_start_player c 44100 0; SDL_PauseAudio 0 ].

(** An event that ends the run. *)
Definition is_quit (event : SDL_Event) : bool :=
  match event with
  | SDL_QUIT | SDL_KEYDOWN SDLK_ESCAPE => true
  | _ => false
  end.

(** An event that neither ends the run nor loads a file. *)
Definition is_plain_key (event : SDL_Event) : bool :=
  match event with
  | SDL_QUIT | SDL_KEYDOWN SDLK_ESCAPE | SDL_DROPFILE _ => false
  | _ => true
  end.

Definition is_drop (r : option SDL_Event) : bool :=
  match r with
  | Some (SDL_DROPFILE _) => true
  | _ => false
  end.

(** A text surface being copied to the screen, being freed, and a text
    for which [TTF_RenderUTF8_Blended] returns a surface. *)
Definition is_text_blit (c : Call) : bool :=
  match c with
  | SDL_BlitSurface (TextSurface _) _ _ => true
  | _ => false
  end.

Definition is_text_free (c : Call) : bool :=
  match c with
  | SDL_FreeSurface (TextSurface _) => true
  | _ => false
  end.

Definition is_rendered (env : Env) (c : Call) : bool :=
  match c with
  | TTF_RenderUTF8_Blended _ t _ => renders env t
  | _ => false
  end.

Definition count (p : Call -> bool) (cs : list Call) : nat :=
  List.length (filter p cs).

(** As many text surfaces copied, and as many freed, as rendered. *)
Definition text_balanced (env : Env) (cs : list Call) : Prop :=
  count is_text_blit cs = count (is_rendered env) cs
  /\ count is_text_free cs = count (is_rendered env) cs.

(** ** Sample runs *)

Definition sample_module : xmp_module :=
  mkModule "song" "Protracker" 4 10 15 20.

Definition sample_frame_info : xmp_frame_info :=
  mkFrameInfo 0 3
    [ mkChannel 49 1 64; mkChannel 0 0 0; mkChannel 97 2 32;
      mkChannel 60 3 10 ].

Definition boot_fine : BootAnswers := mkBoot 0 0 1 2 3 4.

Definition load_fine : LoadAnswers := mkLoad 5 0 sample_module 0 0.

(** [xmp_load_module] fails. *)
Definition load_refused : LoadAnswers := mkLoad 6 (-1) sample_module 0 0.

(** A path on the command line, and [SDL_WaitEvent] failing at once. *)
Definition env_wait_error : Env :=
  mkEnv boot_fine (fun _ => load_fine) (fun _ => true) [ None ] [].

(** A first file is dropped and plays; a second file is dropped during the
    first iteration of the main loop and cannot be loaded. *)
Definition env_refused_drop : Env :=
  mkEnv boot_fine
    (fun n => match n with O => load_fine | S _ => load_refused end)
    (fun _ => true)
    [ Some (SDL_DROPFILE "a.mod") ]
    [ mkFrameInput [ SDL_DROPFILE "b.mod" ] sample_frame_info ].

(** A file is dropped; then SPACE and V are pressed. *)
Definition env_keys : Env :=
  mkEnv boot_fine (fun _ => load_fine) (fun _ => true)
    [ Some (SDL_DROPFILE "a.mod") ]
    [ mkFrameInput [ SDL_KEYDOWN SDLK_SPACE ] sample_frame_info;
      mkFrameInput [ SDL_KEYDOWN SDLK_v ] sample_frame_info ].

(** A file is dropped and plays; then the window is closed. *)
Definition env_quit : Env :=
  mkEnv boot_fine (fun _ => load_fine) (fun _ => true)
    [ Some (SDL_DROPFILE "a.mod") ]
    [ mkFrameInput [ SDL_QUIT ] sample_frame_info ].


(** [sample_state] with a window that has no surface. *)
Definition sample_state_no_surface : State :=
  entry_state (strncpy (repeat NUL 1024) "a.mod" 1023) 1 5 (mkModuleInfo 5)
    (mkSpec 44100 AUDIO_S16 2 4096 5) 1 2 3 0.

Definition sample_state : State :=
  entry_state (strncpy (repeat NUL 1024) "a.mod" 1023) 1 5 (mkModuleInfo 5)
    (mkSpec 44100 AUDIO_S16 2 4096 5) 1 2 3 4.

(** The world of [sample_state]: context 5 holds [sample_module]. *)
Definition sample_world : World :=
  loaded 5 sample_module (mkWorld [] 1 no_modules).

(** ** Proof steps *)

(** Case analysis on every test of the goal. *)
Ltac split_ifs :=
  repeat match goal with
         | |- context [if ?c then _ else _] => destruct c
         end.

(** A run that ends with status 1: the calls in front of the message are
    given, the message and the releases behind it are read off the log. *)
Ltac report before :=
  eexists; exists before; do 3 eexists;
  split; [reflexivity|];
  split; [cbn [log emit]; rewrite <- ?app_assoc; reflexivity | reflexivity].

(** * Properties *)

(** ** C integers *)

Module IntFacts.

Lemma wrap_small z : Int.in_range z -> Int.wrap z = z.
Proof.
  unfold Int.in_range, Int.wrap, Int.min_int, Int.max_int. intros H.
  rewrite Z.mod_small by lia. lia.
Qed.

Lemma wrap_in_range z : Int.in_range (Int.wrap z).
Proof.
  unfold Int.in_range, Int.wrap, Int.min_int, Int.max_int.
  pose proof (Z.mod_pos_bound (z + 2147483648) 4294967296 ltac:(lia)). lia.
Qed.

Lemma lnot_bool a : Int.lnot a = 0 \/ Int.lnot a = 1.
Proof. unfold Int.lnot. destruct (a =? 0); auto. Qed.

Lemma lnot_involutive a : a = 0 \/ a = 1 -> Int.lnot (Int.lnot a) = a.
Proof. intros [-> | ->]; reflexivity. Qed.

Lemma truthy_true a : Int.truthy a = true <-> a <> 0.
Proof.
  unfold Int.truthy. destruct (Z.eqb_spec a 0); simpl; split; intros; congruence.
Qed.

Lemma truthy_false a : Int.truthy a = false <-> a = 0.
Proof.
  unfold Int.truthy. destruct (Z.eqb_spec a 0); simpl; split; intros; congruence.
Qed.

Lemma add_small a b : Int.in_range (a + b) -> Int.add a b = a + b.
Proof. apply wrap_small. Qed.

Lemma sub_small a b : Int.in_range (a - b) -> Int.sub a b = a - b.
Proof. apply wrap_small. Qed.

Lemma mul_small a b : Int.in_range (a * b) -> Int.mul a b = a * b.
Proof. apply wrap_small. Qed.

Lemma div_some a b :
  b <> 0 -> b <> -1 -> Int.div a b = Some (Z.quot a b).
Proof.
  intros H0 H1. unfold Int.div.
  destruct (Z.eqb_spec b 0); [contradiction|].
  destruct (Z.eqb_spec b (-1)); [contradiction|].
  rewrite andb_false_r. reflexivity.
Qed.

End IntFacts.

(** ** The visualizer's bars *)

Lemma bar_height_value v :
  0 <= v <= 64 -> bar_height v = Some (v * 110 / 64).
Proof.
  intros Hv. unfold bar_height, bar_max_height.
  rewrite IntFacts.mul_small by (unfold Int.in_range, Int.min_int, Int.max_int; lia).
  rewrite IntFacts.div_some by lia.
  rewrite Z.quot_div_nonneg by lia. reflexivity.
Qed.

Lemma bar_width_at_least_2 c :
  c <> 0 -> c <> -1 -> exists w, bar_width c = Some w /\ 2 <= w.
Proof.
  intros H0 H1. unfold bar_width.
  rewrite IntFacts.div_some by assumption.
  eexists; split; [reflexivity|].
  destruct (Z.ltb_spec
    (Int.sub visualizer_width (Int.mul (Int.sub c 1) spacing) ÷ c) 2); lia.
Qed.

Lemma bar_width_value c :
  1 <= c <= 1073741824 ->
  bar_width c = Some (Z.max 2 ((420 - (c - 1) * 2) / c)).
Proof.
  intros Hc. unfold bar_width, visualizer_width, spacing.
  assert (R : forall z, -2147483648 <= z <= 2147483647 -> Int.in_range z)
    by (intros; unfold Int.in_range, Int.min_int, Int.max_int; lia).
  rewrite (IntFacts.sub_small 480 60) by (apply R; lia).
  rewrite (IntFacts.sub_small c 1) by (apply R; lia).
  rewrite IntFacts.mul_small by (apply R; lia).
  rewrite IntFacts.sub_small by (apply R; lia).
  rewrite IntFacts.div_some by lia.
  replace (480 - 60 - (c - 1) * 2) with (420 - (c - 1) * 2) by lia.
  f_equal.
  destruct (Z.le_gt_cases 0 (420 - (c - 1) * 2)) as [Hn | Hn].
  - rewrite Z.quot_div_nonneg by lia.
    destruct (Z.ltb_spec ((420 - (c - 1) * 2) / c) 2); lia.
  - assert (Hq : (420 - (c - 1) * 2) ÷ c <= 0).
    { rewrite <- (Z.opp_involutive (420 - (c - 1) * 2)), Z.quot_opp_l by lia.
      pose proof (Z.quot_pos (- (420 - (c - 1) * 2)) c ltac:(lia) ltac:(lia)).
      lia. }
    assert (Hd : (420 - (c - 1) * 2) / c < 0)
      by (apply Z.div_lt_upper_bound; lia).
    destruct (Z.ltb_spec ((420 - (c - 1) * 2) ÷ c) 2); lia.
Qed.

(** C10: a volume between 0 and 64 gives a bar height [(v * 110) / 64]
    between 0 and 110, so that the rectangle of the bar stays inside the
    band from [base_y] to [base_y + 110]; for at least one channel the bar
    width is defined and at least 2, being [(420 - (chn - 1) * 2) / chn]
    raised to 2 when it is smaller; for no channel at all the division has
    no value. *)
Theorem visualizer_bar_bounds :
  (forall v, 0 <= v <= 64 ->
     exists h, bar_height v = Some h
       /\ h = v * 110 / 64
       /\ 0 <= h <= 110
       /\ forall ch w,
            base_y <= rect_y (bar_rect ch w h)
            /\ rect_y (bar_rect ch w h) + rect_h (bar_rect ch w h)
               = base_y + 110)
  /\ (forall c, 1 <= c -> exists w, bar_width c = Some w /\ 2 <= w)
  /\ (forall c, 1 <= c <= 1073741824 ->
        bar_width c = Some (Z.max 2 ((420 - (c - 1) * 2) / c)))
  /\ bar_width 0 = None.
Proof.
  split; [| split; [| split]].
  - intros v Hv. exists (v * 110 / 64).
    assert (Hh : 0 <= v * 110 / 64 <= 110).
    { split.
      - apply Z.div_pos; lia.
      - apply Z.div_le_upper_bound; lia. }
    split; [apply bar_height_value; exact Hv|].
    split; [reflexivity|]. split; [exact Hh|].
    intros ch w. unfold bar_rect, base_y, bar_max_height. simpl.
    rewrite (IntFacts.sub_small 110)
      by (unfold Int.in_range, Int.min_int, Int.max_int; lia).
    rewrite IntFacts.add_small
      by (unfold Int.in_range, Int.min_int, Int.max_int; lia).
    lia.
  - intros c Hc. apply bar_width_at_least_2; lia.
  - apply bar_width_value.
  - reflexivity.
Qed.

Lemma visualizer_bar_bounds_witness :
  (exists h, bar_height 32 = Some h /\ 0 <= h <= 110)
  /\ (exists w, bar_width 4 = Some w /\ 2 <= w).
Proof.
  split.
  - destruct (proj1 visualizer_bar_bounds 32 ltac:(lia)) as (h & Hh & _ & Hr & _).
    exists h. split; assumption.
  - exact (proj1 (proj2 visualizer_bar_bounds) 4 ltac:(lia)).
Defined.

(** ** The audio callback *)

Lemma memset0_inside stream n :
  0 <= n <= Z.of_nat (List.length stream) ->
  memset0 stream n
  = Some (repeat Byte.x00 (Z.to_nat n) ++ skipn (Z.to_nat n) stream).
Proof.
  intros [H0 H1]. unfold memset0.
  apply Z.leb_le in H0. apply Z.leb_le in H1. rewrite H0, H1. reflexivity.
Qed.

Section AudioFacts.

Variable decoder : Type.
Variable xmp_play_buffer :
  decoder -> Z -> list Byte.byte -> Z -> Z -> decoder * list Byte.byte.

(** C1: with [stopped] set the callback zeroes the [len] bytes of the
    stream; otherwise, with [paused] clear, it hands the stream to
    [xmp_play_buffer] on the context passed as user data; otherwise it
    zeroes the stream.  [stopped] is looked at first. *)
Theorem fill_audio_cases (g : Globals) (d : decoder) (udata : Z)
    (stream : list Byte.byte) (len : Z) :
  0 <= len <= Z.of_nat (List.length stream) ->
  let silence :=
    repeat Byte.x00 (Z.to_nat len) ++ skipn (Z.to_nat len) stream in
  (stopped g <> 0 ->
     fill_audio xmp_play_buffer g d udata stream len = Some (g, d, silence))
  /\ (stopped g = 0 -> paused g = 0 ->
        fill_audio xmp_play_buffer g d udata stream len
        = Some (g, fst (xmp_play_buffer d udata stream len 0),
                   snd (xmp_play_buffer d udata stream len 0)))
  /\ (stopped g = 0 -> paused g <> 0 ->
        fill_audio xmp_play_buffer g d udata stream len = Some (g, d, silence))
  /\ (List.length stream = Z.to_nat len ->
        silence = repeat Byte.x00 (List.length stream)).
Proof.
  intros Hlen silence. unfold fill_audio.
  split; [| split; [| split]].
  - intros Hs. apply IntFacts.truthy_true in Hs. rewrite Hs.
    rewrite memset0_inside by exact Hlen. reflexivity.
  - intros Hs Hp. apply IntFacts.truthy_false in Hs, Hp. rewrite Hs, Hp.
    simpl. destruct (xmp_play_buffer d udata stream len 0). reflexivity.
  - intros Hs Hp. apply IntFacts.truthy_false in Hs.
    apply IntFacts.truthy_true in Hp. rewrite Hs, Hp. simpl.
    rewrite memset0_inside by exact Hlen. reflexivity.
  - intros Hl. unfold silence. rewrite <- Hl.
    rewrite skipn_all. apply app_nil_r.
Qed.

End AudioFacts.

Lemma fill_audio_cases_witness :
  fill_audio (fun (d : unit) _ s _ _ => (d, s)) (mkGlobals 1 1) tt 7
    [Byte.x41; Byte.x42; Byte.x43] 3
  = Some (mkGlobals 1 1, tt, [Byte.x00; Byte.x00; Byte.x00]).
Proof.
  refine (proj1 (fill_audio_cases unit (fun d _ s _ _ => (d, s))
                   (mkGlobals 1 1) tt 7 [Byte.x41; Byte.x42; Byte.x43] 3 _) _).
  - simpl. lia.
  - simpl. lia.
Defined.

(** ** Notes and channels of the information panel *)

Lemma note_names_count_value : note_names_count = 98.
Proof. reflexivity. Qed.

Lemma note_str_named n :
  0 < n < 98 -> note_str n = nth_error note_names (Z.to_nat n).
Proof.
  intros [H0 H1]. unfold note_str. rewrite note_names_count_value.
  apply Z.ltb_lt in H0. apply Z.ltb_lt in H1. rewrite H0, H1. reflexivity.
Qed.

Lemma note_str_placeholder n :
  n <= 0 \/ 98 <= n -> note_str n = Some "---"%string.
Proof.
  intros H. unfold note_str. rewrite note_names_count_value.
  destruct (Z.ltb_spec 0 n); destruct (Z.ltb_spec n 98); simpl;
    try reflexivity; lia.
Qed.

Lemma note_str_total n : exists str, note_str n = Some str.
Proof.
  destruct (Z.le_gt_cases n 0) as [H | H];
    [eexists; apply note_str_placeholder; auto|].
  destruct (Z.le_gt_cases 98 n) as [H' | H'];
    [eexists; apply note_str_placeholder; auto|].
  rewrite note_str_named by lia.
  destruct (nth_error note_names (Z.to_nat n)) as [str|] eqn:E;
    [eauto|].
  apply nth_error_None in E. simpl in E. lia.
Qed.

Lemma info_max_channels_min c : info_max_channels c = Z.min c 8.
Proof. unfold info_max_channels. destruct (Z.ltb_spec c 8); lia. Qed.

(** The loop over the channels runs its body for [from], [from + 1], ...
    and joins what the iterations produce. *)
Lemma for_channels_rows (body : Z -> option (list Call)) n : forall from,
  0 <= from -> from + Z.of_nat n <= Int.max_int ->
  (forall ch, from <= ch < from + Z.of_nat n -> exists cs, body ch = Some cs) ->
  exists rows,
    List.length rows = n
    /\ for_channels n from body = Drawn (List.concat rows)
    /\ forall i, (i < n)%nat ->
         body (from + Z.of_nat i) = Some (nth i rows []).
Proof.
  induction n as [|n IH]; intros from H0 Hmax Hbody.
  - exists []. split; [reflexivity|]. split; [reflexivity|].
    intros i Hi. lia.
  - destruct (Hbody from ltac:(lia)) as [cs Hcs].
    assert (Hadd : Int.add from 1 = from + 1).
    { apply IntFacts.add_small.
      unfold Int.in_range, Int.min_int, Int.max_int in *. lia. }
    destruct (IH (from + 1) ltac:(lia) ltac:(lia)) as (rows & Hlen & Hrows & Hnth).
    { intros ch Hch. apply Hbody. lia. }
    exists (cs :: rows). split; [simpl; congruence|]. split.
    + simpl. rewrite Hcs, Hadd, Hrows. reflexivity.
    + intros [|i] Hi.
      * simpl. rewrite Z.add_0_r. exact Hcs.
      * simpl nth. rewrite <- Hnth by lia. f_equal. lia.
Qed.

Lemma for_channels_fault (body : Z -> option (list Call)) n : forall from i,
  0 <= from -> from + Z.of_nat n <= Int.max_int ->
  (i < n)%nat -> body (from + Z.of_nat i) = None ->
  exists calls, for_channels n from body = Broken calls.
Proof.
  induction n as [|n IH]; intros from i H0 Hmax Hi Hnone; [lia|].
  cbn [for_channels].
  destruct i as [|i].
  - rewrite Z.add_0_r in Hnone. rewrite Hnone. eauto.
  - destruct (body from) as [cs|]; [|eauto].
    assert (Hadd : Int.add from 1 = from + 1).
    { apply IntFacts.add_small.
      unfold Int.in_range, Int.min_int, Int.max_int in *. lia. }
    rewrite Hadd. destruct (IH (from + 1) i) as [calls ->]; [lia..| |].
    + rewrite <- Hnone. f_equal. lia.
    + cbn [and_then]. eauto.
Qed.

(** With the channels in a list, the loop produces what [g] makes of the
    list, when the body produces for each channel what [f] makes of it. *)
Lemma for_channels_list {A : Type} (body : Z -> option (list Call))
    (f : Z -> A -> list Call) (g : Z -> list A -> list Call) :
  (forall ch, g ch [] = []) ->
  (forall ch a l, g ch (a :: l) = f ch a ++ g (ch + 1) l) ->
  forall l from,
    0 <= from -> from + Z.of_nat (List.length l) <= Int.max_int ->
    (forall i a, nth_error l i = Some a ->
       body (from + Z.of_nat i) = Some (f (from + Z.of_nat i) a)) ->
    for_channels (List.length l) from body = Drawn (g from l).
Proof.
  intros Hnil Hcons. induction l as [|a l IH]; intros from H0 Hmax Hbody.
  - cbn. rewrite Hnil. reflexivity.
  - cbn [List.length for_channels].
    pose proof (Hbody 0%nat a eq_refl) as Ha. rewrite Z.add_0_r in Ha.
    rewrite Ha.
    assert (Hadd : Int.add from 1 = from + 1).
    { apply IntFacts.add_small. cbn [List.length] in Hmax.
      unfold Int.in_range, Int.min_int, Int.max_int in *. lia. }
    rewrite Hadd, (IH (from + 1)), Hcons; [reflexivity | lia | |].
    + cbn [List.length] in Hmax. lia.
    + intros i b Hi. specialize (Hbody (S i) b Hi).
      replace (from + 1 + Z.of_nat i) with (from + Z.of_nat (S i)) by lia.
      exact Hbody.
Qed.

Lemma info_channel_line_total env s fi ch :
  0 <= ch < Z.of_nat (List.length (channel_info fi)) ->
  exists cs, info_channel_line env s fi ch = Some cs.
Proof.
  intros Hch. unfold info_channel_line.
  destruct (nth_error (channel_info fi) (Z.to_nat ch)) as [ci|] eqn:E.
  - destruct (note_str_total (note ci)) as [str ->]. eauto.
  - apply nth_error_None in E. lia.
Qed.

Lemma draw_info_rows env s h m fi :
  h (module_of (mi (locals s))) = Some m ->
  Z.min (chn m) 8 <= Z.of_nat (List.length (channel_info fi)) ->
  exists rows,
    List.length rows = Z.to_nat (Z.min (chn m) 8)
    /\ (forall i, (i < List.length rows)%nat ->
          info_channel_line env s fi (Z.of_nat i) = Some (nth i rows []))
    /\ draw_info env s h fi
       = Drawn (info_fields env s m ++ draw_controls env s fi
               ++ List.concat rows).
Proof.
  intros Hm Hfit. unfold draw_info. rewrite Hm, info_max_channels_min.
  destruct (for_channels_rows (info_channel_line env s fi)
              (Z.to_nat (Z.min (chn m) 8)) 0)
    as (rows & Hlen & Hrows & Hnth).
  - lia.
  - unfold Int.max_int. lia.
  - intros ch Hch. apply info_channel_line_total. lia.
  - exists rows. split; [exact Hlen|]. split.
    + intros i Hi. rewrite <- Hnth by lia. reflexivity.
    + rewrite Hrows. cbn [and_then]. rewrite <- app_assoc. reflexivity.
Qed.

(** C9, as the code has it: the table holds 98 names, and the note text of
    a channel is [note_names[note]] exactly when [0 < note < 98] and the
    placeholder in every other case, so that the table is never read
    outside its bounds; the panel lists [min(chn, 8)] channels of the
    module that [mi.mod] points to, at most 8, the first ones. *)
Theorem note_display_in_bounds :
  note_names_count = 98
  /\ (forall n, exists str, note_str n = Some str)
  /\ (forall n, 0 < n < 98 ->
        note_str n = nth_error note_names (Z.to_nat n))
  /\ (forall n, n <= 0 \/ 98 <= n -> note_str n = Some "---"%string)
  /\ (forall c, info_max_channels c = Z.min c 8 /\ info_max_channels c <= 8)
  /\ (forall env s h m fi,
        h (module_of (mi (locals s))) = Some m ->
        Z.min (chn m) 8 <= Z.of_nat (List.length (channel_info fi)) ->
        exists rows,
          List.length rows = Z.to_nat (Z.min (chn m) 8)
          /\ (List.length rows <= 8)%nat
          /\ (forall i, (i < List.length rows)%nat ->
                info_channel_line env s fi (Z.of_nat i)
                = Some (nth i rows []))
          /\ draw_info env s h fi
             = Drawn (info_fields env s m ++ draw_controls env s fi
                      ++ List.concat rows)).
Proof.
  split; [reflexivity|].
  split; [exact note_str_total|].
  split; [exact note_str_named|].
  split; [exact note_str_placeholder|].
  split.
  - intros c. rewrite info_max_channels_min. lia.
  - intros env s h m fi Hm Hfit.
    destruct (draw_info_rows env s h m fi Hm Hfit)
      as (rows & Hlen & Hnth & Hdraw).
    exists rows. repeat split; try assumption. lia.
Qed.

Lemma note_display_in_bounds_witness :
  note_str 49 = Some "C-4"%string /\ note_str 98 = Some "---"%string.
Proof.
  destruct note_display_in_bounds as (_ & _ & Hin & Hout & _).
  split.
  - rewrite (Hin 49) by lia. reflexivity.
  - apply (Hout 98). right. lia.
Defined.

(** Note 97 is the last name of the table, not the placeholder. *)
Lemma note_97_is_named :
  note_str 97 = Some "C-8"%string
  /\ ~ (forall n, n <= 0 \/ 97 <= n -> note_str n = Some "---"%string).
Proof.
  split; [reflexivity|].
  intros H. specialize (H 97 ltac:(lia)). discriminate H.
Qed.

(** ** Event handling *)

(** The file-drop branch, outcome by outcome. *)
Lemma drop_file_cases env file s w :
  let a := loads env (attempts w) in
  let c := ans_xmp_create_context a in
  let old := ctx (locals s) in
  let s0 :=
    set_ctx c (set_modfile (strncpy (modfile (locals s)) file 1023)
                 (set_stopped 1 s)) in
  let s1 := set_userdata c (set_mi (mkModuleInfo c) s0) in
  let path := cstr (modfile (locals s0)) in
  let opening :=
    [ SDL_PauseAudio 1; xmp_end_player old; xmp_release_module old;
      xmp_free_context old; SDL_CloseAudio; SDL_free file;
      xmp_create_context ] in
  let h0 := unload old (unload old (modules w)) in
  let h1 := store c (ans_xmp_get_module_info a) h0 in
  let result brk s' calls h :=
    (brk, s', mkWorld (log w ++ opening ++ calls) (S (attempts w)) h) in
  drop_file env file s w
  = if c =? 0 then
      result true (set_done 1 s0)
        [ fprintf_stderr ("Failed to create xmp context" ++ nl) [] ]
        h0
    else if ans_xmp_load_module a <? 0 then
      result true (set_done 1 s0)
        [ xmp_load_module c path;
          fprintf_stderr ("Failed to load module: %s" ++ nl) [ StringArg path ];
          xmp_free_context c ]
        (unload c h0)
    else if ans_SDL_OpenAudio a <? 0 then
      result true (set_done 1 s1)
        [ xmp_load_module c path; xmp_get_module_info c;
          SDL_OpenAudio (spec (locals s1));
          fprintf_stderr ("SDL_OpenAudio: %s" ++ nl) [ SDL_GetError ];
          xmp_release_module c; xmp_free_context c ]
        (unload c (unload c h1))
    else if ans_xmp_start_player a <? 0 then
      result true (set_done 1 s1)
        [ xmp_load_module c path; xmp_get_module_info c;
          SDL_OpenAudio (spec (locals s1)); xmp_start_player c 44100 0;
          fprintf_stderr ("xmp_start_player failed" ++ nl) [];
          SDL_CloseAudio; xmp_release_module c; xmp_free_context c ]
        (unload c (unload c h1))
    else
      result false (set_stopped 0 (set_paused 0 s1))
        [ xmp_load_module c path; xmp_get_module_info c;
          SDL_OpenAudio (spec (locals s1)); xmp_start_player c 44100 0;
          SDL_PauseAudio 0 ]
        h1.
Proof.
  unfold drop_file, emit, next_attempt, loaded.
  cbn [log attempts modules ctx locals set_ctx set_modfile set_stopped
       with_locals fold_left react].
  split_ifs; cbv zeta; cbn [log attempts modules fold_left react];
    rewrite <- ?app_assoc; reflexivity.
Qed.

(** C5: handling an event changes [paused] on SPACE, [stopped] and [done]
    on ESCAPE and on quit, [show_visualizer] on V, and on a file drop the
    file path and the playback around it (context, module information,
    user data, the flags); fonts, handles, colours and the other variables
    stay as they are under every event, and so does the module information
    of the loaded file unless a file is dropped.  Only a file drop calls
    into the libraries. *)
Theorem handle_event_footprint (env : Env) (event : SDL_Event)
    (s : State) (w : World) :
  let '(brk, s', w') := handle_event env event s w in
  same_fixtures s s'
  /\ match event with
     | SDL_KEYDOWN SDLK_SPACE =>
         paused (globals s') = Int.lnot (paused (globals s))
         /\ stopped (globals s') = stopped (globals s)
         /\ locals s' = locals s /\ w' = w /\ brk = false
     | SDL_KEYDOWN SDLK_v =>
         show_visualizer (locals s') = Int.lnot (show_visualizer (locals s))
         /\ done (locals s') = done (locals s)
         /\ globals s' = globals s /\ same_playback s s'
         /\ w' = w /\ brk = false
     | SDL_KEYDOWN SDLK_ESCAPE | SDL_QUIT =>
         stopped (globals s') = 1 /\ done (locals s') = 1
         /\ paused (globals s') = paused (globals s)
         /\ show_visualizer (locals s') = show_visualizer (locals s)
         /\ same_playback s s' /\ w' = w /\ brk = false
     | SDL_DROPFILE _ =>
         show_visualizer (locals s') = show_visualizer (locals s)
     | SDL_KEYDOWN SDLK_other | SDL_other_event =>
         s' = s /\ w' = w /\ brk = false
     end.
Proof.
  destruct s as [[p st] l], event as [| [| | |] | file |];
    cbn [handle_event];
    try (unfold same_fixtures, same_playback; cbn;
         repeat split; reflexivity).
  unfold drop_file. cbn. split_ifs;
    unfold same_fixtures; cbn; repeat split; reflexivity.
Qed.

(** What a file drop leaves behind. *)
Lemma drop_file_effect env file s w :
  let a := loads env (attempts w) in
  let c := ans_xmp_create_context a in
  let '(brk, s', w') := drop_file env file s w in
  brk = load_failed a
  /\ modfile (locals s') = strncpy (modfile (locals s)) file 1023
  /\ show_visualizer (locals s') = show_visualizer (locals s)
  /\ done (locals s') = (if load_failed a then 1 else done (locals s))
  /\ stopped (globals s') = (if load_failed a then 1 else 0)
  /\ paused (globals s')
     = (if load_failed a then paused (globals s) else 0)
  /\ ctx (locals s') = c
  /\ (load_failed a = false ->
        mi (locals s') = mkModuleInfo c
        /\ userdata (spec (locals s')) = c)
  /\ attempts w' = S (attempts w).
Proof.
  intros a c. rewrite drop_file_cases. unfold load_failed. fold a. fold c.
  destruct (c =? 0); [cbn; repeat split; intros; discriminate|].
  destruct (ans_xmp_load_module a <? 0);
    [cbn; repeat split; intros; discriminate|].
  destruct (ans_SDL_OpenAudio a <? 0);
    [cbn; repeat split; intros; discriminate|].
  destruct (ans_xmp_start_player a <? 0);
    [cbn; repeat split; intros; discriminate|].
  cbn. repeat split.
Qed.

Lemma unload_same c h : unload c h c = None.
Proof. unfold unload. rewrite Z.eqb_refl. reflexivity. Qed.

Lemma store_same c m h : store c m h c = Some m.
Proof. unfold store. rewrite Z.eqb_refl. reflexivity. Qed.

Lemma unload_none c h p : h p = None -> unload c h p = None.
Proof. unfold unload. intros ->. destruct (p =? c); reflexivity. Qed.

(** What a file drop does to the modules: a load that succeeds leaves the
    module of the new file in the new context, with [mi.mod] pointing to
    it; after a load that fails [mi.mod] points to a module that has been
    released, and the context is [NULL] or has been freed. *)
Lemma drop_file_modules env file s w :
  let a := loads env (attempts w) in
  let c := ans_xmp_create_context a in
  let '(brk, s', w') := drop_file env file s w in
  (load_failed a = false ->
     module_of (mi (locals s')) = c
     /\ modules w' c = Some (ans_xmp_get_module_info a))
  /\ (load_failed a = true ->
      (module_of (mi (locals s)) = ctx (locals s) ->
       modules w' (module_of (mi (locals s'))) = None)
      /\ (ctx (locals s') = 0 \/ modules w' (ctx (locals s')) = None)).
Proof.
  intros a c. rewrite drop_file_cases. unfold load_failed. fold a. fold c.
  destruct (Z.eqb_spec c 0) as [Hc | Hc].
  { cbn. split; [discriminate|]. intros _. split; [|left; exact Hc].
    intros ->. apply unload_none, unload_same. }
  destruct (ans_xmp_load_module a <? 0).
  { cbn. split; [discriminate|]. intros _.
    split; [|right; apply unload_same].
    intros ->. apply unload_none, unload_none, unload_same. }
  destruct (ans_SDL_OpenAudio a <? 0).
  { cbn. split; [discriminate|]. intros _.
    split; [intros _|right]; apply unload_same. }
  destruct (ans_xmp_start_player a <? 0).
  { cbn. split; [discriminate|]. intros _.
    split; [intros _|right]; apply unload_same. }
  cbn. split; [|discriminate]. intros _. split; [reflexivity|].
  apply store_same.
Qed.

(** The state a frame leaves behind. *)
Lemma show_frame_state env fi s w s' w' :
  show_frame env fi s w = (Some s', w') ->
  s' = (if (0 <? loop_count fi) || Int.truthy (stopped (globals s))
        then set_done 1 s else s).
Proof.
  unfold show_frame. destruct (map_rgb _ 0 0 0); [|discriminate].
  destruct (draw env _ _ fi); [|discriminate].
  intros H. injection H as <- _. reflexivity.
Qed.

(** The two toggled flags hold 0 or 1 in every reachable state. *)
Lemma reachable_flags env s :
  reachable env s ->
  (paused (globals s) = 0 \/ paused (globals s) = 1)
  /\ (show_visualizer (locals s) = 0 \/ show_visualizer (locals s) = 1).
Proof.
  induction 1 as [| s w event _ [IHp IHv] | s w fi s' w' _ [IHp IHv] Hshow].
  - cbn. auto.
  - destruct event as [| [| | |] | file |]; cbn [handle_event fst snd];
      try (split; assumption).
    + split; [apply IntFacts.lnot_bool | exact IHv].
    + split; [exact IHp | apply IntFacts.lnot_bool].
    + pose proof (drop_file_effect env file s w) as F. cbv zeta in F.
      destruct (drop_file env file s w) as [[brk s'] w'].
      destruct F as (_ & _ & Hv & _ & _ & Hp & _).
      cbn [fst snd]. rewrite Hv, Hp. split; [|exact IHv].
      destruct (load_failed _); auto.
  - rewrite (show_frame_state _ _ _ _ _ _ Hshow).
    destruct ((0 <? loop_count fi) || Int.truthy (stopped (globals s)));
      cbn; auto.
Qed.

(** C6: a SPACE key press negates [paused] and a V key press negates
    [show_visualizer]; two SPACE presses in a row, or two V presses, give
    the state they started from. *)
Theorem toggle_twice (env : Env) (s : State) (w : World) :
  reachable env s ->
  let press key st := snd (fst (handle_event env (SDL_KEYDOWN key) st w)) in
  paused (globals (press SDLK_SPACE s)) = Int.lnot (paused (globals s))
  /\ show_visualizer (locals (press SDLK_v s))
     = Int.lnot (show_visualizer (locals s))
  /\ (paused (globals s) = 0 <-> paused (globals (press SDLK_SPACE s)) <> 0)
  /\ (show_visualizer (locals s) = 0
      <-> show_visualizer (locals (press SDLK_v s)) <> 0)
  /\ press SDLK_SPACE (press SDLK_SPACE s) = s
  /\ press SDLK_v (press SDLK_v s) = s.
Proof.
  intros R press. destruct (reachable_flags env s R) as [Hp Hv].
  destruct s as [[p st] l]. cbn in *.
  split; [reflexivity|]. split; [reflexivity|].
  split; [destruct Hp as [-> | ->]; cbn; intuition lia|].
  split; [destruct Hv as [-> | ->]; cbn; intuition lia|].
  split.
  - unfold set_paused. cbn. rewrite IntFacts.lnot_involutive by exact Hp.
    reflexivity.
  - unfold set_show_visualizer, with_locals. cbn.
    rewrite IntFacts.lnot_involutive by exact Hv.
    destruct l. reflexivity.
Qed.

Lemma toggle_twice_witness :
  snd (fst (handle_event env_keys (SDL_KEYDOWN SDLK_SPACE)
              (snd (fst (handle_event env_keys (SDL_KEYDOWN SDLK_SPACE)
                           sample_state sample_world)))
              sample_world))
  = sample_state.
Proof.
  refine (proj1 (proj2 (proj2 (proj2 (proj2
            (toggle_twice env_keys sample_state sample_world _)))))).
  unfold sample_state. constructor.
Defined.

(** ** The file path buffer *)

Lemma cstr_terminated (file : string) (rest : list ascii) :
  no_nul file = true ->
  cstr (list_ascii_of_string file ++ NUL :: rest) = file.
Proof.
  induction file as [|c file IH]; intros Hn; cbn.
  - reflexivity.
  - cbn in Hn. apply andb_prop in Hn as [Hc Hrest].
    apply negb_true_iff in Hc. rewrite Hc. f_equal. apply IH. exact Hrest.
Qed.

Lemma length_list_ascii_of_string s :
  List.length (list_ascii_of_string s) = String.length s.
Proof. induction s; cbn; congruence. Qed.

Lemma modfile_tail buf :
  modfile_ok buf -> skipn 1023 buf = [NUL].
Proof.
  intros [Hlen Hlast].
  pose proof (firstn_skipn 1023 buf) as Hsplit.
  assert (Hl : List.length (skipn 1023 buf) = 1%nat)
    by (rewrite length_skipn, Hlen; reflexivity).
  destruct (skipn 1023 buf) as [|c [|c' t]] eqn:E; try discriminate Hl.
  rewrite <- Hsplit in Hlast.
  rewrite nth_error_app2 in Hlast
    by (rewrite length_firstn, Hlen; cbn; lia).
  rewrite length_firstn, Hlen in Hlast.
  replace (1023 - Nat.min 1023 1024)%nat with 0%nat in Hlast by (cbn; lia).
  cbn in Hlast. congruence.
Qed.

Lemma strncpy_ok buf file :
  modfile_ok buf -> modfile_ok (strncpy buf file 1023).
Proof.
  intros Hok. pose proof (modfile_tail buf Hok) as Htail.
  unfold strncpy. rewrite Htail.
  assert (Hl : List.length
                 (firstn 1023 (list_ascii_of_string file ++ repeat NUL 1023))
               = 1023%nat).
  { rewrite length_firstn, length_app, repeat_length. lia. }
  split.
  - rewrite length_app, Hl. reflexivity.
  - rewrite nth_error_app2 by lia. rewrite Hl, Nat.sub_diag. reflexivity.
Qed.

Lemma padding_terminated (m n : nat) :
  exists t, firstn m (repeat NUL n) ++ [NUL] = NUL :: t.
Proof. destruct m, n; cbn; eauto. Qed.

(** A path of at most 1023 characters replaces whatever the buffer held. *)
Lemma strncpy_cstr buf file :
  modfile_ok buf -> (String.length file <= 1023)%nat -> no_nul file = true ->
  cstr (strncpy buf file 1023) = file.
Proof.
  intros Hok Hlen Hn. unfold strncpy. rewrite (modfile_tail buf Hok).
  rewrite firstn_app, length_list_ascii_of_string.
  rewrite firstn_all2 by (rewrite length_list_ascii_of_string; exact Hlen).
  rewrite <- app_assoc.
  destruct (padding_terminated (1023 - String.length file) 1023) as [t ->].
  apply cstr_terminated. exact Hn.
Qed.

Lemma modfile_initial_ok : modfile_ok (repeat NUL 1024).
Proof. split; reflexivity. Qed.

(** Paths longer than the buffer are cut. *)
Lemma firstn_list_ascii (s : string) : forall n,
  firstn n (list_ascii_of_string s) = list_ascii_of_string (substring 0 n s).
Proof.
  induction s as [|c s IH]; intros [|n]; cbn; try reflexivity.
  rewrite IH. reflexivity.
Qed.

Lemma no_nul_substring (s : string) : forall n,
  no_nul s = true -> no_nul (substring 0 n s) = true.
Proof.
  induction s as [|c s IH]; intros [|n] H; cbn in *; try reflexivity.
  apply andb_prop in H as [Hc Hs]. rewrite Hc, (IH n Hs). reflexivity.
Qed.

Lemma length_substring_le (s : string) : forall n,
  (String.length (substring 0 n s) <= n)%nat.
Proof.
  induction s as [|c s IH]; intros [|n]; cbn; try lia.
  specialize (IH n). lia.
Qed.

Lemma substring_short (s : string) : forall n,
  (String.length s <= n)%nat -> substring 0 n s = s.
Proof.
  induction s as [|c s IH]; intros [|n] H; cbn in *; try reflexivity; try lia.
  rewrite IH by lia. reflexivity.
Qed.

Lemma strncpy_cstr_cut buf file :
  modfile_ok buf -> no_nul file = true ->
  cstr (strncpy buf file 1023) = substring 0 1023 file.
Proof.
  intros Hok Hn. unfold strncpy. rewrite (modfile_tail buf Hok).
  rewrite firstn_app, firstn_list_ascii, <- app_assoc.
  destruct (padding_terminated
              (1023 - List.length (list_ascii_of_string file)) 1023)
    as [t ->].
  apply cstr_terminated, no_nul_substring, Hn.
Qed.


(** ** The end of the main loop *)

Lemma log_emit cs w : log (emit cs w) = log w ++ cs.
Proof. reflexivity. Qed.

Lemma main_loop_done env inputs s w :
  done (locals s) <> 0 ->
  main_loop env inputs s w = Exit 0 (emit (shutdown s) w).
Proof.
  intros Hd. apply IntFacts.truthy_true in Hd.
  destruct inputs; cbn; rewrite Hd; reflexivity.
Qed.

Lemma handle_event_keeps_done env event s w :
  done (locals s) <> 0 ->
  done (locals (snd (fst (handle_event env event s w)))) <> 0.
Proof.
  intros Hd. destruct event as [| [| | |] | file |];
    cbn [handle_event fst snd]; try exact Hd;
    try (destruct s; cbn; lia).
  pose proof (drop_file_effect env file s w) as F. cbv zeta in F.
  destruct (drop_file env file s w) as [[brk s'] w'].
  destruct F as (_ & _ & _ & Hdone & _). cbn [fst snd]. rewrite Hdone.
  destruct (load_failed _); [lia | exact Hd].
Qed.

Lemma handle_event_break env event s w brk s' w' :
  handle_event env event s w = (brk, s', w') ->
  brk = true -> done (locals s') = 1.
Proof.
  intros E ->. destruct event as [| [| | |] | file |];
    cbn [handle_event] in E; try discriminate E.
  pose proof (drop_file_effect env file s w) as F. cbv zeta in F.
  rewrite E in F. destruct F as (Hb & _ & _ & -> & _).
  rewrite <- Hb. reflexivity.
Qed.

Lemma poll_events_keeps_done env events : forall s w,
  done (locals s) <> 0 ->
  done (locals (fst (poll_events env events s w))) <> 0.
Proof.
  induction events as [|e rest IH]; intros s w Hd; cbn; [exact Hd|].
  pose proof (handle_event_keeps_done env e s w Hd) as Hk.
  destruct (handle_event env e s w) as [[brk s'] w']. cbn in Hk.
  destruct brk; [exact Hk | apply IH; exact Hk].
Qed.

Lemma poll_events_app env before later : forall s w s1 w1,
  poll_events env before s w = (s1, w1) ->
  done (locals s1) = 0 ->
  poll_events env (before ++ later) s w = poll_events env later s1 w1.
Proof.
  induction before as [|e rest IH]; intros s w s1 w1 E Hd; cbn in *.
  - injection E as <- <-. reflexivity.
  - destruct (handle_event env e s w) as [[brk s'] w'] eqn:He.
    destruct brk.
    + injection E as <- <-.
      rewrite (handle_event_break _ _ _ _ _ _ _ He eq_refl) in Hd.
      discriminate Hd.
    + apply IH; assumption.
Qed.

Lemma show_frame_keeps_done env fi s w s' w' :
  done (locals s) <> 0 ->
  show_frame env fi s w = (Some s', w') -> done (locals s') <> 0.
Proof.
  intros Hd E. rewrite (show_frame_state _ _ _ _ _ _ E).
  destruct ((0 <? loop_count fi) || Int.truthy (stopped (globals s)));
    [destruct s; cbn; lia | exact Hd].
Qed.

(** An iteration whose events leave [done] set is the last one. *)
Lemma last_iteration env input rest s w s1 w1 :
  done (locals s) = 0 ->
  poll_events env (pending input) s w = (s1, w1) ->
  done (locals s1) <> 0 ->
  main_loop env (input :: rest) s w
  = match show_frame env (frame_info input) s1 w1 with
    | (Some s2, w2) => Exit 0 (emit (shutdown s2) w2)
    | (None, w2) => Fault w2
    end.
Proof.
  intros H0 E Hd. cbn [main_loop].
  apply IntFacts.truthy_false in H0. rewrite H0.
  unfold frame. rewrite E.
  destruct (show_frame env (frame_info input) s1 w1) as [[s2|] w2] eqn:Es;
    [|reflexivity].
  apply main_loop_done. eapply show_frame_keeps_done; eassumption.
Qed.

(** ** A file dropped during playback *)

(** A drop whose load fails ends the main loop with the iteration it is
    handled in: the events behind it stay unhandled and no further frame is
    asked for. *)
Lemma failed_drop_ends_loop env file before more fi rest s0 w0 s w brk s' w' :
  poll_events env before s0 w0 = (s, w) ->
  done (locals s) = 0 ->
  handle_event env (SDL_DROPFILE file) s w = (brk, s', w') ->
  brk = true ->
  main_loop env (mkFrameInput (before ++ SDL_DROPFILE file :: more) fi :: rest)
    s0 w0
  = match show_frame env fi s' w' with
    | (Some s2, w2) => Exit 0 (emit (shutdown s2) w2)
    | (None, w2) => Fault w2
    end.
Proof.
  intros Hpoll Hd He ->.
  apply (last_iteration env (mkFrameInput _ fi)).
  - destruct (Z.eq_dec (done (locals s0)) 0) as [H0 | H0]; [exact H0|].
    pose proof (poll_events_keeps_done env before s0 w0 H0) as Hk.
    rewrite Hpoll in Hk. contradiction.
  - cbn [pending]. rewrite (poll_events_app env before _ s0 w0 s w Hpoll Hd).
    cbn [poll_events]. rewrite He. reflexivity.
  - rewrite (handle_event_break _ _ _ _ _ _ _ He eq_refl). lia.
Qed.

(** The calls of a file drop behind [xmp_create_context]. *)
Lemma drop_file_calls env file s w :
  let a := loads env (attempts w) in
  let c := ans_xmp_create_context a in
  let old := ctx (locals s) in
  let '(_, s', w') := drop_file env file s w in
  exists calls,
    log w'
    = log w
      ++ [ SDL_PauseAudio 1; xmp_end_player old; xmp_release_module old;
           xmp_free_context old; SDL_CloseAudio; SDL_free file;
           xmp_create_context ]
      ++ calls
    /\ (load_failed a = false ->
          calls = [ xmp_load_module c (cstr (modfile (locals s')));
                    xmp_get_module_info c; SDL_OpenAudio (spec (locals s'));
                    xmp_start_player c 44100 0; SDL_PauseAudio 0 ])
    /\ (load_failed a = true ->
          exists before format args after,
            calls = before ++ fprintf_stderr format args :: after
            /\ forallb is_release after = true
            /\ ~ In (SDL_PauseAudio 0) calls).
Proof.
  intros a c old. rewrite drop_file_cases. unfold load_failed.
  fold a. fold c. fold old.
  destruct (c =? 0).
  { eexists. split; [reflexivity|]. split; [intros H; discriminate H|].
    intros _. exists []. do 3 eexists. split; [reflexivity|].
    split; [reflexivity|]. cbn. intros [H | []]. discriminate H. }
  destruct (ans_xmp_load_module a <? 0).
  { eexists. split; [reflexivity|]. split; [intros H; discriminate H|].
    intros _. eexists [_]. do 3 eexists. split; [reflexivity|].
    split; [reflexivity|]. cbn. intuition discriminate. }
  destruct (ans_SDL_OpenAudio a <? 0).
  { eexists. split; [reflexivity|]. split; [intros H; discriminate H|].
    intros _. eexists [_; _; _]. do 3 eexists. split; [reflexivity|].
    split; [reflexivity|]. cbn. intuition discriminate. }
  destruct (ans_xmp_start_player a <? 0).
  { eexists. split; [reflexivity|]. split; [intros H; discriminate H|].
    intros _. eexists [_; _; _; _]. do 3 eexists. split; [reflexivity|].
    split; [reflexivity|]. cbn. intuition discriminate. }
  eexists. split; [reflexivity|]. split; [|intros H; discriminate H].
  intros _. reflexivity.
Qed.





(** ** The display of a frame *)

Lemma emit_emit a b w : emit b (emit a w) = emit (a ++ b) w.
Proof.
  unfold emit. cbn [log attempts modules].
  rewrite fold_left_app, app_assoc. reflexivity.
Qed.

(** *** The texts of the two displays *)

Lemma placed_app env s a b :
  placed env s (a ++ b) = placed env s a ++ placed env s b.
Proof. unfold placed. rewrite map_app, concat_app. reflexivity. Qed.

Lemma info_fields_layout env s m :
  info_fields env s m = placed env s (fields_layout s m).
Proof.
  unfold info_fields, placed, fields_layout, text. cbv zeta.
  cbn [map List.concat place]. rewrite app_nil_r. reflexivity.
Qed.

Lemma draw_controls_layout env s fi :
  draw_controls env s fi = placed env s (controls_layout s fi).
Proof.
  unfold draw_controls, placed, controls_layout, text, Int.truthy. cbv zeta.
  cbn [map List.concat place]. rewrite app_nil_r.
  destruct (paused (globals s) =? 0); reflexivity.
Qed.

Lemma note_str_text n : note_str n = Some (note_text n).
Proof.
  unfold note_str, note_text. change note_names_count with 98.
  destruct ((0 <? n) && (n <? 98)) eqn:E; [|reflexivity].
  apply andb_prop in E as [H1 H2]. apply Z.ltb_lt in H1, H2.
  apply nth_error_nth'. change (List.length note_names) with 98%nat. lia.
Qed.

(** The line of a channel of the panel. *)
Lemma info_channel_line_value env s fi ch ci :
  0 <= ch < 8 ->
  nth_error (channel_info fi) (Z.to_nat ch) = Some ci ->
  info_channel_line env s fi ch
  = Some (placed env s (channel_rows s ch [ ci ])).
Proof.
  intros Hch Hci. unfold info_channel_line. rewrite Hci, note_str_text.
  unfold placed. cbn [channel_rows map List.concat place].
  rewrite app_nil_r.
  rewrite (IntFacts.mul_small ch 15), (IntFacts.add_small 10),
    (IntFacts.add_small ch 1), (Z.mul_comm ch 15);
    unfold Int.in_range, Int.min_int, Int.max_int; try lia.
  reflexivity.
Qed.

(** The bar of a channel of the visualizer. *)
Lemma visualizer_bar_value env s fi bw ch ci :
  screen (locals s) <> 0 ->
  0 <= ch < Int.max_int ->
  nth_error (channel_info fi) (Z.to_nat ch) = Some ci ->
  visualizer_bar env s fi bw ch = Some (channel_bars env s bw ch [ ci ]).
Proof.
  intros Hsc Hch Hci. unfold visualizer_bar, bar_height, map_rgb.
  rewrite Hci, IntFacts.div_some by lia.
  apply Z.eqb_neq in Hsc. rewrite Hsc.
  cbn [channel_bars place]. rewrite app_nil_r.
  rewrite (IntFacts.add_small ch 1);
    [reflexivity | unfold Int.in_range, Int.min_int, Int.max_int in *; lia].
Qed.

Lemma info_channel_line_fault env s fi ch :
  Z.of_nat (List.length (channel_info fi)) <= ch ->
  info_channel_line env s fi ch = None.
Proof.
  intros H. unfold info_channel_line.
  replace (nth_error (channel_info fi) (Z.to_nat ch)) with
    (@None xmp_channel_info); [reflexivity|].
  symmetry. apply nth_error_None. lia.
Qed.

Lemma visualizer_bar_fault env s fi bw ch :
  Z.of_nat (List.length (channel_info fi)) <= ch ->
  visualizer_bar env s fi bw ch = None.
Proof.
  intros H. unfold visualizer_bar.
  replace (nth_error (channel_info fi) (Z.to_nat ch)) with
    (@None xmp_channel_info); [reflexivity|].
  symmetry. apply nth_error_None. lia.
Qed.

Lemma nth_error_firstn_some {A : Type} (l : list A) n i a :
  nth_error (firstn n l) i = Some a -> nth_error l i = Some a /\ (i < n)%nat.
Proof.
  revert l i. induction n as [|n IH]; intros l i H.
  - destruct i; discriminate H.
  - destruct l as [|b l]; [destruct i; discriminate H|].
    destruct i as [|i]; [split; [exact H | lia]|].
    cbn in H. destruct (IH l i H). split; [assumption | lia].
Qed.

(** The information panel is the module's fields, the controls and a line
    for each of the first channels. *)
Lemma draw_info_layout env s h m fi :
  h (module_of (mi (locals s))) = Some m ->
  Z.min (chn m) 8 <= Z.of_nat (List.length (channel_info fi)) ->
  draw_info env s h fi = Drawn (placed env s (panel_layout s m fi)).
Proof.
  intros Hm Hfit. unfold draw_info. rewrite Hm, info_max_channels_min.
  set (n := Z.to_nat (Z.min (chn m) 8)).
  assert (Hlen : List.length (firstn n (channel_info fi)) = n)
    by (apply firstn_length_le; lia).
  rewrite <- Hlen at 1.
  rewrite (for_channels_list (info_channel_line env s fi)
             (fun ch ci => placed env s (channel_rows s ch [ ci ]))
             (fun ch cis => placed env s (channel_rows s ch cis))).
  - unfold panel_layout. fold n. cbn [and_then].
    rewrite !placed_app, info_fields_layout, draw_controls_layout,
      <- app_assoc.
    reflexivity.
  - reflexivity.
  - intros ch a l. unfold placed. cbn [channel_rows map List.concat].
    rewrite app_nil_r. reflexivity.
  - lia.
  - rewrite Hlen. unfold Int.max_int. lia.
  - intros i a Hi. apply nth_error_firstn_some in Hi as [Hi Hin].
    rewrite Z.add_0_l. apply info_channel_line_value; [lia|].
    rewrite Nat2Z.id. exact Hi.
Qed.

(** It cannot be drawn to its end when the frame information holds fewer
    channels than it lists. *)
Lemma draw_info_broken env s h m fi :
  h (module_of (mi (locals s))) = Some m ->
  Z.of_nat (List.length (channel_info fi)) < Z.min (chn m) 8 ->
  exists calls, draw_info env s h fi = Broken calls.
Proof.
  intros Hm Hcut. unfold draw_info. rewrite Hm, info_max_channels_min.
  destruct (for_channels_fault (info_channel_line env s fi)
              (Z.to_nat (Z.min (chn m) 8)) 0
              (List.length (channel_info fi))) as [calls ->];
    [lia | unfold Int.max_int; lia | lia | | cbn [and_then]; eauto].
  apply info_channel_line_fault. lia.
Qed.

(** Every number of channels but zero gives a bar width. *)
Lemma bar_width_defined c : c <> 0 -> exists bw, bar_width c = Some bw.
Proof.
  intros Hz. destruct (Z.eq_dec c (-1)) as [-> | Hm1];
    [eexists; reflexivity|].
  destruct (bar_width_at_least_2 c Hz Hm1) as (bw & Hbw & _). eauto.
Qed.

(** The visualizer is a bar for each channel of the module and the
    controls. *)
Lemma draw_visualizer_layout env s h m fi bw :
  h (module_of (mi (locals s))) = Some m ->
  screen (locals s) <> 0 ->
  chn m <= Int.max_int ->
  bar_width (chn m) = Some bw ->
  chn m <= Z.of_nat (List.length (channel_info fi)) ->
  draw_visualizer env s h fi = Drawn (visualizer_layout env s m fi bw).
Proof.
  intros Hm Hsc Hmax Hbw Hfit. unfold draw_visualizer.
  rewrite Hm. cbv zeta. rewrite Hbw.
  set (n := Z.to_nat (chn m)).
  assert (Hlen : List.length (firstn n (channel_info fi)) = n)
    by (apply firstn_length_le; lia).
  rewrite <- Hlen at 1.
  rewrite (for_channels_list (visualizer_bar env s fi bw)
             (fun ch ci => channel_bars env s bw ch [ ci ])
             (channel_bars env s bw)).
  - unfold visualizer_layout. fold n.
    rewrite draw_controls_layout. reflexivity.
  - reflexivity.
  - intros ch a l. cbn [channel_bars]. rewrite app_nil_r. reflexivity.
  - lia.
  - rewrite Hlen. unfold n, Int.max_int in *. lia.
  - intros i a Hi. apply nth_error_firstn_some in Hi as [Hi Hin].
    rewrite Z.add_0_l.
    apply visualizer_bar_value;
      [exact Hsc | unfold n, Int.max_int in *; lia|].
    rewrite Nat2Z.id. exact Hi.
Qed.

(** It cannot be drawn to its end for a module without channels, nor when
    the frame information holds fewer channels than the module. *)
Lemma draw_visualizer_broken env s h m fi :
  h (module_of (mi (locals s))) = Some m ->
  chn m <= Int.max_int ->
  chn m = 0 \/ Z.of_nat (List.length (channel_info fi)) < chn m ->
  exists calls, draw_visualizer env s h fi = Broken calls.
Proof.
  intros Hm Hmax Hbad. unfold draw_visualizer. rewrite Hm. cbv zeta.
  destruct Hbad as [Hz | Hcut]; [rewrite Hz; cbn; eauto|].
  destruct (bar_width (chn m)) as [bw|]; [|eauto].
  destruct (for_channels_fault (visualizer_bar env s fi bw)
              (Z.to_nat (chn m)) 0 (List.length (channel_info fi)))
    as [calls ->];
    [lia | unfold Int.max_int in *; lia | lia | | eauto].
  apply visualizer_bar_fault. lia.
Qed.

(** Nothing can be drawn to its end through a [mi.mod] that points to no
    module. *)
Lemma draw_dangling env s h fi :
  h (module_of (mi (locals s))) = None ->
  exists calls, draw env s h fi = Broken calls.
Proof.
  intros H. unfold draw, draw_info, draw_visualizer. rewrite H.
  destruct (negb _); eauto.
Qed.

(** *** What tells the two displays apart *)









(** What holds of the calls of [render_text] and of a filled rectangle,
    and of two lists of calls joined when it holds of both, holds of the
    calls of a frame, drawn to its end or not. *)
Lemma for_channels_calls (P : list Call -> Prop) body :
  P [] -> (forall a b, P a -> P b -> P (a ++ b)) ->
  (forall ch cs, body ch = Some cs -> P cs) ->
  forall n from, P (calls_of (for_channels n from body)).
Proof.
  intros Hnil Happ Hbody. induction n as [|n IH]; intros from;
    cbn [for_channels]; [exact Hnil|].
  destruct (body from) as [cs0|] eqn:E0; [|exact Hnil].
  specialize (IH (Int.add from 1)).
  destruct (for_channels n (Int.add from 1) body) as [rest|rest];
    cbn [and_then calls_of] in *; eauto.
Qed.

Lemma draw_calls (P : list Call -> Prop) env :
  P [] -> (forall a b, P a -> P b -> P (a ++ b)) ->
  (forall sc f x y t col, P (render_text env sc f x y t col)) ->
  (forall sc r c, P [ SDL_FillRect sc r c ]) ->
  forall s h fi, P (calls_of (draw env s h fi)).
Proof.
  intros Hnil Happ Htext Hrect s h fi.
  assert (Hcontrols : P (draw_controls env s fi)).
  { unfold draw_controls, text. cbv zeta. repeat apply Happ; apply Htext. }
  unfold draw. destruct (negb (Int.truthy (show_visualizer (locals s)))).
  - unfold draw_info.
    destruct (h (module_of (mi (locals s)))) as [m|]; [|apply Htext].
    cbv zeta.
    assert (Hrows : P (calls_of (for_channels
                                   (Z.to_nat (info_max_channels (chn m))) 0
                                   (info_channel_line env s fi)))).
    { apply for_channels_calls; try assumption.
      intros ch cs. unfold info_channel_line.
      destruct (nth_error (channel_info fi) (Z.to_nat ch)) as [ci|];
        [|discriminate].
      destruct (note_str (note ci)) as [str|]; [|discriminate].
      intros Hcs. injection Hcs as <-. apply Htext. }
    assert (Hfields : P (info_fields env s m ++ draw_controls env s fi)).
    { apply Happ; [|exact Hcontrols].
      unfold info_fields, text. cbv zeta. repeat apply Happ; apply Htext. }
    destruct (for_channels _ 0 (info_channel_line env s fi));
      cbn [and_then calls_of] in *; apply Happ; assumption.
  - unfold draw_visualizer.
    destruct (h (module_of (mi (locals s)))) as [m|]; [|exact Hnil].
    cbv zeta.
    destruct (bar_width (chn m)) as [bw|]; [|exact Hnil].
    assert (Hbars : P (calls_of (for_channels (Z.to_nat (chn m)) 0
                                   (visualizer_bar env s fi bw)))).
    { apply for_channels_calls; try assumption.
      intros ch cs. unfold visualizer_bar.
      destruct (nth_error (channel_info fi) (Z.to_nat ch)) as [ci|];
        [|discriminate].
      destruct (bar_height (volume ci)) as [hh|]; [|discriminate].
      destruct (map_rgb _ 255 255 0) as [color|]; [|discriminate].
      intros Hcs. injection Hcs as <-.
      apply (Happ [ _ ]); [apply Hrect | apply Htext]. }
    destruct (for_channels _ 0 (visualizer_bar env s fi bw));
      cbn [calls_of] in *; [apply Happ|]; assumption.
Qed.

(** *** A frame *)

Lemma draw_set_done env s h fi :
  draw env (set_done 1 s) h fi = draw env s h fi.
Proof. destruct s as [g l], l. reflexivity. Qed.

(** What an iteration does after the events, case by case. *)
Lemma show_frame_cases env fi s w :
  let s1 := if (0 <? loop_count fi) || Int.truthy (stopped (globals s))
            then set_done 1 s else s in
  let clear := [ xmp_get_frame_info (ctx (locals s));
                 SDL_FillRect (screen (locals s)) None black ] in
  show_frame env fi s w
  = if screen (locals s) =? 0
    then (None, emit [ xmp_get_frame_info (ctx (locals s)) ] w)
    else
      match draw env s (modules w) fi with
      | Broken calls => (None, emit (clear ++ calls) w)
      | Drawn display =>
          (Some s1,
           emit (clear ++ display
                 ++ [ SDL_UpdateWindowSurface (window (locals s));
                      SDL_Delay 20 ]) w)
      end.
Proof.
  intros s1 clear. unfold show_frame, map_rgb. fold s1.
  assert (H : screen (locals s1) = screen (locals s)
              /\ window (locals s1) = window (locals s)
              /\ draw env s1 (modules w) fi = draw env s (modules w) fi).
  { unfold s1.
    destruct ((0 <? loop_count fi) || Int.truthy (stopped (globals s)));
      [|repeat split].
    split; [reflexivity|]. split; [reflexivity|]. apply draw_set_done. }
  destruct H as (-> & Hwin & Hdraw).
  destruct (screen (locals s) =? 0); [reflexivity|].
  change (modules (emit [ SDL_FillRect (screen (locals s)) None
                            (SDL_MapRGB 0 0 0) ]
                     (emit [ xmp_get_frame_info (ctx (locals s)) ] w)))
    with (modules w).
  rewrite Hdraw.
  destruct (draw env s (modules w) fi) as [display|calls];
    rewrite ?Hwin, !emit_emit; reflexivity.
Qed.

(** A frame is drawn exactly when it can be. *)
Lemma show_frame_drawable env fi s w :
  (forall m, modules w (module_of (mi (locals s))) = Some m ->
             chn m <= Int.max_int) ->
  (exists s2 w2, show_frame env fi s w = (Some s2, w2)) <-> drawable s w fi.
Proof.
  intros Hint. rewrite show_frame_cases. cbv zeta. unfold drawable.
  destruct (Z.eqb_spec (screen (locals s)) 0) as [Hsc | Hsc].
  { split; [intros (s2 & w2 & H); discriminate H | intros [H _]; lia]. }
  destruct (modules w (module_of (mi (locals s)))) as [m|] eqn:Hm.
  2:{ destruct (draw_dangling env s _ fi Hm) as [calls ->].
      split; [intros (s2 & w2 & H); discriminate H|].
      intros (_ & m & H & _). discriminate H. }
  specialize (Hint m eq_refl). unfold draw, Int.truthy.
  destruct (Z.eqb_spec (show_visualizer (locals s)) 0) as [Hv | Hv];
    cbn [negb].
  - destruct (Z.le_gt_cases (Z.min (chn m) 8)
                (Z.of_nat (List.length (channel_info fi)))) as [Hfit | Hcut].
    + rewrite (draw_info_layout env s _ m fi Hm Hfit).
      split; [|eauto]. intros _. split; [exact Hsc|]. exists m.
      split; [reflexivity | exact Hfit].
    + destruct (draw_info_broken env s _ m fi Hm Hcut) as [calls ->].
      split; [intros (s2 & w2 & H); discriminate H|].
      intros (_ & m' & H & Hfit). injection H as <-. lia.
  - destruct (Z.eq_dec (chn m) 0) as [Hz | Hz].
    { destruct (draw_visualizer_broken env s _ m fi Hm Hint (or_introl Hz))
        as [calls ->].
      split; [intros (s2 & w2 & H); discriminate H|].
      intros (_ & m' & H & Hc & _). injection H as <-. contradiction. }
    destruct (bar_width_defined (chn m) Hz) as [bw Hbw].
    destruct (Z.le_gt_cases (chn m)
                (Z.of_nat (List.length (channel_info fi)))) as [Hfit | Hcut].
    + rewrite (draw_visualizer_layout env s _ m fi bw Hm Hsc Hint Hbw Hfit).
      split; [|eauto]. intros _. split; [exact Hsc|]. exists m.
      split; [reflexivity|]. split; assumption.
    + destruct (draw_visualizer_broken env s _ m fi Hm Hint
                  (or_intror Hcut)) as [calls ->].
      split; [intros (s2 & w2 & H); discriminate H|].
      intros (_ & m' & H & _ & Hfit). injection H as <-. lia.
Qed.



(** ** Failures *)

Lemma main_boot_failure env argv :
  boot_failed (boot env) = true -> reports_and_exits (main env argv).
Proof.
  unfold boot_failed, main. intros H.
  destruct (ans_SDL_Init (boot env) <? 0); [report [SDL_Init]|].
  destruct (ans_TTF_Init (boot env) <? 0); [report [SDL_Init; TTF_Init]|].
  destruct (ans_TTF_OpenFont (boot env) =? 0);
    [report [SDL_Init; TTF_Init; TTF_OpenFont font_path 14]|].
  destruct (ans_SDL_CreateWindow (boot env) =? 0);
    [|discriminate H].
  report [SDL_Init; TTF_Init; TTF_OpenFont font_path 14;
          SDL_CreateWindow "Module Player" 480 180].
Qed.

(** The prompt is drawn on every window surface but [NULL]. *)
Lemma prompt_drawn env sc f win :
  sc <> 0 ->
  prompt env sc f win
  = Some (SDL_FillRect sc None black
          :: render_text env sc f 100 80
               "Drag and drop a module file to play" (mkColor 255 255 255 0)
          ++ [ SDL_UpdateWindowSurface win ]).
Proof.
  intros H. unfold prompt, map_rgb. apply Z.eqb_neq in H. rewrite H.
  reflexivity.
Qed.

(** Behind the start-up of the toolkit, [main] is the start-up loop and
    what follows it, unless the window has no surface. *)
Lemma main_after_boot env argv :
  boot_failed (boot env) = false ->
  main env argv
  = if ans_SDL_GetWindowSurface (boot env) =? 0
    then Fault (window_world env)
    else after_wait env (startup_wait env argv).
Proof.
  unfold boot_failed, main. intros H.
  destruct (ans_SDL_Init (boot env) <? 0); [discriminate H|].
  destruct (ans_TTF_Init (boot env) <? 0); [discriminate H|].
  destruct (ans_TTF_OpenFont (boot env) =? 0); [discriminate H|].
  destruct (ans_SDL_CreateWindow (boot env) =? 0); [discriminate H|].
  unfold startup_wait, boot_world, after_wait. cbv zeta.
  destruct (Z.eqb_spec (ans_SDL_GetWindowSurface (boot env)) 0) as [Hs | Hs].
  - rewrite Hs. reflexivity.
  - rewrite (prompt_drawn env _ _ _ Hs). reflexivity.
Qed.

Lemma main_started env argv :
  started env -> main env argv = after_wait env (startup_wait env argv).
Proof.
  intros [Hboot Hs]. rewrite (main_after_boot env argv Hboot).
  apply Z.eqb_neq in Hs. rewrite Hs. reflexivity.
Qed.

Lemma play_failure env modfile file_loaded font window renderer screen w :
  load_failed (loads env (attempts w)) = true ->
  reports_and_exits
    (play env modfile file_loaded font window renderer screen w).
Proof.
  unfold load_failed, play. cbn [attempts next_attempt emit loaded].
  set (a := loads env (attempts w)). intros H.
  destruct (ans_xmp_create_context a =? 0);
    [report (log w ++ [xmp_create_context])|].
  destruct (ans_xmp_load_module a <? 0);
    [report (log w ++ [xmp_create_context;
                       xmp_load_module (ans_xmp_create_context a)
                         (cstr modfile)])|].
  destruct (ans_SDL_OpenAudio a <? 0).
  { eexists.
    exists (log w ++ [xmp_create_context;
                      xmp_load_module (ans_xmp_create_context a) (cstr modfile);
                      xmp_get_module_info (ans_xmp_create_context a);
                      SDL_OpenAudio (mkSpec 44100 AUDIO_S16 2 4096
                                       (ans_xmp_create_context a))]).
    do 3 eexists. split; [reflexivity|].
    split; [cbn [log emit loaded next_attempt]; rewrite <- ?app_assoc;
            reflexivity | reflexivity]. }
  destruct (ans_xmp_start_player a <? 0); [|discriminate H].
  eexists.
  exists (log w ++ [xmp_create_context;
                    xmp_load_module (ans_xmp_create_context a) (cstr modfile);
                    xmp_get_module_info (ans_xmp_create_context a);
                    SDL_OpenAudio (mkSpec 44100 AUDIO_S16 2 4096
                                     (ans_xmp_create_context a));
                    xmp_start_player (ans_xmp_create_context a) 44100 0]).
  do 3 eexists. split; [reflexivity|].
  split; [cbn [log emit loaded next_attempt]; rewrite <- ?app_assoc;
          reflexivity | reflexivity].
Qed.

Lemma wait_for_file_attempts env results sc f win r : forall m w,
  match wait_for_file env results sc f win r m w with
  | WaitQuit w' | WaitBlocked w' | WaitLeft _ _ w' | WaitFault w' =>
      attempts w' = attempts w
  end.
Proof.
  induction results as [|[[| k | file |]|] rest IH]; intros m w;
    cbn [wait_for_file]; try reflexivity; try apply IH.
  destruct (negb (Ascii.eqb (hd NUL m) NUL)); [reflexivity|].
  destruct (prompt env sc f win) as [calls|]; [|reflexivity].
  specialize (IH m (emit calls w)).
  destruct (wait_for_file env rest sc f win r m _); exact IH.
Qed.

Lemma boot_world_attempts env : attempts (boot_world env) = 0%nat.
Proof.
  unfold boot_world. cbv zeta. destruct (prompt env _ _ _); reflexivity.
Qed.

(** The frame behind a drop whose load failed is not drawn: [mi.mod]
    points to a module that has been released. *)
Lemma show_frame_dangling env fi s w :
  modules w (module_of (mi (locals s))) = None ->
  exists w2,
    show_frame env fi s w = (None, w2)
    /\ exists calls,
         w2 = emit (xmp_get_frame_info (ctx (locals s)) :: calls) w.
Proof.
  intros H. rewrite show_frame_cases. cbv zeta.
  destruct (draw_dangling env s _ fi H) as [calls ->].
  destruct (screen (locals s) =? 0); eexists; (split; [reflexivity|]);
    eexists; reflexivity.
Qed.

(** C2, where the code does it and where it does not.  When a step of the
    start-up fails (SDL, TTF, the font, the window) or a step of the first
    load (context, module, audio device, player), the program prints a
    message to stderr and exits with status 1, with nothing but releases
    behind the message and no second try.  When a step fails while a
    dropped file is loaded in the main loop, the message is printed as
    well, but the program does not exit: the iteration goes on, hands the
    context, which is [NULL] or has been freed, to [xmp_get_frame_info],
    and cannot draw the frame, since [mi.mod] points to a module that has
    been released. *)
Theorem failure_exits (env : Env) :
  (forall argv,
     boot_failed (boot env) = true -> reports_and_exits (main env argv))
  /\ (forall argv modfile file_loaded w,
        started env ->
        startup_wait env argv = WaitLeft modfile file_loaded w ->
        load_failed (loads env 0) = true ->
        reports_and_exits (main env argv))
  /\ (forall file before more fi rest s0 w0 s w,
        poll_events env before s0 w0 = (s, w) ->
        done (locals s) = 0 ->
        module_of (mi (locals s)) = ctx (locals s) ->
        load_failed (loads env (attempts w)) = true ->
        let '(_, s', w') := handle_event env (SDL_DROPFILE file) s w in
        (exists calls format args after,
           log w' = log w ++ calls ++ fprintf_stderr format args :: after
           /\ forallb is_release after = true)
        /\ modules w' (module_of (mi (locals s'))) = None
        /\ (ctx (locals s') = 0 \/ modules w' (ctx (locals s')) = None)
        /\ exists calls,
             main_loop env
               (mkFrameInput (before ++ SDL_DROPFILE file :: more) fi :: rest)
               s0 w0
             = Fault (emit (xmp_get_frame_info (ctx (locals s')) :: calls)
                        w')).
Proof.
  split; [exact (main_boot_failure env)|]. split.
  - intros argv modfile file_loaded w Hstart Hwait Hload.
    rewrite (main_started env argv Hstart), Hwait. cbn [after_wait].
    apply play_failure.
    pose proof (wait_for_file_attempts env (waits env)
                  (ans_SDL_GetWindowSurface (boot env))
                  (ans_TTF_OpenFont (boot env))
                  (ans_SDL_CreateWindow (boot env))
                  (ans_SDL_CreateRenderer (boot env))
                  (initial_modfile argv) (boot_world env)) as Ha.
    fold (startup_wait env argv) in Ha. rewrite Hwait in Ha.
    rewrite Ha, boot_world_attempts. exact Hload.
  - intros file before more fi rest s0 w0 s w Hpoll Hd Hmi Hload.
    pose proof (drop_file_calls env file s w) as C.
    pose proof (drop_file_effect env file s w) as F.
    pose proof (drop_file_modules env file s w) as M.
    cbv zeta in C, F, M. cbn [handle_event].
    destruct (drop_file env file s w) as [[brk s'] w'] eqn:E.
    destruct F as (Hb & _). rewrite Hload in Hb.
    destruct C as (calls & Hlog & _ & Hfail).
    destruct (Hfail Hload) as (b' & format & args & after & -> & Hrel & _).
    destruct M as [_ M]. destruct (M Hload) as [Hdang Hctx].
    specialize (Hdang Hmi).
    split; [|split; [exact Hdang|split; [exact Hctx|]]].
    + exists ([ SDL_PauseAudio 1; xmp_end_player (ctx (locals s));
                xmp_release_module (ctx (locals s));
                xmp_free_context (ctx (locals s)); SDL_CloseAudio;
                SDL_free file; xmp_create_context ] ++ b'),
        format, args, after.
      split; [|exact Hrel]. rewrite Hlog. cbn [app]. reflexivity.
    + rewrite (failed_drop_ends_loop env file before more fi rest s0 w0 s w
                 brk s' w' Hpoll Hd E Hb).
      destruct (show_frame_dangling env fi s' w' Hdang)
        as (w2 & -> & calls2 & ->).
      exists calls2. reflexivity.
Qed.

(** The second file of the sample run cannot be loaded: the iteration that
    handles it ends in a fault. *)
Lemma failure_exits_witness :
  exists calls,
    main_loop env_refused_drop
      [ mkFrameInput [ SDL_DROPFILE "b.mod" ] sample_frame_info ]
      sample_state sample_world
    = Fault (emit (xmp_get_frame_info 6 :: calls)
               (snd (handle_event env_refused_drop (SDL_DROPFILE "b.mod")
                       sample_state sample_world))).
Proof.
  pose proof (proj2 (proj2 (failure_exits env_refused_drop))
                "b.mod"%string [] [] sample_frame_info [] sample_state
                sample_world sample_state sample_world eq_refl eq_refl
                eq_refl eq_refl) as H.
  destruct (handle_event env_refused_drop (SDL_DROPFILE "b.mod") sample_state
              sample_world) as [[brk s'] w'] eqn:E.
  destruct H as (_ & _ & _ & calls & H). exists calls.
  assert (Hc : ctx (locals s') = 6).
  { apply (f_equal (fun r => ctx (locals (snd (fst r))))) in E.
    vm_compute in E. symmetry. exact E. }
  rewrite Hc in H. exact H.
Defined.

(** The whole run: a first file is dropped and plays, a second one cannot
    be loaded.  The message is printed and the context is freed; the frame
    of the same iteration is asked of the freed context, the screen is
    cleared and the label of the title is drawn, and the run ends where the
    title is read through [mi.mod], with no status. *)
Lemma refused_drop_faults :
  exists w,
    main env_refused_drop [ "play_mod"%string ] = Fault w
    /\ In (fprintf_stderr ("Failed to load module: %s" ++ nl)
             [ StringArg "b.mod" ]) (log w)
    /\ (exists before,
          log w = before
                  ++ [ xmp_free_context 6; xmp_get_frame_info 6;
                       SDL_FillRect 4 None black ]
                  ++ render_text env_refused_drop 4 1 10 10 "Title:"
                       (mkColor 255 255 255 0))
    /\ ~ reports_and_exits (main env_refused_drop [ "play_mod"%string ]).
Proof.
  eexists. split; [vm_compute; reflexivity|]. split; [|split].
  - vm_compute. repeat (first [left; reflexivity | right]).
  - cbn [log]. eexists [ _; _; _; _; _; _; _; _; _; _; _; _; _; _; _; _; _;
                         _; _; _; _; _; _; _; _; _; _; _ ].
    vm_compute. reflexivity.
  - intros (w & _ & _ & _ & _ & H & _). vm_compute in H. discriminate H.
Qed.

(** ** The start-up loop *)

Lemma prompt_no_playback env sc f win calls :
  prompt env sc f win = Some calls ->
  existsb is_playback_call calls = false.
Proof.
  unfold prompt, render_text. destruct (map_rgb sc 0 0 0); [|discriminate].
  intros H. injection H as <-. destruct (renders env _); reflexivity.
Qed.

Lemma boot_world_no_playback env :
  existsb is_playback_call (log (boot_world env)) = false.
Proof.
  unfold boot_world. cbv zeta.
  destruct (prompt env _ _ _) as [calls|] eqn:E; [|reflexivity].
  unfold window_world. cbn [log emit app].
  cbn [existsb is_playback_call orb]. exact (prompt_no_playback _ _ _ _ _ E).
Qed.

(** While [SDL_WaitEvent] hands out events, the loop is left on a quit or
    on a dropped file only. *)
Lemma wait_for_file_events env results sc f win r m w :
  Forall (fun x => x <> None) results ->
  match wait_for_file env results sc f win r m w with
  | WaitQuit w' =>
      In (Some SDL_QUIT) results
      /\ w' = emit [ TTF_CloseFont f; TTF_Quit; SDL_DestroyRenderer r;
                     SDL_DestroyWindow win; SDL_Quit ] w
  | WaitBlocked w' => w' = w
  | WaitLeft m' file_loaded w' =>
      file_loaded = 1
      /\ exists file,
           In (Some (SDL_DROPFILE file)) results
           /\ m' = strncpy m file 1023 /\ w' = emit [ SDL_free file ] w
  | WaitFault _ => False
  end.
Proof.
  induction 1 as [|x rest Hx _ IH]; cbn [wait_for_file]; [reflexivity|].
  destruct x as [[| k | file |]|]; [| | | |contradiction].
  - split; [left|]; reflexivity.
  - destruct (wait_for_file env rest sc f win r m w) as [w'|w'|m' fl w'|w'].
    + destruct IH as [Hin ->]. split; [right; exact Hin | reflexivity].
    + exact IH.
    + destruct IH as (-> & file & Hin & -> & ->).
      split; [reflexivity|]. exists file. repeat split. right. exact Hin.
    + exact IH.
  - split; [reflexivity|]. exists file. repeat split. left. reflexivity.
  - destruct (wait_for_file env rest sc f win r m w) as [w'|w'|m' fl w'|w'].
    + destruct IH as [Hin ->]. split; [right; exact Hin | reflexivity].
    + exact IH.
    + destruct IH as (-> & file & Hin & -> & ->).
      split; [reflexivity|]. exists file. repeat split. right. exact Hin.
    + exact IH.
Qed.

(** When [SDL_WaitEvent] returns 0 and [modfile] holds a path, the loop is
    left with that path. *)
Lemma wait_for_file_error env passed rest sc f win r m w :
  forallb is_passed_over passed = true ->
  hd NUL m <> NUL ->
  wait_for_file env (passed ++ None :: rest) sc f win r m w = WaitLeft m 0 w.
Proof.
  intros Hp Hm. induction passed as [|x passed IH]; cbn [app wait_for_file].
  - apply Ascii.eqb_neq in Hm. rewrite Hm. reflexivity.
  - cbn [forallb] in Hp. apply andb_prop in Hp as [Hx Hp].
    destruct x as [[| k | file |]|]; try discriminate Hx; apply IH; exact Hp.
Qed.

Lemma initial_modfile_ok argv : modfile_ok (initial_modfile argv).
Proof.
  unfold initial_modfile. destruct (2 <=? List.length argv)%nat.
  - apply strncpy_ok, modfile_initial_ok.
  - apply modfile_initial_ok.
Qed.

(** The path of the command line, as [modfile] holds it at first. *)
Lemma initial_modfile_path argv path :
  nth_error argv 1 = Some path ->
  (String.length path <= 1023)%nat -> no_nul path = true ->
  cstr (initial_modfile argv) = path.
Proof.
  intros Hnth Hlen Hn. unfold initial_modfile.
  assert (H2 : (2 <= List.length argv)%nat).
  { assert (nth_error argv 1 <> None) as H by congruence.
    apply nth_error_Some in H. lia. }
  apply Nat.leb_le in H2. rewrite H2.
  rewrite (nth_error_nth argv 1 EmptyString Hnth).
  apply strncpy_cstr; [apply modfile_initial_ok | exact Hlen | exact Hn].
Qed.

Lemma cstr_nonempty_head buf c p :
  cstr buf = String c p -> hd NUL buf <> NUL.
Proof.
  destruct buf as [|b rest]; cbn; [discriminate|].
  destruct (Ascii.eqb_spec b NUL); [discriminate | congruence].
Qed.

(** C8, as the code has it: once the start-up has succeeded, and as long
    as [SDL_WaitEvent] hands out events, a path given on the command line
    is neither loaded nor played: the start-up loop is left on SDL_QUIT,
    and the run ends with status 0, or on SDL_DROPFILE, and the dropped
    path, cut to 1023 characters, replaces the one in [modfile]; otherwise
    the program stays blocked.  When [SDL_WaitEvent] returns 0, as it does
    on an error, and the command line gave a non-empty path, the loop is
    left as well and that path is the one played. *)
Theorem startup_waits_for_drop (env : Env) (argv : list string) :
  started env ->
  let b := boot env in
  (Forall (fun r => r <> None) (waits env) ->
   match startup_wait env argv with
   | WaitQuit w =>
       In (Some SDL_QUIT) (waits env)
       /\ main env argv = Exit 0 w
       /\ existsb is_playback_call (log w) = false
   | WaitBlocked w =>
       main env argv = Blocked w
       /\ existsb is_playback_call (log w) = false
   | WaitLeft m file_loaded w =>
       file_loaded = 1
       /\ existsb is_playback_call (log w) = false
       /\ main env argv
          = play env m 1 (ans_TTF_OpenFont b) (ans_SDL_CreateWindow b)
              (ans_SDL_CreateRenderer b) (ans_SDL_GetWindowSurface b) w
       /\ exists file,
            In (Some (SDL_DROPFILE file)) (waits env)
            /\ m = strncpy (initial_modfile argv) file 1023
            /\ (no_nul file = true ->
                cstr m = substring 0 1023 file
                /\ ((String.length file <= 1023)%nat -> cstr m = file))
   | WaitFault _ => False
   end)
  /\ (forall passed rest path c p,
        waits env = passed ++ None :: rest ->
        forallb is_passed_over passed = true ->
        nth_error argv 1 = Some path -> path = String c p ->
        (String.length path <= 1023)%nat -> no_nul path = true ->
        cstr (initial_modfile argv) = path
        /\ main env argv
           = play env (initial_modfile argv) 0 (ans_TTF_OpenFont b)
               (ans_SDL_CreateWindow b) (ans_SDL_CreateRenderer b)
               (ans_SDL_GetWindowSurface b) (boot_world env)).
Proof.
  intros Hstart b. pose proof (main_started env argv Hstart) as Hmain.
  split.
  - intros Hev. rewrite Hmain. unfold startup_wait.
    pose proof (wait_for_file_events env (waits env)
                  (ans_SDL_GetWindowSurface b) (ans_TTF_OpenFont b)
                  (ans_SDL_CreateWindow b) (ans_SDL_CreateRenderer b)
                  (initial_modfile argv) (boot_world env) Hev) as W.
    fold b.
    destruct (wait_for_file env (waits env) _ _ _ _ _ _) as [w|w|m fl w|w].
    + destruct W as [Hin ->]. split; [exact Hin|]. split; [reflexivity|].
      cbn [log emit]. rewrite existsb_app, boot_world_no_playback.
      reflexivity.
    + subst w. split; [reflexivity | apply boot_world_no_playback].
    + destruct W as (-> & file & Hin & -> & ->). split; [reflexivity|].
      split.
      * cbn [log emit]. rewrite existsb_app, boot_world_no_playback.
        reflexivity.
      * split; [reflexivity|].
        exists file. split; [exact Hin|]. split; [reflexivity|].
        intros Hn.
        rewrite (strncpy_cstr_cut _ _ (initial_modfile_ok argv) Hn).
        split; [reflexivity | apply substring_short].
    + exact W.
  - intros passed rest path c p Hw Hp Hnth Hpath Hlen Hn.
    pose proof (initial_modfile_path argv path Hnth Hlen Hn) as Hc.
    split; [exact Hc|]. rewrite Hmain. unfold startup_wait. rewrite Hw.
    rewrite wait_for_file_error; [reflexivity | exact Hp |].
    apply (cstr_nonempty_head _ c p). congruence.
Qed.

(** With [song.mod] on the command line and [SDL_WaitEvent] failing at
    once, the run goes on to load [song.mod]. *)
Lemma startup_waits_for_drop_witness :
  cstr (initial_modfile [ "play_mod"; "song.mod" ]%string) = "song.mod"%string
  /\ main env_wait_error [ "play_mod"; "song.mod" ]%string
     = play env_wait_error (initial_modfile [ "play_mod"; "song.mod" ]%string)
         0 1 2 3 4 (boot_world env_wait_error).
Proof.
  assert (Hs : started env_wait_error)
    by (split; [reflexivity | discriminate]).
  assert (Hlen : (String.length "song.mod" <= 1023)%nat) by (cbn; lia).
  exact (proj2 (startup_waits_for_drop env_wait_error
                  [ "play_mod"; "song.mod" ]%string Hs)
           [] [] "song.mod"%string "s"%char "ong.mod"%string
           eq_refl eq_refl eq_refl eq_refl Hlen eq_refl).
Defined.

(** No event ever comes, [SDL_WaitEvent] fails once, and the file of the
    command line is loaded and played. *)
Lemma path_argument_played :
  waits env_wait_error = [ None ]
  /\ exists s w,
       main env_wait_error [ "play_mod"; "song.mod" ]%string = Running s w
       /\ In (xmp_load_module 5 "song.mod") (log w)
       /\ In (xmp_start_player 5 44100 0) (log w)
       /\ In (SDL_PauseAudio 0) (log w).
Proof.
  split; [reflexivity|]. do 2 eexists.
  split; [vm_compute; reflexivity|].
  repeat split; vm_compute; repeat (first [left; reflexivity | right]).
Qed.

(** ** The callback and the main loop *)

Lemma show_frame_globals env fi s w s' w' :
  show_frame env fi s w = (Some s', w') -> globals s' = globals s.
Proof.
  intros H. rewrite (show_frame_state _ _ _ _ _ _ H).
  destruct ((0 <? loop_count fi) || Int.truthy (stopped (globals s)));
    reflexivity.
Qed.

Section Handoff.

Variable decoder : Type.
Variable xmp_play_buffer :
  decoder -> Z -> list Byte.byte -> Z -> Z -> decoder * list Byte.byte.

Lemma fill_audio_globals g d udata stream len g' d' out :
  fill_audio xmp_play_buffer g d udata stream len = Some (g', d', out) ->
  g' = g.
Proof.
  unfold fill_audio.
  destruct (Int.truthy (stopped g));
    [destruct (memset0 stream len); congruence|].
  destruct (negb (Int.truthy (paused g))).
  - destruct (xmp_play_buffer d udata stream len 0). congruence.
  - destruct (memset0 stream len); congruence.
Qed.

(** C7: the callback leaves every variable of the program as it is, the
    two flags included, and what it does to the stream and to the replay
    library is decided by the two flags and the user data alone; the main
    loop changes the flags while it handles a quit, SPACE, ESCAPE or a file
    drop and at no other point of an iteration. *)
Theorem flag_handoff :
  (forall s d stream len s' d' out,
     run_callback xmp_play_buffer s d stream len = Some (s', d', out) ->
     s' = s)
  /\ (forall s1 s2 d stream len,
        globals s1 = globals s2 ->
        userdata (spec (locals s1)) = userdata (spec (locals s2)) ->
        option_map (fun r => (snd (fst r), snd r))
          (run_callback xmp_play_buffer s1 d stream len)
        = option_map (fun r => (snd (fst r), snd r))
            (run_callback xmp_play_buffer s2 d stream len))
  /\ (forall env fi s w s' w',
        show_frame env fi s w = (Some s', w') -> globals s' = globals s)
  /\ (forall env fi s w,
        frame env (mkFrameInput [] fi) s w = show_frame env fi s w)
  /\ (forall env event s w,
        globals (snd (fst (handle_event env event s w))) <> globals s ->
        event = SDL_QUIT \/ event = SDL_KEYDOWN SDLK_SPACE
        \/ event = SDL_KEYDOWN SDLK_ESCAPE
        \/ exists file, event = SDL_DROPFILE file)
  /\ (forall modfile file_loaded ctx mi spec font window renderer screen,
        globals (entry_state modfile file_loaded ctx mi spec font window
                   renderer screen)
        = mkGlobals 0 0).
Proof.
  split; [|split; [|split; [|split; [|split]]]].
  - intros s d stream len s' d' out. unfold run_callback.
    destruct (fill_audio _ _ _ _ _ _) as [[[g d0] o]|] eqn:E; [|discriminate].
    intros H. injection H as <- _ _.
    rewrite (fill_audio_globals _ _ _ _ _ _ _ _ E). destruct s. reflexivity.
  - intros s1 s2 d stream len Hg Hu. unfold run_callback.
    rewrite Hg, Hu.
    destruct (fill_audio _ _ _ _ _ _) as [[[g d0] o]|]; reflexivity.
  - exact show_frame_globals.
  - reflexivity.
  - intros env event s w H.
    destruct event as [| [| | |] | file |]; eauto;
      exfalso; apply H; reflexivity.
  - reflexivity.
Qed.

End Handoff.

Lemma flag_handoff_witness :
  match run_callback (fun (d : unit) _ s _ _ => (d, s)) sample_state tt
          [ Byte.x41 ] 1 with
  | Some (s', _, _) => s' = sample_state
  | None => False
  end.
Proof.
  destruct (run_callback (fun (d : unit) _ s _ _ => (d, s)) sample_state tt
              [ Byte.x41 ] 1) as [[[s' d'] out]|] eqn:E.
  - exact (proj1 (flag_handoff unit (fun d _ s _ _ => (d, s)))
             _ _ _ _ _ _ _ E).
  - vm_compute in E. discriminate E.
Defined.

(** * Further properties *)

(** ** Paths longer than the buffer *)

(** X1: [modfile] always ends in a zero byte, and the path it holds is the
    one given, cut after its first 1023 characters: for the argument of the
    command line, for a file dropped on the prompt and for a file dropped
    during playback.  Without an argument the path is empty. *)
Theorem modfile_holds_cut_path (env : Env) (file : string) :
  no_nul file = true ->
  (forall argv,
     nth_error argv 1 = Some file ->
     modfile_ok (initial_modfile argv)
     /\ cstr (initial_modfile argv) = substring 0 1023 file)
  /\ (forall argv,
        (List.length argv < 2)%nat -> cstr (initial_modfile argv) = ""%string)
  /\ (forall rest sc f win r m w,
        modfile_ok m ->
        exists m',
          wait_for_file env (Some (SDL_DROPFILE file) :: rest) sc f win r m w
          = WaitLeft m' 1 (emit [ SDL_free file ] w)
          /\ modfile_ok m' /\ cstr m' = substring 0 1023 file)
  /\ (forall s w,
        modfile_ok (modfile (locals s)) ->
        let s' := snd (fst (handle_event env (SDL_DROPFILE file) s w)) in
        modfile_ok (modfile (locals s'))
        /\ cstr (modfile (locals s')) = substring 0 1023 file)
  /\ (String.length (substring 0 1023 file) <= 1023)%nat
  /\ ((String.length file <= 1023)%nat -> substring 0 1023 file = file).
Proof.
  intros Hn. split; [|split; [|split; [|split; [|split]]]].
  - intros argv Hnth. split; [apply initial_modfile_ok|].
    unfold initial_modfile.
    assert (H2 : (2 <= List.length argv)%nat).
    { assert (nth_error argv 1 <> None) as H by congruence.
      apply nth_error_Some in H. lia. }
    apply Nat.leb_le in H2. rewrite H2.
    rewrite (nth_error_nth argv 1 EmptyString Hnth).
    apply strncpy_cstr_cut; [apply modfile_initial_ok | exact Hn].
  - intros argv Hlen. unfold initial_modfile.
    destruct (Nat.leb_spec 2 (List.length argv)); [lia | reflexivity].
  - intros rest sc f win r m w Hok. eexists. split; [reflexivity|].
    split; [apply strncpy_ok, Hok | apply strncpy_cstr_cut; assumption].
  - intros s w Hok. cbn [handle_event].
    pose proof (drop_file_effect env file s w) as F. cbv zeta in F.
    destruct (drop_file env file s w) as [[brk s'] w'].
    destruct F as (_ & Hm & _). cbn [fst snd]. rewrite Hm.
    split; [apply strncpy_ok, Hok | apply strncpy_cstr_cut; assumption].
  - apply length_substring_le.
  - apply substring_short.
Qed.

Lemma modfile_holds_cut_path_witness :
  cstr (initial_modfile [ "play_mod"; "song.mod" ]%string) = "song.mod"%string.
Proof.
  destruct (modfile_holds_cut_path env_keys "song.mod" eq_refl)
    as (Harg & _ & _ & _ & _ & Hshort).
  destruct (Harg [ "play_mod"; "song.mod" ]%string eq_refl) as [_ ->].
  apply Hshort. cbn. lia.
Defined.

(** ** The bars across the window *)

Lemma bar_rect_x ch w h :
  0 <= ch <= 1000000 -> 0 <= w <= 1000 ->
  rect_x (bar_rect ch w h) = 30 + ch * (w + 2).
Proof.
  intros Hch Hw. unfold bar_rect, base_x, spacing. cbn [rect_x].
  assert (R : forall z, -2147483648 <= z <= 2147483647 -> Int.in_range z)
    by (intros; unfold Int.in_range, Int.min_int, Int.max_int; lia).
  rewrite (IntFacts.add_small w 2) by (apply R; lia).
  rewrite IntFacts.mul_small by (apply R; nia).
  rewrite IntFacts.add_small by (apply R; nia).
  reflexivity.
Qed.

(** X6: for 1 to 64 channels, as many as a frame information holds, the
    width of a bar is [(420 - (chn - 1) * 2) / chn], which is at least 4,
    so that the minimum of 2 is not applied, and the bars lie side by side,
    2 pixels apart, between [base_x] and [base_x + 420]. *)
Theorem bars_across_window (c w : Z) :
  bar_width c = Some w ->
  1 <= c <= 64 ->
  w = (420 - (c - 1) * 2) / c
  /\ 4 <= w <= 420
  /\ forall ch h, 0 <= ch < c ->
       base_x <= rect_x (bar_rect ch w h)
       /\ rect_x (bar_rect ch w h) + rect_w (bar_rect ch w h)
          <= base_x + 420
       /\ rect_x (bar_rect (ch + 1) w h)
          = rect_x (bar_rect ch w h) + rect_w (bar_rect ch w h) + spacing.
Proof.
  intros Hw Hc. pose proof (bar_width_value c ltac:(lia)) as Hv.
  rewrite Hw in Hv.
  assert (Hq : 4 <= (420 - (c - 1) * 2) / c)
    by (apply Z.div_le_lower_bound; lia).
  assert (Hmul : c * ((420 - (c - 1) * 2) / c) <= 420 - (c - 1) * 2)
    by (apply Z.mul_div_le; lia).
  assert (Hub : (420 - (c - 1) * 2) / c <= 420)
    by (apply Z.div_le_upper_bound; lia).
  set (q := (420 - (c - 1) * 2) / c) in *. clearbody q.
  assert (Hwq : w = q) by (rewrite Z.max_r in Hv by lia; congruence).
  subst w. split; [reflexivity|]. split; [lia|].
  intros ch h Hch.
  rewrite (bar_rect_x ch q h), (bar_rect_x (ch + 1) q h) by lia.
  cbn [rect_w bar_rect]. unfold base_x, spacing. repeat split; nia.
Qed.

Lemma bars_across_window_witness :
  rect_x (bar_rect 3 103 0) + rect_w (bar_rect 3 103 0) <= base_x + 420.
Proof.
  assert (H4 : 1 <= 4 <= 64) by lia.
  destruct (bars_across_window 4 103 eq_refl H4) as (_ & _ & Hall).
  exact (proj1 (proj2 (Hall 3 0 ltac:(lia)))).
Defined.

(** ** What the main loop keeps *)

Lemma handle_event_fixtures env event s w :
  same_fixtures s (snd (fst (handle_event env event s w))).
Proof.
  destruct s as [[p st] l], event as [| [| | |] | file |];
    cbn [handle_event];
    try (unfold same_fixtures; cbn; repeat split; reflexivity).
  unfold drop_file. cbn. split_ifs;
    unfold same_fixtures; cbn; repeat split; reflexivity.
Qed.

Lemma same_fixtures_refl s : same_fixtures s s.
Proof. unfold same_fixtures. repeat split. Qed.

Lemma same_fixtures_trans s1 s2 s3 :
  same_fixtures s1 s2 -> same_fixtures s2 s3 -> same_fixtures s1 s3.
Proof.
  unfold same_fixtures. cbv zeta. intros H1 H2.
  repeat match goal with
         | H : _ /\ _ |- _ => destruct H
         end.
  repeat split; congruence.
Qed.

Lemma poll_events_fixtures env events : forall s w,
  same_fixtures s (fst (poll_events env events s w)).
Proof.
  induction events as [|e rest IH]; intros s w; cbn [poll_events].
  - apply same_fixtures_refl.
  - pose proof (handle_event_fixtures env e s w) as H.
    destruct (handle_event env e s w) as [[brk s'] w']. cbn [fst snd] in H.
    destruct brk; [exact H|].
    eapply same_fixtures_trans; [exact H | apply IH].
Qed.

Lemma show_frame_fixtures env fi s w s' w' :
  show_frame env fi s w = (Some s', w') -> same_fixtures s s'.
Proof.
  intros H. rewrite (show_frame_state _ _ _ _ _ _ H).
  destruct ((0 <? loop_count fi) || Int.truthy (stopped (globals s)));
    unfold same_fixtures; repeat split.
Qed.

(** X2: in every state of the main loop [modfile] ends in a zero byte, the
    audio device keeps the parameters it was opened with, the three flags
    hold 0 or 1, and, unless [stopped] is set, the user data of the
    callback is the current context, which is not [NULL]. *)
Theorem loop_state_invariant (env : Env) (s : State) :
  loop_state env s ->
  modfile_ok (modfile (locals s))
  /\ (stopped (globals s) = 0 ->
      ctx (locals s) <> 0 /\ userdata (spec (locals s)) = ctx (locals s))
  /\ (freq (spec (locals s)) = 44100 /\ format (spec (locals s)) = AUDIO_S16
      /\ channels (spec (locals s)) = 2 /\ samples (spec (locals s)) = 4096)
  /\ (paused (globals s) = 0 \/ paused (globals s) = 1)
  /\ (stopped (globals s) = 0 \/ stopped (globals s) = 1)
  /\ (done (locals s) = 0 \/ done (locals s) = 1).
Proof.
  induction 1 as [m fl c mi f win r sc Hm Hc
                 | s w event _ IH | s w fi s' w' _ IH Hshow].
  - split; [exact Hm|]. cbn. repeat split; auto.
  - destruct IH as (Hm & Hu & Hspec & Hp & Hs & Hd).
    destruct event as [| [| | |] | file |]; cbn [handle_event fst snd];
      try (solve [ split; [destruct s as [g l], l; exact Hm|];
                   destruct s as [[p st] l], l; cbn in *;
                   repeat split; try apply Hspec; try apply Hu; auto;
                   try discriminate; apply IntFacts.lnot_bool ]).
    pose proof (drop_file_effect env file s w) as F.
    pose proof (handle_event_fixtures env (SDL_DROPFILE file) s w) as X.
      cbv zeta in F. cbn [handle_event] in X.
      destruct (drop_file env file s w) as [[brk s'] w'].
      cbn [fst snd] in *.
      destruct F as (_ & Hm' & _ & Hd' & Hs' & Hp' & Hc' & Hload & _).
      unfold same_fixtures in X. cbv zeta in X.
      destruct X as (_ & _ & _ & _ & _ & _ & _ & _ & _ & _ & X1 & X2 & X3 & X4).
      destruct Hspec as (S1 & S2 & S3 & S4).
      split; [rewrite Hm'; apply strncpy_ok, Hm|].
      rewrite Hs', Hp', Hd', Hc', X1, X2, X3, X4.
      destruct (load_failed (loads env (attempts w))) eqn:Hf.
      * repeat split; auto; discriminate.
      * destruct (Hload eq_refl) as [_ Hu'].
        unfold load_failed in Hf. apply orb_false_elim in Hf as [Hf _].
        apply orb_false_elim in Hf as [Hf _].
        apply orb_false_elim in Hf as [Hf _].
        apply Z.eqb_neq in Hf. repeat split; auto.
  - rewrite (show_frame_state _ _ _ _ _ _ Hshow).
    destruct IH as (Hm & Hu & Hspec & Hp & Hs & Hd).
    destruct ((0 <? loop_count fi) || Int.truthy (stopped (globals s)));
      [|split; [exact Hm|]; repeat split; try apply Hspec; try apply Hu;
        assumption].
    split; [destruct s as [g l], l; exact Hm|].
    destruct s as [g l], l. cbn in *.
    repeat split; try apply Hspec; try apply Hu; auto.
Qed.

Lemma loop_state_invariant_witness :
  userdata (spec (locals sample_state)) = ctx (locals sample_state).
Proof.
  refine (proj2 (proj1 (proj2 (loop_state_invariant env_keys sample_state _))
                   eq_refl)).
  unfold sample_state. constructor.
  - apply strncpy_ok, modfile_initial_ok.
  - discriminate.
Defined.

(** ** When the main loop ends *)

Lemma poll_events_quit env events : forall s w,
  existsb is_quit events = true ->
  done (locals (fst (poll_events env events s w))) <> 0.
Proof.
  induction events as [|e rest IH]; intros s w H; cbn in H; [discriminate|].
  cbn [poll_events].
  destruct (handle_event env e s w) as [[brk s'] w'] eqn:E.
  destruct brk; cbv beta iota; cbn [fst].
  - rewrite (handle_event_break _ _ _ _ _ _ _ E eq_refl). discriminate.
  - destruct (is_quit e) eqn:Hq.
    + assert (Hd : done (locals s') <> 0).
      { destruct e as [| [| | |] | file |]; try discriminate Hq;
          cbn [handle_event] in E; injection E as <- _;
          destruct s as [g l], l; cbn; discriminate. }
      apply poll_events_keeps_done. exact Hd.
    + apply IH. exact H.
Qed.

Lemma poll_events_plain env events : forall s w,
  forallb is_plain_key events = true ->
  let '(s', w') := poll_events env events s w in
  w' = w /\ done (locals s') = done (locals s)
  /\ stopped (globals s') = stopped (globals s)
  /\ same_playback s s'.
Proof.
  induction events as [|e rest IH]; intros s w H; cbn [poll_events].
  - unfold same_playback. repeat split.
  - cbn in H. apply andb_prop in H as [He Hrest].
    assert (Hstep : exists s1, handle_event env e s w = (false, s1, w)
              /\ done (locals s1) = done (locals s)
              /\ stopped (globals s1) = stopped (globals s)
              /\ same_playback s s1).
    { destruct e as [| [| | |] | file |]; try discriminate He;
        eexists; (split; [reflexivity|]);
        destruct s as [g l], l; unfold same_playback; cbn; repeat split. }
    destruct Hstep as (s1 & -> & Hd & Hs & Hp).
    specialize (IH s1 w Hrest).
    destruct (poll_events env rest s1 w) as [s' w'].
    destruct IH as (-> & Hd' & Hs' & Hp').
    unfold same_playback in *. cbv zeta in *.
    repeat split; try congruence; intuition congruence.
Qed.

(** X3: an iteration of the main loop is the last one when a quit or an
    ESCAPE key press is among its events, whatever else is pending, and
    when the replayer reports that the module has looped; the run then
    ends with status 0 behind the frame.  With only other key presses
    pending, nothing stopped and no loop reported, the iteration calls no
    library before the frame and the loop goes on. *)
Theorem main_loop_last_iteration (env : Env) (input : FrameInput)
    (rest : list FrameInput) (s : State) (w : World) :
  done (locals s) = 0 ->
  (existsb is_quit (pending input) = true
   \/ (0 < loop_count (frame_info input)) ->
   main_loop env (input :: rest) s w
   = match frame env input s w with
     | (Some s2, w2) => Exit 0 (emit (shutdown s2) w2)
     | (None, w2) => Fault w2
     end)
  /\ (forallb is_plain_key (pending input) = true ->
      stopped (globals s) = 0 -> loop_count (frame_info input) <= 0 ->
      forall s2 w2,
        frame env input s w = (Some s2, w2) ->
        done (locals s2) = 0
        /\ frame env input s w = show_frame env (frame_info input)
                                   (fst (poll_events env (pending input) s w))
                                   w
        /\ main_loop env (input :: rest) s w = main_loop env rest s2 w2).
Proof.
  intros Hd. split.
  - intros Hend. cbn [main_loop].
    pose proof Hd as Hd'. apply IntFacts.truthy_false in Hd'. rewrite Hd'.
    destruct (frame env input s w) as [[s2|] w2] eqn:Hf; [|reflexivity].
    apply main_loop_done. unfold frame in Hf.
    pose proof (poll_events_quit env (pending input) s w) as Hq.
    destruct (poll_events env (pending input) s w) as [s1 w1].
    cbn [fst] in Hq.
    rewrite (show_frame_state _ _ _ _ _ _ Hf).
    destruct Hend as [Hquit | Hloop].
    + specialize (Hq Hquit).
      destruct ((0 <? loop_count (frame_info input))
                || Int.truthy (stopped (globals s1)));
        [destruct s1 as [g l], l; cbn; discriminate | exact Hq].
    + apply Z.ltb_lt in Hloop. rewrite Hloop. cbn [orb].
      destruct s1 as [g l], l. cbn. discriminate.
  - intros Hplain Hs Hloop s2 w2 Hf.
    assert (Hiter : main_loop env (input :: rest) s w
                    = main_loop env rest s2 w2).
    { cbn [main_loop]. apply IntFacts.truthy_false in Hd.
      rewrite Hd, Hf. reflexivity. }
    pose proof (poll_events_plain env (pending input) s w Hplain) as P.
    unfold frame in Hf |- *.
    destruct (poll_events env (pending input) s w) as [s1 w1].
    destruct P as (-> & Hd1 & Hs1 & _). cbn [fst].
    pose proof (show_frame_state _ _ _ _ _ _ Hf) as Hs2.
    assert (Hno : (0 <? loop_count (frame_info input))
                  || Int.truthy (stopped (globals s1)) = false).
    { apply orb_false_intro; [apply Z.ltb_ge; exact Hloop|].
      apply IntFacts.truthy_false. congruence. }
    rewrite Hno in Hs2. subst s2.
    split; [congruence|]. split; [reflexivity | exact Hiter].
Qed.

Lemma main_loop_last_iteration_witness :
  main_loop env_keys [ mkFrameInput [ SDL_QUIT ] sample_frame_info ]
    sample_state sample_world
  = match frame env_keys (mkFrameInput [ SDL_QUIT ] sample_frame_info)
            sample_state sample_world with
    | (Some s2, w2) => Exit 0 (emit (shutdown s2) w2)
    | (None, w2) => Fault w2
    end.
Proof.
  apply (proj1 (main_loop_last_iteration env_keys
                  (mkFrameInput [ SDL_QUIT ] sample_frame_info) []
                  sample_state sample_world eq_refl)).
  left. reflexivity.
Defined.

(** ** How a run ends *)

Lemma frame_fixtures env input s w s' w' :
  frame env input s w = (Some s', w') -> same_fixtures s s'.
Proof.
  unfold frame. pose proof (poll_events_fixtures env (pending input) s w) as P.
  destruct (poll_events env (pending input) s w) as [s1 w1]. cbn [fst] in P.
  intros H. eapply same_fixtures_trans; [exact P|].
  eapply show_frame_fixtures. exact H.
Qed.

Lemma main_loop_exit env inputs : forall s w n w',
  main_loop env inputs s w = Exit n w' ->
  n = 0 /\ exists s' w0, same_fixtures s s' /\ w' = emit (shutdown s') w0.
Proof.
  induction inputs as [|input rest IH]; intros s w n w' H; cbn [main_loop] in H.
  - destruct (Int.truthy (done (locals s))); [|discriminate H].
    injection H as <- <-. split; [reflexivity|].
    exists s, w. split; [apply same_fixtures_refl | reflexivity].
  - destruct (Int.truthy (done (locals s))).
    + injection H as <- <-. split; [reflexivity|].
      exists s, w. split; [apply same_fixtures_refl | reflexivity].
    + destruct (frame env input s w) as [[s1|] w1] eqn:Hf; [|discriminate H].
      destruct (IH _ _ _ _ H) as (-> & s' & w0 & Hfix & ->).
      split; [reflexivity|]. exists s', w0. split; [|reflexivity].
      eapply same_fixtures_trans; [|exact Hfix].
      eapply frame_fixtures. exact Hf.
Qed.

Lemma wait_for_file_quit env results sc f win r : forall m w w',
  wait_for_file env results sc f win r m w = WaitQuit w' ->
  exists w0,
    w' = emit [ TTF_CloseFont f; TTF_Quit; SDL_DestroyRenderer r;
                SDL_DestroyWindow win; SDL_Quit ] w0.
Proof.
  induction results as [|[[| k | file |]|] rest IH]; intros m w w' H;
    cbn [wait_for_file] in H; try discriminate H; eauto.
  - injection H as <-. eauto.
  - destruct (negb (Ascii.eqb (hd NUL m) NUL)); [discriminate H|].
    destruct (prompt env sc f win); [eauto | discriminate H].
Qed.

Lemma play_enters_loop env m file_loaded f win r sc w :
  load_failed (loads env (attempts w)) = false ->
  let a := loads env (attempts w) in
  let c := ans_xmp_create_context a in
  c <> 0
  /\ exists w0,
       log w0 = log w ++ load_calls c (cstr m)
       /\ attempts w0 = S (attempts w)
       /\ modules w0 = store c (ans_xmp_get_module_info a) (modules w)
       /\ play env m file_loaded f win r sc w
          = main_loop env (frames env)
              (entry_state m file_loaded c (mkModuleInfo c)
                 (mkSpec 44100 AUDIO_S16 2 4096 c) f win r sc)
              w0.
Proof.
  unfold load_failed, play. cbn [attempts next_attempt emit loaded].
  set (a := loads env (attempts w)). intros H. cbv zeta.
  destruct (Z.eqb_spec (ans_xmp_create_context a) 0) as [|Hc];
    [discriminate H|].
  destruct (ans_xmp_load_module a <? 0); [discriminate H|].
  destruct (ans_SDL_OpenAudio a <? 0); [discriminate H|].
  destruct (ans_xmp_start_player a <? 0); [discriminate H|].
  split; [exact Hc|].
  exists (mkWorld (log w ++ load_calls (ans_xmp_create_context a) (cstr m))
            (S (attempts w))
            (store (ans_xmp_create_context a) (ans_xmp_get_module_info a)
               (modules w))).
  split; [reflexivity|]. split; [reflexivity|]. split; [reflexivity|].
  f_equal. unfold load_calls, emit, next_attempt, loaded.
  cbn [log attempts modules fold_left react].
  rewrite <- !app_assoc. reflexivity.
Qed.

(** X4: a run of [main] that returns does so with status 0 or 1.  Status
    0 comes after the font, the renderer and the window have been given
    back and SDL has been shut down, in that order, as the last calls of
    the run.  Status 1 comes only from a failed step of the start-up or of
    the first load, behind a message on stderr; status 0 only when the
    start-up has succeeded. *)
Theorem exit_status (env : Env) (argv : list string) (n : Z) (w : World) :
  main env argv = Exit n w ->
  (n = 0 /\ started env
   /\ exists before, log w = before ++ toolkit_shutdown (boot env))
  \/ (n = 1 /\ reports_and_exits (main env argv)
      /\ (boot_failed (boot env) = true
          \/ load_failed (loads env 0) = true)).
Proof.
  intros H. destruct (boot_failed (boot env)) eqn:Hboot.
  - right. pose proof (main_boot_failure env argv Hboot) as R.
    destruct R as (w1 & b & fmt & args & after & E & R).
    split; [congruence|]. split; [|left; reflexivity].
    exists w1, b, fmt, args, after. split; assumption.
  - rewrite (main_after_boot env argv Hboot) in H |- *.
    destruct (Z.eqb_spec (ans_SDL_GetWindowSurface (boot env)) 0)
      as [Hs | Hs]; [discriminate H|].
    assert (Hstart : started env) by (split; assumption).
    pose proof (wait_for_file_attempts env (waits env)
                  (ans_SDL_GetWindowSurface (boot env))
                  (ans_TTF_OpenFont (boot env))
                  (ans_SDL_CreateWindow (boot env))
                  (ans_SDL_CreateRenderer (boot env))
                  (initial_modfile argv) (boot_world env)) as Ha.
    unfold startup_wait in *.
    destruct (wait_for_file env (waits env) _ _ _ _ _ _)
      as [w1|w1|m fl w1|w1] eqn:Hw; cbn [after_wait] in H |- *;
      [| | |discriminate H].
    + left. injection H as <- <-. split; [reflexivity|].
      split; [exact Hstart|].
      destruct (wait_for_file_quit _ _ _ _ _ _ _ _ _ Hw) as [w0 ->].
      exists (log w0). reflexivity.
    + discriminate H.
    + rewrite boot_world_attempts in Ha.
      destruct (load_failed (loads env 0)) eqn:Hload.
      * right. rewrite <- Ha in Hload.
        pose proof (play_failure env m fl (ans_TTF_OpenFont (boot env))
                      (ans_SDL_CreateWindow (boot env))
                      (ans_SDL_CreateRenderer (boot env))
                      (ans_SDL_GetWindowSurface (boot env)) w1 Hload) as R.
        pose proof R as (w2 & b & fmt & args & after & E & _).
        split; [congruence|]. split; [exact R|]. right. reflexivity.
      * left. rewrite <- Ha in Hload.
        destruct (play_enters_loop env m fl (ans_TTF_OpenFont (boot env))
                    (ans_SDL_CreateWindow (boot env))
                    (ans_SDL_CreateRenderer (boot env))
                    (ans_SDL_GetWindowSurface (boot env)) w1 Hload)
          as (_ & w0 & _ & _ & _ & Hplay).
        rewrite Hplay in H.
        destruct (main_loop_exit _ _ _ _ _ _ H) as (-> & s' & w2 & Hfix & ->).
        split; [reflexivity|]. split; [exact Hstart|].
        unfold same_fixtures in Hfix. cbv zeta in Hfix. cbn in Hfix.
        destruct Hfix as (_ & _ & Hf & Hwin & Hr & Hsc & _).
        exists (log w2 ++ [ SDL_PauseAudio 1; xmp_end_player (ctx (locals s'));
                            xmp_release_module (ctx (locals s'));
                            xmp_free_context (ctx (locals s'));
                            SDL_CloseAudio;
                            SDL_FreeSurface (WindowSurface (screen (locals s'))) ]).
        unfold shutdown, toolkit_shutdown. cbn [log emit].
        rewrite Hf, Hwin, Hr, <- app_assoc. reflexivity.
Qed.

Lemma exit_status_witness :
  exists before w,
    main env_quit [ "play_mod"%string ] = Exit 0 w
    /\ log w = before ++ toolkit_shutdown boot_fine.
Proof.
  destruct (main env_quit [ "play_mod"%string ]) as [n w| | |] eqn:E;
    try (vm_compute in E; discriminate E).
  destruct (exit_status env_quit [ "play_mod"%string ] n w E)
    as [(-> & _ & before & Hlog) | (-> & _)].
  - exists before, w. split; [reflexivity | exact Hlog].
  - vm_compute in E. discriminate E.
Defined.

(** ** From the prompt to the main loop *)

Lemma wait_for_file_modfile env results sc f win r : forall m w m' fl w',
  modfile_ok m ->
  wait_for_file env results sc f win r m w = WaitLeft m' fl w' ->
  modfile_ok m'.
Proof.
  induction results as [|[[| k | file |]|] rest IH]; intros m w m' fl w' Hm H;
    cbn [wait_for_file] in H; try discriminate H; eauto.
  - injection H as <- _ _. apply strncpy_ok, Hm.
  - destruct (negb (Ascii.eqb (hd NUL m) NUL)).
    + injection H as <- _ _. exact Hm.
    + destruct (prompt env sc f win); [eauto | discriminate H].
Qed.

(** X7: when the start-up succeeds, with a surface for the window, and
    every step of the first load succeeds, [main] goes into the main loop
    with both flags at 0, nothing done, the information panel selected, the
    new context as user data of the callback and [mi.mod] pointing to the
    module loaded into it, behind exactly the calls that create the
    context, load the file named by [modfile], read its information, open
    the audio device, start the player and unpause the audio. *)
Theorem main_enters_loop (env : Env) (argv : list string)
    (m : list ascii) (file_loaded : Z) (w : World) :
  started env ->
  startup_wait env argv = WaitLeft m file_loaded w ->
  load_failed (loads env 0) = false ->
  let c := ans_xmp_create_context (loads env 0) in
  exists s0 w0,
    main env argv = main_loop env (frames env) s0 w0
    /\ loop_state env s0
    /\ log w0 = log w ++ load_calls c (cstr m)
    /\ globals s0 = mkGlobals 0 0
    /\ done (locals s0) = 0 /\ show_visualizer (locals s0) = 0
    /\ modfile (locals s0) = m /\ ctx (locals s0) = c
    /\ mi (locals s0) = mkModuleInfo c
    /\ modules w0 c = Some (ans_xmp_get_module_info (loads env 0))
    /\ module_current s0 w0
    /\ screen (locals s0) <> 0
    /\ userdata (spec (locals s0)) = c.
Proof.
  intros Hstart Hwait Hload c.
  pose proof (wait_for_file_attempts env (waits env)
                (ans_SDL_GetWindowSurface (boot env))
                (ans_TTF_OpenFont (boot env))
                (ans_SDL_CreateWindow (boot env))
                (ans_SDL_CreateRenderer (boot env))
                (initial_modfile argv) (boot_world env)) as Ha.
  fold (startup_wait env argv) in Ha. rewrite Hwait in Ha.
  rewrite boot_world_attempts in Ha.
  assert (Hm : modfile_ok m).
  { unfold startup_wait in Hwait.
    eapply wait_for_file_modfile; [apply initial_modfile_ok | exact Hwait]. }
  rewrite <- Ha in Hload.
  destruct (play_enters_loop env m file_loaded (ans_TTF_OpenFont (boot env))
              (ans_SDL_CreateWindow (boot env))
              (ans_SDL_CreateRenderer (boot env))
              (ans_SDL_GetWindowSurface (boot env)) w Hload)
    as (Hc & w0 & Hlog & _ & Hmod & Hplay).
  rewrite Ha in Hc, Hlog, Hmod, Hplay. fold c in Hc, Hlog, Hmod, Hplay.
  assert (Hin : modules w0 c = Some (ans_xmp_get_module_info (loads env 0)))
    by (rewrite Hmod; apply store_same).
  eexists _, w0. split.
  - rewrite (main_started env argv Hstart), Hwait. exact Hplay.
  - split; [constructor; assumption|]. split; [exact Hlog|].
    repeat split; try exact Hin; try apply Hstart.
    cbn. rewrite Hin. discriminate.
Qed.

Lemma main_enters_loop_witness :
  exists s0 w0,
    main env_keys [ "play_mod"%string ] = main_loop env_keys (frames env_keys) s0 w0
    /\ cstr (modfile (locals s0)) = "a.mod"%string.
Proof.
  assert (Hs : started env_keys) by (split; [reflexivity | discriminate]).
  assert (Hw : startup_wait env_keys [ "play_mod"%string ]
               = WaitLeft
                   (strncpy (initial_modfile [ "play_mod"%string ]) "a.mod"
                      1023) 1
                   (emit [ SDL_free "a.mod" ] (boot_world env_keys)))
    by reflexivity.
  assert (Hl : load_failed (loads env_keys 0) = false) by reflexivity.
  destruct (main_enters_loop env_keys [ "play_mod"%string ] _ _ _ Hs Hw Hl)
    as (s0 & w0 & Hmain & _ & _ & _ & _ & _ & Hm & _).
  exists s0, w0. split; [exact Hmain|]. rewrite Hm.
  apply strncpy_cstr; [apply initial_modfile_ok | cbn; lia | reflexivity].
Defined.

(** ** Waiting without a path *)

Lemma wait_for_file_no_drop env results sc f win r m : forall w,
  sc <> 0 ->
  hd NUL m = NUL ->
  existsb is_drop results = false ->
  match wait_for_file env results sc f win r m w with
  | WaitQuit w' =>
      In (Some SDL_QUIT) results
      /\ existsb is_playback_call (log w')
         = existsb is_playback_call (log w)
  | WaitBlocked w' =>
      existsb is_playback_call (log w') = existsb is_playback_call (log w)
  | WaitLeft _ _ _ | WaitFault _ => False
  end.
Proof.
  intros w Hsc Hm. revert w.
  induction results as [|x rest IH]; intros w Hd; cbn [wait_for_file];
    [reflexivity|].
  cbn [existsb] in Hd. apply orb_false_elim in Hd as [Hx Hd].
  destruct x as [[| k | file |]|]; try discriminate Hx.
  - split; [left; reflexivity|]. cbn [log emit].
    rewrite existsb_app. cbn. apply orb_false_r.
  - specialize (IH w Hd).
    destruct (wait_for_file env rest sc f win r m w); [|exact IH..].
    destruct IH as [Hin Hlog]. split; [right; exact Hin | exact Hlog].
  - specialize (IH w Hd).
    destruct (wait_for_file env rest sc f win r m w); [|exact IH..].
    destruct IH as [Hin Hlog]. split; [right; exact Hin | exact Hlog].
  - rewrite Hm. cbn [Ascii.eqb negb].
    replace (Ascii.eqb NUL NUL) with true by reflexivity. cbn [negb].
    pose proof (prompt_drawn env sc f win Hsc) as Hprompt.
    destruct (prompt env sc f win) as [calls|]; [|discriminate Hprompt].
    specialize (IH (emit calls w) Hd).
    assert (Hp : existsb is_playback_call (log (emit calls w))
                 = existsb is_playback_call (log w)).
    { cbn [log emit].
      rewrite existsb_app, (prompt_no_playback env sc f win calls).
      - apply orb_false_r.
      - rewrite Hprompt. exact (prompt_drawn env sc f win Hsc). }
    destruct (wait_for_file env rest sc f win r m _); [| |exact IH..].
    + destruct IH as [Hin Hlog]. split; [right; exact Hin | congruence].
    + congruence.
Qed.

Lemma initial_modfile_empty argv :
  (List.length argv < 2)%nat \/ nth_error argv 1 = Some EmptyString ->
  hd NUL (initial_modfile argv) = NUL.
Proof.
  intros [H | H]; unfold initial_modfile.
  - destruct (Nat.leb_spec 2 (List.length argv)); [lia | reflexivity].
  - destruct (2 <=? List.length argv)%nat; [|reflexivity].
    rewrite (nth_error_nth argv 1 EmptyString H). reflexivity.
Qed.

(** X5: once the start-up has succeeded, with a surface for the window,
    and without a path on the command line, or with an empty one, and with
    no file ever dropped, nothing is loaded or played: key presses and
    failures of [SDL_WaitEvent] leave the program waiting, and it either
    stays blocked or ends on a quit with status 0. *)
Theorem no_path_nothing_played (env : Env) (argv : list string) :
  started env ->
  (List.length argv < 2)%nat \/ nth_error argv 1 = Some EmptyString ->
  existsb is_drop (waits env) = false ->
  match main env argv with
  | Exit n w =>
      n = 0 /\ In (Some SDL_QUIT) (waits env)
      /\ existsb is_playback_call (log w) = false
  | Blocked w => existsb is_playback_call (log w) = false
  | Running _ _ | Fault _ => False
  end.
Proof.
  intros Hstart Hargv Hdrop.
  rewrite (main_started env argv Hstart). unfold startup_wait.
  pose proof (wait_for_file_no_drop env (waits env)
                (ans_SDL_GetWindowSurface (boot env))
                (ans_TTF_OpenFont (boot env))
                (ans_SDL_CreateWindow (boot env))
                (ans_SDL_CreateRenderer (boot env))
                (initial_modfile argv) (boot_world env) (proj2 Hstart)
                (initial_modfile_empty argv Hargv) Hdrop) as W.
  destruct (wait_for_file env (waits env) _ _ _ _ _ _) as [w|w|m fl w|w];
    cbn [after_wait].
  - destruct W as [Hin Hlog]. rewrite boot_world_no_playback in Hlog.
    repeat split; assumption.
  - rewrite boot_world_no_playback in W. exact W.
  - contradiction.
  - contradiction.
Qed.

Lemma no_path_nothing_played_witness :
  match main (mkEnv boot_fine (fun _ => load_fine) (fun _ => true)
                [ None; Some (SDL_KEYDOWN SDLK_SPACE); Some SDL_QUIT ] [])
          [ "play_mod"%string ] with
  | Exit n w => n = 0
  | _ => False
  end.
Proof.
  assert (Hargv : (List.length [ "play_mod"%string ] < 2)%nat) by (cbn; lia).
  assert (Hs : started
                 (mkEnv boot_fine (fun _ => load_fine) (fun _ => true)
                    [ None; Some (SDL_KEYDOWN SDLK_SPACE); Some SDL_QUIT ]
                    []))
    by (split; [reflexivity | discriminate]).
  pose proof (no_path_nothing_played
                (mkEnv boot_fine (fun _ => load_fine) (fun _ => true)
                   [ None; Some (SDL_KEYDOWN SDLK_SPACE); Some SDL_QUIT ] [])
                [ "play_mod"%string ] Hs
                (or_introl Hargv) eq_refl) as H.
  remember (main _ [ "play_mod"%string ]) as o eqn:E.
  vm_compute in E. subst o. exact (proj1 H).
Defined.

(** ** What the keys and a dropped file do to the audio *)

(** The callback's view of a state of the main loop. *)
Lemma loop_state_callback (env : Env) (s : State) :
  loop_state env s ->
  (paused (globals s) = 0 \/ paused (globals s) = 1)
  /\ (stopped (globals s) = 0 ->
      userdata (spec (locals s)) = ctx (locals s)).
Proof.
  induction 1 as [m fl c mi f win r sc Hm Hc
                 | s w event _ [Hp Hu] | s w fi s' w' _ [Hp Hu] Hshow].
  - cbn. auto.
  - destruct event as [| [| | |] | file |]; cbn [handle_event fst snd];
      try (solve [ destruct s as [[p st] l]; cbn in *;
                   split; auto; try discriminate;
                   apply IntFacts.lnot_bool ]).
    pose proof (drop_file_effect env file s w) as F. cbv zeta in F.
    destruct (drop_file env file s w) as [[brk s'] w']. cbn [fst snd].
    destruct F as (_ & _ & _ & _ & Hs' & Hp' & Hc' & Hload & _).
    rewrite Hs', Hp', Hc'.
    destruct (load_failed (loads env (attempts w))).
    + split; [exact Hp | discriminate].
    + split; [auto|]. intros _. apply (Hload eq_refl).
  - rewrite (show_frame_state _ _ _ _ _ _ Hshow).
    destruct ((0 <? loop_count fi) || Int.truthy (stopped (globals s)));
      [|split; assumption].
    destruct s as [g l]. split; [exact Hp | exact Hu].
Qed.

Section KeysAndAudio.

Variable decoder : Type.
Variable xmp_play_buffer :
  decoder -> Z -> list Byte.byte -> Z -> Z -> decoder * list Byte.byte.

Lemma run_callback_silent s d stream len :
  0 <= len <= Z.of_nat (List.length stream) ->
  stopped (globals s) <> 0 \/ paused (globals s) <> 0 ->
  run_callback xmp_play_buffer s d stream len
  = Some (s, d, repeat Byte.x00 (Z.to_nat len) ++ skipn (Z.to_nat len) stream).
Proof.
  intros Hlen H. unfold run_callback, fill_audio.
  rewrite (memset0_inside stream len Hlen).
  destruct (Int.truthy (stopped (globals s))) eqn:Hs;
    [destruct s as [[p st] l]; reflexivity|].
  apply IntFacts.truthy_false in Hs.
  destruct H as [H | H]; [contradiction|].
  apply IntFacts.truthy_true in H. rewrite H.
  destruct s as [[p st] l]. reflexivity.
Qed.

Lemma run_callback_plays s d stream len :
  stopped (globals s) = 0 -> paused (globals s) = 0 ->
  run_callback xmp_play_buffer s d stream len
  = Some (s, fst (xmp_play_buffer d (userdata (spec (locals s))) stream len 0),
          snd (xmp_play_buffer d (userdata (spec (locals s))) stream len 0)).
Proof.
  intros Hs Hp. unfold run_callback, fill_audio.
  apply IntFacts.truthy_false in Hs, Hp. rewrite Hs, Hp. cbn [negb].
  destruct (xmp_play_buffer d _ stream len 0) as [d' out].
  destruct s as [[p st] l]. reflexivity.
Qed.

(** X8: while a module plays, SPACE makes the callback write silence and
    leave the replayer alone, and SPACE again makes it decode again; after
    ESCAPE or a quit the callback writes silence whether paused or not; V
    and the other keys leave the audio as it is. *)
Theorem keys_and_audio (env : Env) (s : State) (w : World) (d : decoder)
    (stream : list Byte.byte) (len : Z) :
  0 <= len <= Z.of_nat (List.length stream) ->
  loop_state env s -> stopped (globals s) = 0 ->
  let silence :=
    repeat Byte.x00 (Z.to_nat len) ++ skipn (Z.to_nat len) stream in
  let decoded :=
    xmp_play_buffer d (ctx (locals s)) stream len 0 in
  let after event := snd (fst (handle_event env event s w)) in
  let played st := run_callback xmp_play_buffer st d stream len in
  (paused (globals s) = 0 ->
     played s = Some (s, fst decoded, snd decoded)
     /\ played (after (SDL_KEYDOWN SDLK_SPACE))
        = Some (after (SDL_KEYDOWN SDLK_SPACE), d, silence))
  /\ (paused (globals s) <> 0 ->
        played s = Some (s, d, silence)
        /\ played (after (SDL_KEYDOWN SDLK_SPACE))
           = Some (after (SDL_KEYDOWN SDLK_SPACE), fst decoded, snd decoded))
  /\ (forall event, is_quit event = true ->
        played (after event) = Some (after event, d, silence))
  /\ (forall event,
        event = SDL_KEYDOWN SDLK_v \/ event = SDL_KEYDOWN SDLK_other
        \/ event = SDL_other_event ->
        option_map (fun r => (snd (fst r), snd r)) (played (after event))
        = option_map (fun r => (snd (fst r), snd r)) (played s)).
Proof.
  intros Hlen Hloop Hs silence decoded after played.
  destruct (loop_state_callback env s Hloop) as (Hp & Hu).
  pose proof (Hu Hs) as Hud.
  unfold decoded, played, after. rewrite <- Hud.
  split; [|split; [|split]].
  - intros H0. split; [apply run_callback_plays; assumption|].
    apply run_callback_silent; [exact Hlen|]. right.
    destruct s as [[p st] l]. cbn in *. subst p. discriminate.
  - intros H1. destruct Hp as [Hp | Hp]; [contradiction|].
    split; [apply run_callback_silent; auto|].
    cbn [handle_event fst snd].
    rewrite run_callback_plays;
      destruct s as [[p st] l]; cbn in *; subst; reflexivity.
  - intros event Hq. apply run_callback_silent; [exact Hlen|]. left.
    destruct event as [| [| | |] | file |]; try discriminate Hq;
      destruct s as [[p st] l], l; cbn; lia.
  - intros event [-> | [-> | ->]]; cbn [handle_event fst snd];
      try reflexivity.
    destruct s as [[p st] l]. unfold run_callback.
    cbn [globals locals spec userdata set_show_visualizer with_locals].
    destruct (fill_audio _ _ _ _ _ _) as [[[g d0] o]|]; reflexivity.
Qed.

(** X9: when a dropped file has been loaded and started, the callback
    decodes from the new context, whether the player was paused or not
    before; when a step of the load has failed, the callback writes
    silence. *)
Theorem drop_and_audio (env : Env) (file : string) (s : State) (w : World)
    (d : decoder) (stream : list Byte.byte) (len : Z) :
  0 <= len <= Z.of_nat (List.length stream) ->
  let a := loads env (attempts w) in
  let c := ans_xmp_create_context a in
  let s' := snd (fst (handle_event env (SDL_DROPFILE file) s w)) in
  (load_failed a = false ->
     run_callback xmp_play_buffer s' d stream len
     = Some (s', fst (xmp_play_buffer d c stream len 0),
                 snd (xmp_play_buffer d c stream len 0)))
  /\ (load_failed a = true ->
        run_callback xmp_play_buffer s' d stream len
        = Some (s', d,
                repeat Byte.x00 (Z.to_nat len)
                ++ skipn (Z.to_nat len) stream)).
Proof.
  intros Hlen a c s'. unfold s'. cbn [handle_event].
  pose proof (drop_file_effect env file s w) as F. cbv zeta in F.
  destruct (drop_file env file s w) as [[brk s1] w1]. cbn [fst snd].
  destruct F as (_ & _ & _ & _ & Hs & Hp & _ & Hload & _).
  fold a in Hs, Hp, Hload. fold c in Hload. split; intros Hf.
  - rewrite Hf in Hs, Hp. destruct (Hload Hf) as [_ Hu].
    rewrite <- Hu. apply run_callback_plays; assumption.
  - rewrite Hf in Hs. apply run_callback_silent; [exact Hlen|].
    left. rewrite Hs. discriminate.
Qed.

End KeysAndAudio.

Lemma keys_and_audio_witness :
  run_callback (fun (d : unit) _ s _ _ => (d, s))
    (snd (fst (handle_event env_keys (SDL_KEYDOWN SDLK_SPACE)
                 sample_state sample_world)))
    tt [ Byte.x41; Byte.x42 ] 2
  = Some (snd (fst (handle_event env_keys (SDL_KEYDOWN SDLK_SPACE)
                      sample_state sample_world)),
          tt, [ Byte.x00; Byte.x00 ]).
Proof.
  assert (Hloop : loop_state env_keys sample_state).
  { unfold sample_state. constructor;
      [apply strncpy_ok, modfile_initial_ok | discriminate]. }
  assert (Hlen : 0 <= 2 <= Z.of_nat (List.length [ Byte.x41; Byte.x42 ]))
    by (cbn; lia).
  exact (proj2 (proj1 (keys_and_audio unit (fun d _ s _ _ => (d, s)) env_keys
                         sample_state sample_world tt
                         [ Byte.x41; Byte.x42 ] 2 Hlen Hloop eq_refl)
                  eq_refl)).
Defined.

Lemma drop_and_audio_witness :
  run_callback (fun (d : unit) _ s _ _ => (d, s))
    (snd (fst (handle_event env_keys (SDL_DROPFILE "b.mod")
                 sample_state sample_world)))
    tt [ Byte.x41; Byte.x42 ] 2
  = Some (snd (fst (handle_event env_keys (SDL_DROPFILE "b.mod")
                      sample_state sample_world)),
          tt, [ Byte.x41; Byte.x42 ]).
Proof.
  assert (Hlen : 0 <= 2 <= Z.of_nat (List.length [ Byte.x41; Byte.x42 ]))
    by (cbn; lia).
  exact (proj1 (drop_and_audio unit (fun d _ s _ _ => (d, s)) env_keys
                  "b.mod" sample_state sample_world tt
                  [ Byte.x41; Byte.x42 ] 2 Hlen) eq_refl).
Defined.

(** ** The module behind [mi.mod] *)

Lemma fold_react_kept cs : forall h,
  existsb releases_module cs = false -> fold_left react cs h = h.
Proof.
  induction cs as [|c cs IH]; intros h H; [reflexivity|].
  cbn [existsb] in H. apply orb_false_elim in H as [Hc Hcs].
  cbn [fold_left]. rewrite <- (IH h Hcs) at 2. f_equal.
  destruct c; try reflexivity; discriminate Hc.
Qed.

(** The display of a frame releases no module. *)
Lemma draw_releases_nothing env s h fi :
  existsb releases_module (calls_of (draw env s h fi)) = false.
Proof.
  apply (draw_calls (fun cs => existsb releases_module cs = false) env).
  - reflexivity.
  - intros a b Ha Hb. rewrite existsb_app, Ha, Hb. reflexivity.
  - intros sc f x y t col. unfold render_text.
    destruct (renders env t); reflexivity.
  - reflexivity.
Qed.

Lemma show_frame_modules env fi s w s' w' :
  show_frame env fi s w = (Some s', w') -> modules w' = modules w.
Proof.
  rewrite show_frame_cases. cbv zeta.
  destruct (screen (locals s) =? 0); [discriminate|].
  pose proof (draw_releases_nothing env s (modules w) fi) as E.
  destruct (draw env s (modules w) fi) as [display|calls]; [|discriminate].
  cbn [calls_of] in E.
  intros H. apply (f_equal snd) in H. cbn [snd] in H. subst w'.
  cbn [emit modules]. apply fold_react_kept.
  cbn [app existsb releases_module orb].
  rewrite existsb_app, E. reflexivity.
Qed.

(** X10: [mi.mod] stays valid while the playback goes on.  When it points
    into the current context and this holds a module, the same is true
    after every event that does not leave the polling loop, a file drop
    whose load succeeds included, and after every frame that is drawn, for
    the calls of a frame release no module.  Only a file drop whose load
    fails leaves the polling loop, and it leaves [mi.mod] pointing to a
    module that has been released. *)
Theorem module_stays_current (env : Env) (s : State) (w : World) :
  module_current s w ->
  (forall event,
     let '(brk, s', w') := handle_event env event s w in
     if brk
     then (exists file, event = SDL_DROPFILE file)
          /\ load_failed (loads env (attempts w)) = true
          /\ modules w' (module_of (mi (locals s'))) = None
     else module_current s' w')
  /\ (forall fi s' w',
        show_frame env fi s w = (Some s', w') ->
        module_current s' w' /\ modules w' = modules w).
Proof.
  intros [Hmi Hlive]. split.
  - intros event.
    destruct event as [| [| | |] | file |]; cbn [handle_event];
      try (split; [destruct s as [g l], l; exact Hmi
                  | destruct s as [g l], l; exact Hlive]).
    pose proof (drop_file_effect env file s w) as F.
    pose proof (drop_file_modules env file s w) as M.
    cbv zeta in F, M.
    destruct (drop_file env file s w) as [[brk s'] w'].
    destruct F as (Hb & _ & _ & _ & _ & _ & Hc & _).
    destruct M as [Mok Mfail]. rewrite Hb.
    destruct (load_failed (loads env (attempts w))) eqn:Hload.
    + split; [exists file; reflexivity|]. split; [reflexivity|].
      exact (proj1 (Mfail eq_refl) Hmi).
    + destruct (Mok eq_refl) as [Hptr Hstore].
      split; [congruence|]. rewrite Hc, Hstore. discriminate.
  - intros fi s' w' Hshow.
    pose proof (show_frame_modules _ _ _ _ _ _ Hshow) as Hmod.
    split; [|exact Hmod]. unfold module_current. rewrite Hmod.
    rewrite (show_frame_state _ _ _ _ _ _ Hshow).
    destruct ((0 <? loop_count fi) || Int.truthy (stopped (globals s)));
      [destruct s as [g l], l|]; split; assumption.
Qed.

Lemma module_stays_current_witness :
  module_current
    (snd (fst (handle_event env_keys (SDL_DROPFILE "b.mod") sample_state
                 sample_world)))
    (snd (handle_event env_keys (SDL_DROPFILE "b.mod") sample_state
            sample_world)).
Proof.
  assert (Hc : module_current sample_state sample_world)
    by (split; [reflexivity | discriminate]).
  pose proof (proj1 (module_stays_current env_keys sample_state sample_world
                       Hc) (SDL_DROPFILE "b.mod")) as H.
  destruct (handle_event env_keys (SDL_DROPFILE "b.mod") sample_state
              sample_world) as [[brk s'] w'] eqn:E.
  assert (Hb : brk = false).
  { apply (f_equal (fun r => fst (fst r))) in E. vm_compute in E.
    symmetry. exact E. }
  rewrite Hb in H. exact H.
Defined.

(** ** Text surfaces *)

Lemma count_app p a b : count p (a ++ b) = (count p a + count p b)%nat.
Proof. unfold count. rewrite filter_app, length_app. reflexivity. Qed.

Lemma text_balanced_nil env : text_balanced env [].
Proof. split; reflexivity. Qed.

Lemma text_balanced_app env a b :
  text_balanced env a -> text_balanced env b -> text_balanced env (a ++ b).
Proof.
  unfold text_balanced. rewrite !count_app. intros [Ha1 Ha2] [Hb1 Hb2].
  split; congruence.
Qed.

Lemma render_text_balanced env sc f x y t col :
  text_balanced env (render_text env sc f x y t col).
Proof.
  unfold text_balanced, render_text, count. cbn [filter is_text_blit
    is_text_free is_rendered].
  destruct (renders env t); split; reflexivity.
Qed.

(** X11: in the prompt, which is drawn on every window surface but
    [NULL], and in every display, drawn to its end or not, each text that
    [TTF_RenderUTF8_Blended] turns into a surface is copied to the screen
    once and its surface freed once, and a text it fails on is neither
    copied nor freed. *)
Theorem text_surfaces_balanced (env : Env) :
  (forall sc f x y t col,
     let cs := render_text env sc f x y t col in
     count is_text_blit cs = (if renders env t then 1 else 0)%nat
     /\ count is_text_free cs = (if renders env t then 1 else 0)%nat)
  /\ (forall sc f win,
        sc <> 0 ->
        exists calls,
          prompt env sc f win = Some calls /\ text_balanced env calls)
  /\ (forall s h fi, text_balanced env (calls_of (draw env s h fi))).
Proof.
  split; [|split].
  - intros sc f x y t col. unfold render_text, count.
    cbn [filter is_text_blit is_text_free].
    destruct (renders env t); split; reflexivity.
  - intros sc f win Hsc. eexists.
    split; [exact (prompt_drawn env sc f win Hsc)|].
    change (text_balanced env
              ([ SDL_FillRect sc None black ]
               ++ render_text env sc f 100 80
                    "Drag and drop a module file to play"
                    (mkColor 255 255 255 0)
               ++ [ SDL_UpdateWindowSurface win ])).
    repeat apply text_balanced_app;
      first [apply render_text_balanced | split; reflexivity].
  - apply (draw_calls (text_balanced env) env).
    + apply text_balanced_nil.
    + apply text_balanced_app.
    + apply render_text_balanced.
    + intros sc r c. split; reflexivity.
Qed.

Lemma text_surfaces_balanced_witness :
  exists display,
    draw env_keys sample_state (modules sample_world) sample_frame_info
    = Drawn display
    /\ text_balanced env_keys display.
Proof.
  pose proof (proj2 (proj2 (text_surfaces_balanced env_keys)) sample_state
                (modules sample_world) sample_frame_info) as H.
  destruct (draw env_keys sample_state (modules sample_world)
              sample_frame_info) as [display|calls] eqn:E.
  - exists display. split; [reflexivity | exact H].
  - vm_compute in E. discriminate E.
Defined.

(** ** Frames that cannot be drawn *)

(** X12: a frame cannot be drawn in exactly these cases: the window has no
    surface, whose format the clearing of the screen reads; [mi.mod]
    points to no module; the panel is shown and the frame information
    holds fewer channels than the rows to list, [min(chn, 8)]; the
    visualizer is shown and the module has no channel at all, where the bar
    width divides by zero, or the frame information holds fewer channels
    than the module. *)
Theorem draw_faults_exactly (env : Env) (s : State) (w : World)
    (fi : xmp_frame_info) :
  let have := Z.of_nat (List.length (channel_info fi)) in
  let ptr := module_of (mi (locals s)) in
  (forall m, modules w ptr = Some m -> chn m <= Int.max_int) ->
  (fst (show_frame env fi s w) = None
   <-> screen (locals s) = 0
       \/ modules w ptr = None
       \/ exists m,
            modules w ptr = Some m
            /\ (show_visualizer (locals s) = 0 /\ have < Z.min (chn m) 8
                \/ show_visualizer (locals s) <> 0
                   /\ (chn m = 0 \/ have < chn m))).
Proof.
  intros have ptr Hint. rewrite show_frame_cases. cbv zeta.
  destruct (Z.eqb_spec (screen (locals s)) 0) as [Hsc | Hsc].
  { split; [left; exact Hsc | reflexivity]. }
  fold ptr.
  destruct (modules w ptr) as [m|] eqn:Hm.
  2:{ destruct (draw_dangling env s _ fi Hm) as [calls ->].
      split; [right; left; reflexivity | reflexivity]. }
  specialize (Hint m eq_refl). unfold draw, Int.truthy.
  destruct (Z.eqb_spec (show_visualizer (locals s)) 0) as [Hv | Hv];
    cbn [negb].
  - destruct (Z.le_gt_cases (Z.min (chn m) 8) have) as [Hfit | Hcut].
    + rewrite (draw_info_layout env s _ m fi Hm Hfit). cbn [fst].
      split; [discriminate|].
      intros [H | [H | (m' & H & [[_ Hlt] | [Hnv _]])]];
        [contradiction | discriminate H | | contradiction].
      injection H as <-. lia.
    + destruct (draw_info_broken env s _ m fi Hm Hcut) as [calls ->].
      split; [|reflexivity]. intros _. right. right. exists m.
      split; [reflexivity|]. left. split; assumption.
  - destruct (Z.eq_dec (chn m) 0) as [Hz | Hz].
    { destruct (draw_visualizer_broken env s _ m fi Hm Hint (or_introl Hz))
        as [calls ->].
      split; [|reflexivity]. intros _. right. right.
      exists m. split; [reflexivity|]. right. split; [exact Hv|]. left.
      exact Hz. }
    destruct (bar_width_defined (chn m) Hz) as [bw Hbw].
    destruct (Z.le_gt_cases (chn m) have) as [Hfit | Hcut].
    + rewrite (draw_visualizer_layout env s _ m fi bw Hm Hsc Hint Hbw Hfit).
      cbn [fst]. split; [discriminate|].
      intros [H | [H | (m' & H & [[H0 _] | [_ Hbad]])]];
        [contradiction | discriminate H | contradiction |].
      injection H as <-. lia.
    + destruct (draw_visualizer_broken env s _ m fi Hm Hint
                  (or_intror Hcut)) as [calls ->].
      split; [|reflexivity]. intros _. right. right. exists m.
      split; [reflexivity|]. right. split; [exact Hv|]. right. exact Hcut.
Qed.

(** No frame is drawn on a window without a surface. *)
Lemma draw_faults_exactly_witness :
  fst (show_frame env_keys sample_frame_info sample_state_no_surface
         sample_world)
  = None.
Proof.
  apply draw_faults_exactly.
  - intros m Hm. vm_compute in Hm. injection Hm as <-. vm_compute.
    discriminate.
  - left. reflexivity.
Defined.

(** ** Runs in which no load fails *)

Lemma wait_for_file_no_fault env results sc f win r : forall m w w',
  sc <> 0 -> wait_for_file env results sc f win r m w <> WaitFault w'.
Proof.
  induction results as [|[[| k | file |]|] rest IH]; intros m w w' Hsc;
    cbn [wait_for_file]; try discriminate; try (apply IH; exact Hsc).
  destruct (negb (Ascii.eqb (hd NUL m) NUL)); [discriminate|].
  rewrite (prompt_drawn env sc f win Hsc). apply IH. exact Hsc.
Qed.

Section NoFailedLoad.

Variable env : Env.
Hypothesis loads_fine : forall n, load_failed (loads env n) = false.

Lemma handle_event_playing event s w :
  playing env s w ->
  let '(brk, s', w') := handle_event env event s w in
  brk = false /\ playing env s' w'.
Proof.
  intros (Hsc & Hmi & n & Hmod).
  destruct event as [| [| | |] | file |]; cbn [handle_event];
    try (split; [reflexivity|];
         destruct s as [g l], l; split; [exact Hsc|];
         split; [exact Hmi | exists n; exact Hmod]).
  pose proof (drop_file_effect env file s w) as F.
  pose proof (drop_file_modules env file s w) as M.
  pose proof (handle_event_fixtures env (SDL_DROPFILE file) s w) as X.
  cbv zeta in F, M. cbn [handle_event] in X.
  destruct (drop_file env file s w) as [[brk s'] w']. cbn [fst snd] in X.
  destruct F as (Hb & _ & _ & _ & _ & _ & Hc & _).
  destruct M as [Mok _]. rewrite (loads_fine (attempts w)) in Hb, Mok.
  destruct (Mok eq_refl) as [Hptr Hstore].
  unfold same_fixtures in X. cbv zeta in X.
  destruct X as (_ & _ & _ & _ & _ & Hscreen & _).
  split; [exact Hb|]. split; [rewrite Hscreen; exact Hsc|].
  split; [congruence|]. exists (attempts w). rewrite Hc. exact Hstore.
Qed.

Lemma poll_events_playing events : forall s w,
  playing env s w ->
  playing env (fst (poll_events env events s w))
    (snd (poll_events env events s w)).
Proof.
  induction events as [|e rest IH]; intros s w H; cbn [poll_events];
    [exact H|].
  pose proof (handle_event_playing e s w H) as He.
  destruct (handle_event env e s w) as [[brk s'] w'].
  destruct He as [-> He]. apply IH. exact He.
Qed.

Lemma show_frame_playing fi s w :
  playing env s w ->
  (forall n, 1 <= chn (ans_xmp_get_module_info (loads env n)) <= Int.max_int
             /\ chn (ans_xmp_get_module_info (loads env n))
                <= Z.of_nat (List.length (channel_info fi))) ->
  exists s' w', show_frame env fi s w = (Some s', w') /\ playing env s' w'.
Proof.
  intros (Hsc & Hmi & n & Hmod) Hfit.
  assert (Hd : exists s' w', show_frame env fi s w = (Some s', w')).
  { apply show_frame_drawable.
    - intros m Hm. rewrite Hmi, Hmod in Hm. injection Hm as <-.
      apply (Hfit n).
    - split; [exact Hsc|].
      exists (ans_xmp_get_module_info (loads env n)).
      split; [rewrite Hmi; exact Hmod|].
      destruct (Hfit n) as [[H1 _] Hle].
      destruct (show_visualizer (locals s) =? 0); lia. }
  destruct Hd as (s' & w' & Hshow). exists s', w'. split; [exact Hshow|].
  unfold playing. rewrite (show_frame_modules _ _ _ _ _ _ Hshow).
  rewrite (show_frame_state _ _ _ _ _ _ Hshow).
  destruct ((0 <? loop_count fi) || Int.truthy (stopped (globals s)));
    [destruct s as [g l], l|];
    (split; [exact Hsc|]; split; [exact Hmi|]; exists n; exact Hmod).
Qed.

Lemma main_loop_playing inputs : forall s w,
  playing env s w ->
  (forall n, 1 <= chn (ans_xmp_get_module_info (loads env n)) <= Int.max_int) ->
  Forall (fun input =>
            forall n, chn (ans_xmp_get_module_info (loads env n))
                      <= Z.of_nat (List.length
                                     (channel_info (frame_info input))))
    inputs ->
  forall w', main_loop env inputs s w <> Fault w'.
Proof.
  induction inputs as [|input rest IH]; intros s w Hplay Hchn Hfit w';
    cbn [main_loop].
  - destruct (Int.truthy (done (locals s))); discriminate.
  - destruct (Int.truthy (done (locals s))); [discriminate|].
    apply Forall_cons_iff in Hfit as [Hfit Hrest].
    unfold frame.
    pose proof (poll_events_playing (pending input) s w Hplay) as Hp.
    destruct (poll_events env (pending input) s w) as [s1 w1].
    cbn [fst snd] in Hp.
    destruct (show_frame_playing (frame_info input) s1 w1 Hp)
      as (s2 & w2 & -> & Hp2).
    + intros n. split; [apply Hchn | apply Hfit].
    + apply IH; assumption.
Qed.

End NoFailedLoad.

(** X13: a run in which the start-up succeeds, with a surface for the
    window, and no load fails does not fault, whatever the events are, when
    every module loaded has a channel and every frame information holds
    the channels of the modules: such a run returns 0, stays blocked in
    the start-up loop, or is still in the main loop when the script of
    frames ends. *)
Theorem run_never_faults (env : Env) (argv : list string) :
  started env ->
  (forall n, load_failed (loads env n) = false) ->
  (forall n, frames_fit env (ans_xmp_get_module_info (loads env n))) ->
  match main env argv with
  | Exit n _ => n = 0
  | Blocked _ | Running _ _ => True
  | Fault _ => False
  end.
Proof.
  intros Hstart Hload Hfit.
  rewrite (main_started env argv Hstart). unfold startup_wait.
  pose proof (wait_for_file_no_fault env (waits env)
                (ans_SDL_GetWindowSurface (boot env))
                (ans_TTF_OpenFont (boot env))
                (ans_SDL_CreateWindow (boot env))
                (ans_SDL_CreateRenderer (boot env))
                (initial_modfile argv) (boot_world env)) as Hnf.
  destruct (wait_for_file env (waits env) _ _ _ _ _ _)
    as [w1|w1|m fl w1|w1]; cbn [after_wait];
    [reflexivity | exact I | | exact (Hnf w1 (proj2 Hstart) eq_refl)].
  destruct (play_enters_loop env m fl (ans_TTF_OpenFont (boot env))
              (ans_SDL_CreateWindow (boot env))
              (ans_SDL_CreateRenderer (boot env))
              (ans_SDL_GetWindowSurface (boot env)) w1
              (Hload (attempts w1)))
    as (_ & w0 & _ & _ & Hmod & ->).
  match goal with
  | |- match main_loop env ?i ?s ?w with _ => _ end =>
      pose proof (main_loop_exit env i s w) as Hexit;
      pose proof (main_loop_playing env Hload i s w) as Hsafe;
      destruct (main_loop env i s w) as [n w2|w2|s2 w2|w2]
  end; try exact I.
  - exact (proj1 (Hexit n w2 eq_refl)).
  - apply (Hsafe) with (w' := w2); [| | |reflexivity].
    + split; [exact (proj2 Hstart)|]. split; [reflexivity|].
      exists (attempts w1). cbn [entry_state locals ctx].
      rewrite Hmod. apply store_same.
    + intros n. apply (Hfit n).
    + apply Forall_forall. intros input Hin n.
      destruct (Hfit n) as [_ Hall].
      rewrite Forall_forall in Hall. apply Hall. exact Hin.
Qed.

Lemma run_never_faults_witness :
  exists s w, main env_keys [ "play_mod"%string ] = Running s w.
Proof.
  assert (Hs : started env_keys) by (split; [reflexivity | discriminate]).
  assert (Hl : forall n, load_failed (loads env_keys n) = false)
    by (intros n; reflexivity).
  assert (Hf : forall n,
            frames_fit env_keys (ans_xmp_get_module_info (loads env_keys n))).
  { intros n. split; [cbn; unfold Int.max_int; lia|].
    repeat constructor; cbn; lia. }
  pose proof (run_never_faults env_keys [ "play_mod"%string ] Hs Hl Hf) as H.
  destruct (main env_keys [ "play_mod"%string ]) as [n w|w|s w|w] eqn:E.
  - vm_compute in E. discriminate E.
  - vm_compute in E. discriminate E.
  - exists s, w. reflexivity.
  - contradiction.
Defined.
